(** * Congestion control of quic-go (kalelpida fork): the HyStart++ detector
      and the cubicSender state machine.

    Sources embedded here:
      - internal/congestion/hybrid_slow_start_pp.go  (module [Hystartpp])
      - internal/congestion/cubic_sender.go          (section [Sender])
      - the algorithm selectors StartAlgo and CongestionAlgo with
        String2Start and String2Congestion             (module [utils])

    Go's machine integers are modelled as [Z] with the wrap-around written
    out; [time.Duration] is an int64 count of nanoseconds; float64 follows
    the IEEE 754 binary64 operations of [SpecFloat]. *)

From Stdlib Require Import ZArith List Bool Lia.
From Stdlib Require Import Floats.SpecFloat.
From Stdlib Require Strings.String Strings.Ascii.
Import ListNotations.
Import String.StringSyntax.
Open Scope Z_scope.

(** ** Go machine arithmetic *)
Module Go.

Definition max_int64 : Z := 2 ^ 63 - 1.
Definition min_int64 : Z := - 2 ^ 63.

(** Two's complement wrap-around of int64, uint64 and uint32 results. *)
Definition wrap_int64 (z : Z) : Z := (z + 2 ^ 63) mod 2 ^ 64 - 2 ^ 63.
Definition wrap_uint64 (z : Z) : Z := z mod 2 ^ 64.
Definition wrap_uint32 (z : Z) : Z := z mod 2 ^ 32.

Definition in_int64 (z : Z) : Prop := min_int64 <= z <= max_int64.

Definition add64 (a b : Z) : Z := wrap_int64 (a + b).
Definition sub64 (a b : Z) : Z := wrap_int64 (a - b).
Definition mul64 (a b : Z) : Z := wrap_int64 (a * b).

(** Integer division truncates toward zero and panics on a zero divisor:
    [None] is the run-time panic. *)
Definition div64 (a b : Z) : option Z :=
  if b =? 0 then None else Some (wrap_int64 (Z.quot a b)).

(** Division by a non-zero constant cannot panic. *)
Definition quot64 (a b : Z) : Z := wrap_int64 (Z.quot a b).

(** *** float64 *)

Definition prec : Z := 53.
Definition emax : Z := 1024.

(** [float64(x)] for an integer [x]: rounded to nearest, ties to even. *)
Definition float64_of_int (x : Z) : spec_float :=
  binary_normalize prec emax x 0 false.

Definition float64_mul (a b : spec_float) : spec_float := SFmul prec emax a b.

(** The value of a finite float, truncated toward zero. *)
Definition trunc_finite (s : bool) (m : positive) (e : Z) : Z :=
  let a := if 0 <=? e then Z.pos m * 2 ^ e else Z.pos m / 2 ^ (- e) in
  if s then - a else a.

(** [int64(f)]: truncation toward zero. Go leaves the result open when the
    value does not fit; amd64 yields the smallest int64 there. *)
Definition int64_of_float64 (f : spec_float) : Z :=
  match f with
  | S754_zero _ => 0
  | S754_finite s m e =>
      let v := trunc_finite s m e in
      if (min_int64 <=? v) && (v <=? max_int64) then v else min_int64
  | _ => min_int64
  end.

(** The float64 nearest to a decimal constant [n/d]. *)
Definition float64_const (n d : Z) : spec_float :=
  SFdiv prec emax (float64_of_int n) (float64_of_int d).

Definition float64_add (a b : spec_float) : spec_float := SFadd prec emax a b.
Definition float64_div (a b : spec_float) : spec_float := SFdiv prec emax a b.

(** What [float64(x)] is for [0 <= x < 2^53]: zero, or a normalised
    mantissa that holds [x] shifted left. *)
Inductive exact_float (x : Z) : spec_float -> Prop :=
| exact_zero : x = 0 -> exact_float x (S754_zero false)
| exact_finite (mz : positive) (s : Z) :
    0 <= s ->
    Z.pos mz = x * 2 ^ s ->
    2 ^ 52 <= Z.pos mz < 2 ^ 53 ->
    exact_float x (S754_finite false mz (- s)).

End Go.

(** ** math: Min and Max of Go's standard library, after their documented
    special cases *)
Module math.

Definition IsNaN (f : spec_float) : bool :=
  match f with S754_nan => true | _ => false end.

(** [IsInf(f, sign)] for [sign] 1 ([neg = false]) and -1 ([neg = true]). *)
Definition IsInf (f : spec_float) (neg : bool) : bool :=
  match f with S754_infinity s => Bool.eqb s neg | _ => false end.

Definition Min (x y : spec_float) : spec_float :=
  if IsInf x true || IsInf y true then S754_infinity true
  else if IsNaN x || IsNaN y then S754_nan
  else
    match x, y with
    | S754_zero sx, S754_zero _ => if sx then x else y
    | _, _ => if SFltb x y then x else y
    end.

Definition Max (x y : spec_float) : spec_float :=
  if IsInf x false || IsInf y false then S754_infinity false
  else if IsNaN x || IsNaN y then S754_nan
  else
    match x, y with
    | S754_zero sx, S754_zero _ => if sx then y else x
    | _, _ => if SFltb y x then x else y
    end.

End math.

(** ** utils: min/max helpers and the algorithm selectors *)
Module utils.

Definition MinDuration (a b : Z) : Z := if a >? b then b else a.
Definition MaxDuration (a b : Z) : Z := if a >? b then a else b.
Definition MaxPacketNumber (a b : Z) : Z := if a >? b then a else b.
Definition MinByteCount (a b : Z) : Z := if a <? b then a else b.

Inductive StartAlgo := ChooseSlowStart | ChooseHystart | ChooseHystartpp.
Inductive CongestionAlgo := ChooseNewReno | ChooseCubic.

(** What the sender reads from the RTT estimator it points to. *)
Record RTTStats := mkRTT {
  LatestRTT : Z;
  MinRTT : Z;
  SmoothedRTT : Z
}.


(** *** The option names *)

Import Ascii String.

Definition is_upper (c : ascii) : bool :=
  (65 <=? N_of_ascii c)%N && (N_of_ascii c <=? 90)%N.

(** One byte of an ASCII string under [strings.ToLower]: the letters
    ['A'..'Z'] move to ['a'..'z'], every other byte stays. *)
Definition lower_byte (c : ascii) : ascii :=
  if is_upper c then ascii_of_N (N_of_ascii c + 32) else c.

(** [strings.ToLower] on a string whose bytes are all below 0x80. (On other
    strings Go decodes UTF-8 and maps every rune through [unicode.ToLower];
    that part of the library is not modelled, and the facts about the names
    are about ASCII names.) *)
Fixpoint ToLower (s : string) : string :=
  match s with
  | EmptyString => EmptyString
  | String c s' => String (lower_byte c) (ToLower s')
  end.

Fixpoint isASCII (s : string) : bool :=
  match s with
  | EmptyString => true
  | String c s' => (N_of_ascii c <? 128)%N && isASCII s'
  end.

Definition String2Start (nomAlgo : string) : StartAlgo :=
  let nom := ToLower nomAlgo in
  if (nom =? "slowstart")%string || (nom =? "ss")%string
  then ChooseSlowStart
  else if (nom =? "hystart")%string || (nom =? "h")%string
  then ChooseHystart
  else if (nom =? "hystartpp")%string || (nom =? "hystart++")%string
          || (nom =? "hpp")%string || (nom =? "h++")%string
  then ChooseHystartpp
  else ChooseHystart.

Definition String2Congestion (nomAlgo : string) : CongestionAlgo :=
  let nom := ToLower nomAlgo in
  if (nom =? "cubic")%string || (nom =? "c")%string
  then ChooseCubic
  else if (nom =? "newreno")%string || (nom =? "reno")%string
          || (nom =? "nr")%string
  then ChooseNewReno
  else ChooseNewReno.

(** Two bytes that are the same, or the same letter in its two cases. *)
Definition same_letter (a b : ascii) : bool :=
  (a =? b)%char
  || (is_upper a && (N_of_ascii b =? N_of_ascii a + 32)%N)
  || (is_upper b && (N_of_ascii a =? N_of_ascii b + 32)%N).

(** Two strings that differ at most in the case of their ASCII letters. *)
Fixpoint same_fold (s t : string) : bool :=
  match s, t with
  | EmptyString, EmptyString => true
  | String a s', String b t' => same_letter a b && same_fold s' t'
  | _, _ => false
  end.

End utils.

(** ** logging: the congestion states reported to the tracer *)
Module logging.

Inductive CongestionState :=
| CongestionStateSlowStart
| CongestionStateCongestionAvoidance
| CongestionStateRecovery
| CongestionStateApplicationLimited
| CongestionStateLowSlowStart.

Definition CongestionState_eqb (a b : CongestionState) : bool :=
  match a, b with
  | CongestionStateSlowStart, CongestionStateSlowStart
  | CongestionStateCongestionAvoidance, CongestionStateCongestionAvoidance
  | CongestionStateRecovery, CongestionStateRecovery
  | CongestionStateApplicationLimited, CongestionStateApplicationLimited
  | CongestionStateLowSlowStart, CongestionStateLowSlowStart => true
  | _, _ => false
  end.

(** No two neighbours of the list are the same state. *)
Fixpoint no_repeat (l : list CongestionState) : Prop :=
  match l with
  | a :: t =>
      match t with
      | b :: _ => a <> b /\ no_repeat t
      | [] => True
      end
  | [] => True
  end.

End logging.

(** ** hybrid_slow_start_pp.go *)
Module Hystartpp.
Import Go utils.

Definition hybridStartppLowWindow : Z := 16.
Definition hybridStartppNRttSample : Z := 8.
Definition hybridStartppDelayMinThresholdUs : Z := 4000.
Definition hybridStartppDelayMaxThresholdUs : Z := 16000.

(** [hybridStartppL = 2] and [hybridStartppLSS_DIVISOR = 0.25]: untyped
    constants that the source uses as float64 factors only. *)
Definition hybridStartppL : spec_float := Eval vm_compute in float64_of_int 2.
Definition hybridStartppLSS_DIVISOR : spec_float :=
  Eval vm_compute in float64_const 1 4.

Record HybridSlowStartpp := mkHpp {
  endPacketNumber : Z;
  lastSentPacketNumber : Z;
  started : bool;
  currentRoundMinRTT : Z;
  lastRoundMinRTT : Z;
  rttSampleCount : Z;
  inLSS : bool
}.

(** Go's zero value of the struct. *)
Definition zero : HybridSlowStartpp := mkHpp 0 0 false 0 0 0 false.

Definition StartReceiveRound (lastSent : Z) (s : HybridSlowStartpp)
  : HybridSlowStartpp :=
  {| endPacketNumber := lastSent;
     lastSentPacketNumber := lastSentPacketNumber s;
     started := true;
     currentRoundMinRTT := 0;
     lastRoundMinRTT := currentRoundMinRTT s;
     rttSampleCount := 0;
     inLSS := false |}.

Definition IsInLSS (s : HybridSlowStartpp) : bool := inLSS s.

Definition IsEndOfRound (ack : Z) (s : HybridSlowStartpp) : bool :=
  endPacketNumber s <? ack.

Definition UpdateCwndHystartpp
    (ackedBytes cwnd maxDatagramSize ssthresh predictedCAcwnd : Z)
    (s : HybridSlowStartpp) : Z :=
  let step := math.Min (float64_of_int ackedBytes)
                (float64_mul hybridStartppL (float64_of_int maxDatagramSize)) in
  if inLSS s then
    let K := float64_div (float64_of_int cwnd)
               (float64_mul hybridStartppLSS_DIVISOR
                  (float64_of_int ssthresh)) in
    int64_of_float64
      (math.Max (float64_add (float64_of_int cwnd) (float64_div step K))
                (float64_of_int predictedCAcwnd))
  else add64 cwnd (int64_of_float64 step).

(** The first statements of [ShouldExitSlowStart]: round start if needed,
    running minimum, sample counter (uint32). *)
Definition record_sample (latestRTT : Z) (s : HybridSlowStartpp)
  : HybridSlowStartpp :=
  let s1 := if started s then s
            else StartReceiveRound (lastSentPacketNumber s) s in
  {| endPacketNumber := endPacketNumber s1;
     lastSentPacketNumber := lastSentPacketNumber s1;
     started := started s1;
     currentRoundMinRTT := MinDuration (currentRoundMinRTT s1) latestRTT;
     lastRoundMinRTT := lastRoundMinRTT s1;
     rttSampleCount := wrap_uint32 (rttSampleCount s1 + 1);
     inLSS := inLSS s1 |}.

(** The threshold as the source computes it; its untyped constants become
    [time.Duration] values, that is nanoseconds. *)
Definition rttThresh (s : HybridSlowStartpp) : Z :=
  MaxDuration hybridStartppDelayMaxThresholdUs
    (MinDuration (quot64 (lastRoundMinRTT s) 8)
                 hybridStartppDelayMaxThresholdUs).

Definition set_inLSS (b : bool) (s : HybridSlowStartpp) : HybridSlowStartpp :=
  {| endPacketNumber := endPacketNumber s;
     lastSentPacketNumber := lastSentPacketNumber s;
     started := started s;
     currentRoundMinRTT := currentRoundMinRTT s;
     lastRoundMinRTT := lastRoundMinRTT s;
     rttSampleCount := rttSampleCount s;
     inLSS := b |}.

Definition ShouldExitSlowStart
    (latestRTT minRTT congestionWindow maxSegmentSize : Z)
    (s : HybridSlowStartpp) : bool * HybridSlowStartpp :=
  let s2 := record_sample latestRTT s in
  if (congestionWindow >=? mul64 hybridStartppLowWindow maxSegmentSize)
     && (rttSampleCount s2 >=? hybridStartppNRttSample)
  then
    if currentRoundMinRTT s2 >=? add64 (lastRoundMinRTT s2) (rttThresh s2)
    then (true, set_inLSS true s2)
    else (false, s2)
  else (false, s2).

Definition OnPacketSent (packetNumber : Z) (s : HybridSlowStartpp)
  : HybridSlowStartpp :=
  {| endPacketNumber := endPacketNumber s;
     lastSentPacketNumber := packetNumber;
     started := started s;
     currentRoundMinRTT := currentRoundMinRTT s;
     lastRoundMinRTT := lastRoundMinRTT s;
     rttSampleCount := rttSampleCount s;
     inLSS := inLSS s |}.

Definition set_started (b : bool) (s : HybridSlowStartpp) : HybridSlowStartpp :=
  {| endPacketNumber := endPacketNumber s;
     lastSentPacketNumber := lastSentPacketNumber s;
     started := b;
     currentRoundMinRTT := currentRoundMinRTT s;
     lastRoundMinRTT := lastRoundMinRTT s;
     rttSampleCount := rttSampleCount s;
     inLSS := inLSS s |}.

Definition OnPacketAcked (ackedPacketNumber : Z) (s : HybridSlowStartpp)
  : HybridSlowStartpp :=
  if IsEndOfRound ackedPacketNumber s then set_started false s else s.

Definition Restart (s : HybridSlowStartpp) : HybridSlowStartpp :=
  set_started false s.

(** *** The exit rule as the specification words it *)

Definition ms : Z := 1000000.

Definition clamp (x lo hi : Z) : Z := Z.max lo (Z.min x hi).

Definition spec_rtt_thresh (s : HybridSlowStartpp) : Z :=
  clamp (Z.quot (lastRoundMinRTT s) 8) (4 * ms) (16 * ms).

(** Evaluated on the state after the sample has been recorded. *)
Definition spec_exit (congestionWindow maxDatagramSize : Z)
    (s2 : HybridSlowStartpp) : bool :=
  (congestionWindow >=? 16 * maxDatagramSize)
  && (rttSampleCount s2 >=? 8)
  && (currentRoundMinRTT s2 >=? lastRoundMinRTT s2 + spec_rtt_thresh s2).

(** *** Call sequences on one detector *)

Inductive call :=
| CStartReceiveRound (lastSent : Z)
| COnPacketSent (packetNumber : Z)
| COnPacketAcked (ackedPacketNumber : Z)
| CShouldExitSlowStart (latestRTT minRTT congestionWindow maxSegmentSize : Z)
| CRestart.

Definition nonneg_sample (c : call) : Prop :=
  match c with
  | CShouldExitSlowStart latestRTT _ _ _ => 0 <= latestRTT
  | _ => True
  end.

(** One call: the flag [ShouldExitSlowStart] returns, if it is that call,
    and the detector afterwards. *)
Definition do_call (c : call) (s : HybridSlowStartpp)
  : option bool * HybridSlowStartpp :=
  match c with
  | CStartReceiveRound l => (None, StartReceiveRound l s)
  | COnPacketSent pn => (None, OnPacketSent pn s)
  | COnPacketAcked pn => (None, OnPacketAcked pn s)
  | CShouldExitSlowStart l m w mss =>
      let '(b, s') := ShouldExitSlowStart l m w mss s in (Some b, s')
  | CRestart => (None, Restart s)
  end.

(** Runs the calls in order and collects the returned flags. *)
Fixpoint run (cs : list call) (s : HybridSlowStartpp)
  : list bool * HybridSlowStartpp :=
  match cs with
  | [] => ([], s)
  | c :: cs' =>
      let '(o, s1) := do_call c s in
      let '(bs, s2) := run cs' s1 in
      (match o with Some b => b :: bs | None => bs end, s2)
  end.

(** The two readings of a detector that C2 is about: both minima at zero and
    LSS not entered. *)
Definition quiet (s : HybridSlowStartpp) : Prop :=
  currentRoundMinRTT s = 0 /\ lastRoundMinRTT s = 0 /\ inLSS s = false.

(** A round of nine samples of 50 ms on a window of 32 datagrams, closed by
    an acknowledgement past the round's end, then a sample of 90 ms. *)
Definition nine_samples : list call :=
  COnPacketSent 5
  :: repeat (CShouldExitSlowStart (50 * ms) (50 * ms) 38400 1200) 9
  ++ [COnPacketAcked 6; CShouldExitSlowStart (90 * ms) (50 * ms) 38400 1200].

(** The number of RTT samples among the calls. *)
Fixpoint samples (cs : list call) : Z :=
  match cs with
  | [] => 0
  | CShouldExitSlowStart _ _ _ _ :: cs' => 1 + samples cs'
  | _ :: cs' => samples cs'
  end.

(** A detector that has taken at most [k] samples in its round, or has no
    round running. *)
Definition at_most (k : Z) (s : HybridSlowStartpp) : Prop :=
  started s = false \/ 0 <= rttSampleCount s <= k.

(** Seven samples of 90 ms on a window of 32 datagrams. *)
Definition seven_samples : list call :=
  COnPacketSent 5
  :: repeat (CShouldExitSlowStart (90 * ms) (50 * ms) 38400 1200) 7.

End Hystartpp.

(** ** What cubic_sender.go uses and src/ does not hold

    The constants of internal/protocol, the CUBIC window function, the pacer,
    the classic HyStart detector, and the HyStart++ methods the sender calls
    that hybrid_slow_start_pp.go does not define are parameters of the
    sender. State-changing collaborators return their new state.
    [protocol.ByteCount] and [protocol.PacketNumber] are taken as int64, as
    upstream quic-go declares them. *)
Class Env := {
  (* internal/protocol *)
  MaxByteCount : Z;
  MaxCongestionWindowPackets : Z;
  InvalidPacketNumber : Z;
  (* cubic.go *)
  Cubic : Type;
  NewCubic : Cubic;
  Cubic_Reset : Cubic -> Cubic;
  Cubic_OnApplicationLimited : Cubic -> Cubic;
  Cubic_CongestionWindowAfterPacketLoss : Z -> Cubic -> Z * Cubic;
  Cubic_CongestionWindowAfterAck :
    Z -> Z -> Z -> Z -> Cubic -> Z * Cubic;
  (* pacer.go; the pacer calls back for the bandwidth estimate, which reads
     the congestion window and the smoothed RTT *)
  Pacer : Type;
  newPacer : Pacer;
  Pacer_SentPacket : Z -> Z -> Z -> Z -> Pacer -> Pacer;
  Pacer_SetMaxDatagramSize : Z -> Pacer -> Pacer;
  (* hybrid_slow_start.go *)
  HybridSlowStart : Type;
  HybridSlowStart_zero : HybridSlowStart;
  HybridSlowStart_OnPacketSent : Z -> HybridSlowStart -> HybridSlowStart;
  HybridSlowStart_OnPacketAcked : Z -> HybridSlowStart -> HybridSlowStart;
  HybridSlowStart_ShouldExitSlowStart :
    Z -> Z -> Z -> HybridSlowStart -> bool * HybridSlowStart;
  HybridSlowStart_Restart : HybridSlowStart -> HybridSlowStart;
  (* HyStart++ methods named by the sender only *)
  Hpp_QuitLSS : Hystartpp.HybridSlowStartpp -> Hystartpp.HybridSlowStartpp;
  Hpp_ShouldExitSlowStart :
    Z -> Z -> Z -> Hystartpp.HybridSlowStartpp ->
    bool * Hystartpp.HybridSlowStartpp;
  Hpp_UpdateCwndHystartppSlowStart :
    Z -> Z -> Z -> Hystartpp.HybridSlowStartpp -> Z;
  Hpp_UpdateCwndHystartppLowSlowStart :
    Z -> Z -> Z -> Z -> Z -> Hystartpp.HybridSlowStartpp -> Z
}.

(** ** cubic_sender.go *)
Section Sender.
Import Go utils logging.
Import Hystartpp(HybridSlowStartpp).
Context {env : Env}.

Definition maxBurstPackets : Z := 3.
Definition minCongestionWindowPackets : Z := 2.
(** The constant [initialCongestionWindow = 32]; the struct has a field of
    the same name. *)
Definition initialCongestionWindowPackets : Z := 32.

(** [renoBeta = 0.7] as the float64 constant it compiles to. *)
Definition renoBeta : spec_float := Eval vm_compute in float64_const 7 10.

(** Its mantissa: [renoBeta] is [betaM * 2^-53]. *)
Definition betaM : positive := 6305039478318694.

(** [protocol.ByteCount(float64(cwnd) * renoBeta)] *)
Definition renoCutback (cwnd : Z) : Z :=
  int64_of_float64 (float64_mul (float64_of_int cwnd) renoBeta).

(** The struct. The pointers to the RTT estimator and to the clock are not
    fields here: what the sender reads through them is an argument of the
    operation that reads it. [tracer] is [None] for a nil tracer and
    otherwise holds the calls of [UpdatedCongestionState] the sink has
    received from this sender, oldest first. *)
Record cubicSender := mkSender {
  hybridSlowStart : HybridSlowStart;
  hybridSlowStartpp : HybridSlowStartpp;
  cubic : Cubic;
  pacer : Pacer;
  chosenStartAlgo : StartAlgo;
  chosenCongestionAlgo : CongestionAlgo;
  largestSentPacketNumber : Z;
  largestAckedPacketNumber : Z;
  largestSentAtLastCutback : Z;
  lastCutbackExitedSlowstart : bool;
  congestionWindow : Z;
  slowStartThreshold : Z;
  numAckedPackets : Z;
  initialCongestionWindow : Z;
  initialMaxCongestionWindow : Z;
  maxDatagramSize : Z;
  lastState : CongestionState;
  tracer : option (list CongestionState)
}.

Definition set_hybridSlowStart (v : HybridSlowStart) (c : cubicSender) : cubicSender :=
  mkSender v (hybridSlowStartpp c) (cubic c) (pacer c) (chosenStartAlgo c)
    (chosenCongestionAlgo c) (largestSentPacketNumber c)
    (largestAckedPacketNumber c) (largestSentAtLastCutback c)
    (lastCutbackExitedSlowstart c) (congestionWindow c)
    (slowStartThreshold c) (numAckedPackets c) (initialCongestionWindow c)
    (initialMaxCongestionWindow c) (maxDatagramSize c) (lastState c)
    (tracer c).

Definition set_hybridSlowStartpp (v : HybridSlowStartpp) (c : cubicSender) : cubicSender :=
  mkSender (hybridSlowStart c) v (cubic c) (pacer c) (chosenStartAlgo c)
    (chosenCongestionAlgo c) (largestSentPacketNumber c)
    (largestAckedPacketNumber c) (largestSentAtLastCutback c)
    (lastCutbackExitedSlowstart c) (congestionWindow c)
    (slowStartThreshold c) (numAckedPackets c) (initialCongestionWindow c)
    (initialMaxCongestionWindow c) (maxDatagramSize c) (lastState c)
    (tracer c).

Definition set_cubic (v : Cubic) (c : cubicSender) : cubicSender :=
  mkSender (hybridSlowStart c) (hybridSlowStartpp c) v (pacer c)
    (chosenStartAlgo c) (chosenCongestionAlgo c) (largestSentPacketNumber c)
    (largestAckedPacketNumber c) (largestSentAtLastCutback c)
    (lastCutbackExitedSlowstart c) (congestionWindow c)
    (slowStartThreshold c) (numAckedPackets c) (initialCongestionWindow c)
    (initialMaxCongestionWindow c) (maxDatagramSize c) (lastState c)
    (tracer c).

Definition set_pacer (v : Pacer) (c : cubicSender) : cubicSender :=
  mkSender (hybridSlowStart c) (hybridSlowStartpp c) (cubic c) v
    (chosenStartAlgo c) (chosenCongestionAlgo c) (largestSentPacketNumber c)
    (largestAckedPacketNumber c) (largestSentAtLastCutback c)
    (lastCutbackExitedSlowstart c) (congestionWindow c)
    (slowStartThreshold c) (numAckedPackets c) (initialCongestionWindow c)
    (initialMaxCongestionWindow c) (maxDatagramSize c) (lastState c)
    (tracer c).

Definition set_chosenStartAlgo (v : StartAlgo) (c : cubicSender) : cubicSender :=
  mkSender (hybridSlowStart c) (hybridSlowStartpp c) (cubic c) (pacer c) v
    (chosenCongestionAlgo c) (largestSentPacketNumber c)
    (largestAckedPacketNumber c) (largestSentAtLastCutback c)
    (lastCutbackExitedSlowstart c) (congestionWindow c)
    (slowStartThreshold c) (numAckedPackets c) (initialCongestionWindow c)
    (initialMaxCongestionWindow c) (maxDatagramSize c) (lastState c)
    (tracer c).

Definition set_largestSentPacketNumber (v : Z) (c : cubicSender) : cubicSender :=
  mkSender (hybridSlowStart c) (hybridSlowStartpp c) (cubic c) (pacer c)
    (chosenStartAlgo c) (chosenCongestionAlgo c) v
    (largestAckedPacketNumber c) (largestSentAtLastCutback c)
    (lastCutbackExitedSlowstart c) (congestionWindow c)
    (slowStartThreshold c) (numAckedPackets c) (initialCongestionWindow c)
    (initialMaxCongestionWindow c) (maxDatagramSize c) (lastState c)
    (tracer c).

Definition set_largestAckedPacketNumber (v : Z) (c : cubicSender) : cubicSender :=
  mkSender (hybridSlowStart c) (hybridSlowStartpp c) (cubic c) (pacer c)
    (chosenStartAlgo c) (chosenCongestionAlgo c) (largestSentPacketNumber c)
    v (largestSentAtLastCutback c) (lastCutbackExitedSlowstart c)
    (congestionWindow c) (slowStartThreshold c) (numAckedPackets c)
    (initialCongestionWindow c) (initialMaxCongestionWindow c)
    (maxDatagramSize c) (lastState c) (tracer c).

Definition set_largestSentAtLastCutback (v : Z) (c : cubicSender) : cubicSender :=
  mkSender (hybridSlowStart c) (hybridSlowStartpp c) (cubic c) (pacer c)
    (chosenStartAlgo c) (chosenCongestionAlgo c) (largestSentPacketNumber c)
    (largestAckedPacketNumber c) v (lastCutbackExitedSlowstart c)
    (congestionWindow c) (slowStartThreshold c) (numAckedPackets c)
    (initialCongestionWindow c) (initialMaxCongestionWindow c)
    (maxDatagramSize c) (lastState c) (tracer c).

Definition set_lastCutbackExitedSlowstart (v : bool) (c : cubicSender) : cubicSender :=
  mkSender (hybridSlowStart c) (hybridSlowStartpp c) (cubic c) (pacer c)
    (chosenStartAlgo c) (chosenCongestionAlgo c) (largestSentPacketNumber c)
    (largestAckedPacketNumber c) (largestSentAtLastCutback c) v
    (congestionWindow c) (slowStartThreshold c) (numAckedPackets c)
    (initialCongestionWindow c) (initialMaxCongestionWindow c)
    (maxDatagramSize c) (lastState c) (tracer c).

Definition set_congestionWindow (v : Z) (c : cubicSender) : cubicSender :=
  mkSender (hybridSlowStart c) (hybridSlowStartpp c) (cubic c) (pacer c)
    (chosenStartAlgo c) (chosenCongestionAlgo c) (largestSentPacketNumber c)
    (largestAckedPacketNumber c) (largestSentAtLastCutback c)
    (lastCutbackExitedSlowstart c) v (slowStartThreshold c)
    (numAckedPackets c) (initialCongestionWindow c)
    (initialMaxCongestionWindow c) (maxDatagramSize c) (lastState c)
    (tracer c).

Definition set_slowStartThreshold (v : Z) (c : cubicSender) : cubicSender :=
  mkSender (hybridSlowStart c) (hybridSlowStartpp c) (cubic c) (pacer c)
    (chosenStartAlgo c) (chosenCongestionAlgo c) (largestSentPacketNumber c)
    (largestAckedPacketNumber c) (largestSentAtLastCutback c)
    (lastCutbackExitedSlowstart c) (congestionWindow c) v
    (numAckedPackets c) (initialCongestionWindow c)
    (initialMaxCongestionWindow c) (maxDatagramSize c) (lastState c)
    (tracer c).

Definition set_numAckedPackets (v : Z) (c : cubicSender) : cubicSender :=
  mkSender (hybridSlowStart c) (hybridSlowStartpp c) (cubic c) (pacer c)
    (chosenStartAlgo c) (chosenCongestionAlgo c) (largestSentPacketNumber c)
    (largestAckedPacketNumber c) (largestSentAtLastCutback c)
    (lastCutbackExitedSlowstart c) (congestionWindow c)
    (slowStartThreshold c) v (initialCongestionWindow c)
    (initialMaxCongestionWindow c) (maxDatagramSize c) (lastState c)
    (tracer c).

Definition set_maxDatagramSize (v : Z) (c : cubicSender) : cubicSender :=
  mkSender (hybridSlowStart c) (hybridSlowStartpp c) (cubic c) (pacer c)
    (chosenStartAlgo c) (chosenCongestionAlgo c) (largestSentPacketNumber c)
    (largestAckedPacketNumber c) (largestSentAtLastCutback c)
    (lastCutbackExitedSlowstart c) (congestionWindow c)
    (slowStartThreshold c) (numAckedPackets c) (initialCongestionWindow c)
    (initialMaxCongestionWindow c) v (lastState c) (tracer c).

Definition set_lastState (v : CongestionState) (c : cubicSender) : cubicSender :=
  mkSender (hybridSlowStart c) (hybridSlowStartpp c) (cubic c) (pacer c)
    (chosenStartAlgo c) (chosenCongestionAlgo c) (largestSentPacketNumber c)
    (largestAckedPacketNumber c) (largestSentAtLastCutback c)
    (lastCutbackExitedSlowstart c) (congestionWindow c)
    (slowStartThreshold c) (numAckedPackets c) (initialCongestionWindow c)
    (initialMaxCongestionWindow c) (maxDatagramSize c) v (tracer c).

Definition set_tracer (v : option (list CongestionState)) (c : cubicSender) : cubicSender :=
  mkSender (hybridSlowStart c) (hybridSlowStartpp c) (cubic c) (pacer c)
    (chosenStartAlgo c) (chosenCongestionAlgo c) (largestSentPacketNumber c)
    (largestAckedPacketNumber c) (largestSentAtLastCutback c)
    (lastCutbackExitedSlowstart c) (congestionWindow c)
    (slowStartThreshold c) (numAckedPackets c) (initialCongestionWindow c)
    (initialMaxCongestionWindow c) (maxDatagramSize c) (lastState c) v.

(** An operation either returns or panics; a panic keeps the state reached
    when it was raised. *)
Inductive outcome :=
| Ok (c : cubicSender)
| Panic (c : cubicSender).

Definition state_of (o : outcome) : cubicSender :=
  match o with Ok c => c | Panic c => c end.

Definition newCubicSender
    (startAlgo : StartAlgo) (congestionAlgo : CongestionAlgo)
    (initialMaxDatagramSize initialCwnd initialMaxCwnd : Z)
    (hasTracer : bool) : cubicSender :=
  {| hybridSlowStart := HybridSlowStart_zero;
     hybridSlowStartpp := Hystartpp.zero;
     cubic := NewCubic;
     pacer := newPacer;
     chosenStartAlgo := startAlgo;
     chosenCongestionAlgo := congestionAlgo;
     largestSentPacketNumber := InvalidPacketNumber;
     largestAckedPacketNumber := InvalidPacketNumber;
     largestSentAtLastCutback := InvalidPacketNumber;
     lastCutbackExitedSlowstart := false;
     congestionWindow := initialCwnd;
     slowStartThreshold := MaxByteCount;
     numAckedPackets := 0;
     initialCongestionWindow := initialCwnd;
     initialMaxCongestionWindow := initialMaxCwnd;
     maxDatagramSize := initialMaxDatagramSize;
     lastState := CongestionStateSlowStart;
     tracer := if hasTracer then Some [CongestionStateSlowStart] else None |}.

Definition NewCubicSender
    (initialMaxDatagramSize : Z)
    (startAlgo : StartAlgo) (congestionAlgo : CongestionAlgo)
    (hasTracer : bool) : cubicSender :=
  newCubicSender startAlgo congestionAlgo initialMaxDatagramSize
    (mul64 initialCongestionWindowPackets initialMaxDatagramSize)
    (mul64 MaxCongestionWindowPackets initialMaxDatagramSize)
    hasTracer.

Definition maxCongestionWindow (c : cubicSender) : Z :=
  mul64 (maxDatagramSize c) MaxCongestionWindowPackets.

Definition minCongestionWindow (c : cubicSender) : Z :=
  mul64 (maxDatagramSize c) minCongestionWindowPackets.

Definition GetCongestionWindow (c : cubicSender) : Z := congestionWindow c.

Definition CanSend (bytesInFlight : Z) (c : cubicSender) : bool :=
  bytesInFlight <? GetCongestionWindow c.

Definition InRecovery (c : cubicSender) : bool :=
  negb (largestAckedPacketNumber c =? InvalidPacketNumber)
  && (largestAckedPacketNumber c <=? largestSentAtLastCutback c).

Definition InSlowStart (c : cubicSender) : bool :=
  GetCongestionWindow c <? slowStartThreshold c.

Definition InLowSlowStart (c : cubicSender) : bool :=
  match chosenStartAlgo c with
  | ChooseHystartpp => Hystartpp.IsInLSS (hybridSlowStartpp c)
  | _ => false
  end.

Definition maybeTraceStateChange (new : CongestionState) (c : cubicSender)
  : cubicSender :=
  match tracer c with
  | None => c
  | Some calls =>
      if CongestionState_eqb new (lastState c) then c
      else set_lastState new (set_tracer (Some (calls ++ [new])) c)
  end.

Definition OnPacketSent (rtt : RTTStats)
    (sentTime packetNumber bytes : Z) (isRetransmittable : bool)
    (c : cubicSender) : cubicSender :=
  let c1 := set_pacer (Pacer_SentPacket sentTime bytes
                         (GetCongestionWindow c) (SmoothedRTT rtt) (pacer c)) c in
  if negb isRetransmittable then c1
  else
    let c2 := set_largestSentPacketNumber packetNumber c1 in
    match chosenStartAlgo c2 with
    | ChooseHystart =>
        set_hybridSlowStart
          (HybridSlowStart_OnPacketSent packetNumber (hybridSlowStart c2)) c2
    | ChooseHystartpp =>
        set_hybridSlowStartpp
          (Hystartpp.OnPacketSent packetNumber (hybridSlowStartpp c2)) c2
    | ChooseSlowStart => c2
    end.

Definition MaybeExitSlowStart (rtt : RTTStats) (c : cubicSender) : outcome :=
  if InSlowStart c then
    match chosenStartAlgo c with
    | ChooseSlowStart => Ok c
    | ChooseHystart =>
        match div64 (GetCongestionWindow c) (maxDatagramSize c) with
        | None => Panic c
        | Some w =>
            let '(exit, h) :=
              HybridSlowStart_ShouldExitSlowStart
                (LatestRTT rtt) (MinRTT rtt) w (hybridSlowStart c) in
            let c1 := set_hybridSlowStart h c in
            if exit then
              Ok (maybeTraceStateChange CongestionStateCongestionAvoidance
                    (set_slowStartThreshold (congestionWindow c1) c1))
            else Ok c1
        end
    | ChooseHystartpp =>
        match div64 (GetCongestionWindow c) (maxDatagramSize c) with
        | None => Panic c
        | Some w =>
            let '(exit, h) :=
              Hpp_ShouldExitSlowStart
                (LatestRTT rtt) (MinRTT rtt) w (hybridSlowStartpp c) in
            let c1 := set_hybridSlowStartpp h c in
            if exit then
              Ok (maybeTraceStateChange CongestionStateLowSlowStart
                    (set_slowStartThreshold (congestionWindow c1) c1))
            else Ok c1
        end
    end
  else Ok c.

Definition isCwndLimited (bytesInFlight : Z) (c : cubicSender) : bool :=
  let cwnd := GetCongestionWindow c in
  if bytesInFlight >=? cwnd then true
  else
    let availableBytes := sub64 cwnd bytesInFlight in
    let slowStartLimited :=
      InSlowStart c && (bytesInFlight >? quot64 cwnd 2) in
    slowStartLimited
    || (availableBytes <=? mul64 maxBurstPackets (maxDatagramSize c)).

(** [min(maxCongestionWindow, cubic.CongestionWindowAfterAck(...))] with the
    CUBIC state it leaves. *)
Definition cubicAfterAck (rtt : RTTStats) (ackedBytes eventTime : Z)
    (c : cubicSender) : Z * Cubic :=
  let '(w, k) :=
    Cubic_CongestionWindowAfterAck ackedBytes (congestionWindow c)
      (MinRTT rtt) eventTime (cubic c) in
  (MinByteCount (maxCongestionWindow c) w, k).

Definition maybeIncreaseCwnd (rtt : RTTStats)
    (ackedBytes priorInFlight eventTime : Z) (c : cubicSender) : outcome :=
  if negb (isCwndLimited priorInFlight c) then
    Ok (maybeTraceStateChange CongestionStateApplicationLimited
          (set_cubic (Cubic_OnApplicationLimited (cubic c)) c))
  else if congestionWindow c >=? maxCongestionWindow c then Ok c
  else if InSlowStart c then
    let c1 := maybeTraceStateChange CongestionStateSlowStart c in
    match chosenStartAlgo c1 with
    | ChooseSlowStart | ChooseHystart =>
        Ok (set_congestionWindow
              (add64 (congestionWindow c1) (maxDatagramSize c1)) c1)
    | ChooseHystartpp =>
        Ok (set_congestionWindow
              (Hpp_UpdateCwndHystartppSlowStart ackedBytes
                 (congestionWindow c1) (maxDatagramSize c1)
                 (hybridSlowStartpp c1)) c1)
    end
  else if InLowSlowStart c then
    let c1 := maybeTraceStateChange CongestionStateLowSlowStart c in
    let lss (caWindow : Z) (c2 : cubicSender) :=
      set_congestionWindow
        (Hpp_UpdateCwndHystartppLowSlowStart ackedBytes
           (congestionWindow c2) (maxDatagramSize c2)
           (slowStartThreshold c2) caWindow (hybridSlowStartpp c2)) c2 in
    match chosenCongestionAlgo c1 with
    | ChooseNewReno =>
        match div64 (congestionWindow c1) (maxDatagramSize c1) with
        | None => Panic c1
        | Some q =>
            let caWindow :=
              if numAckedPackets c1 >=? wrap_uint64 q
              then add64 (congestionWindow c1) (maxDatagramSize c1)
              else congestionWindow c1 in
            Ok (lss caWindow c1)
        end
    | ChooseCubic =>
        let '(caWindow, k) := cubicAfterAck rtt ackedBytes eventTime c1 in
        Ok (lss caWindow (set_cubic k c1))
    end
  else
    let c1 := maybeTraceStateChange CongestionStateCongestionAvoidance c in
    match chosenCongestionAlgo c1 with
    | ChooseNewReno =>
        let c2 := set_numAckedPackets
                    (wrap_uint64 (numAckedPackets c1 + 1)) c1 in
        match div64 (congestionWindow c2) (maxDatagramSize c2) with
        | None => Panic c2
        | Some q =>
            if numAckedPackets c2 >=? wrap_uint64 q then
              Ok (set_numAckedPackets 0
                    (set_congestionWindow
                       (add64 (congestionWindow c2) (maxDatagramSize c2)) c2))
            else Ok c2
        end
    | ChooseCubic =>
        let '(w, k) := cubicAfterAck rtt ackedBytes eventTime c1 in
        Ok (set_congestionWindow w (set_cubic k c1))
    end.

Definition OnPacketAcked (rtt : RTTStats)
    (ackedPacketNumber ackedBytes priorInFlight eventTime : Z)
    (c : cubicSender) : outcome :=
  let c1 := set_largestAckedPacketNumber
              (MaxPacketNumber ackedPacketNumber (largestAckedPacketNumber c))
              c in
  if InRecovery c1 then Ok c1
  else
    match maybeIncreaseCwnd rtt ackedBytes priorInFlight eventTime c1 with
    | Panic c2 => Panic c2
    | Ok c2 =>
        if InSlowStart c2 then
          match chosenStartAlgo c2 with
          | ChooseSlowStart | ChooseHystart =>
              Ok (set_hybridSlowStart
                    (HybridSlowStart_OnPacketAcked ackedPacketNumber
                       (hybridSlowStart c2)) c2)
          | ChooseHystartpp =>
              Ok (set_hybridSlowStartpp
                    (Hystartpp.OnPacketAcked ackedPacketNumber
                       (hybridSlowStartpp c2)) c2)
          end
        else Ok c2
    end.

(** The tail both congestion algorithms share once the window is cut. *)
Definition finishCutback (c : cubicSender) : cubicSender :=
  let c1 := if congestionWindow c <? minCongestionWindow c
            then set_congestionWindow (minCongestionWindow c) c else c in
  let c2 := set_slowStartThreshold (congestionWindow c1) c1 in
  let c3 := set_largestSentAtLastCutback (largestSentPacketNumber c2) c2 in
  set_numAckedPackets 0 c3.

Definition OnPacketLost (packetNumber lostBytes priorInFlight : Z)
    (c : cubicSender) : cubicSender :=
  let c1 :=
    if InLowSlowStart c then
      maybeTraceStateChange CongestionStateCongestionAvoidance
        (set_chosenStartAlgo ChooseSlowStart
           (set_hybridSlowStartpp (Hpp_QuitLSS (hybridSlowStartpp c)) c))
    else c in
  match chosenCongestionAlgo c1 with
  | ChooseNewReno =>
      if packetNumber <=? largestSentAtLastCutback c1 then c1
      else
        let c2 := set_lastCutbackExitedSlowstart (InSlowStart c1) c1 in
        let c3 := maybeTraceStateChange CongestionStateRecovery c2 in
        finishCutback
          (set_congestionWindow (renoCutback (congestionWindow c3)) c3)
  | ChooseCubic =>
      if packetNumber <=? largestSentAtLastCutback c1 then c1
      else
        let c2 := set_lastCutbackExitedSlowstart (InSlowStart c1) c1 in
        let c3 := maybeTraceStateChange CongestionStateRecovery c2 in
        let '(w, k) :=
          Cubic_CongestionWindowAfterPacketLoss (congestionWindow c3)
            (cubic c3) in
        finishCutback (set_congestionWindow w (set_cubic k c3))
  end.

(** The detector restart both [OnRetransmissionTimeout] and
    [OnConnectionMigration] begin with. *)
Definition restartDetector (c : cubicSender) : cubicSender :=
  match chosenStartAlgo c with
  | ChooseHystartpp =>
      set_hybridSlowStartpp (Hystartpp.Restart (hybridSlowStartpp c)) c
  | ChooseHystart =>
      set_hybridSlowStart (HybridSlowStart_Restart (hybridSlowStart c)) c
  | ChooseSlowStart => c
  end.

Definition OnRetransmissionTimeout (packetsRetransmitted : bool)
    (c : cubicSender) : cubicSender :=
  let c1 := set_largestSentAtLastCutback InvalidPacketNumber c in
  if negb packetsRetransmitted then c1
  else
    let c2 := restartDetector c1 in
    let c3 := set_cubic (Cubic_Reset (cubic c2)) c2 in
    let c4 := set_slowStartThreshold (quot64 (congestionWindow c3) 2) c3 in
    set_congestionWindow (minCongestionWindow c4) c4.

Definition OnConnectionMigration (c : cubicSender) : cubicSender :=
  let c1 := restartDetector c in
  let c2 := set_largestSentPacketNumber InvalidPacketNumber c1 in
  let c3 := set_largestAckedPacketNumber InvalidPacketNumber c2 in
  let c4 := set_largestSentAtLastCutback InvalidPacketNumber c3 in
  let c5 := set_lastCutbackExitedSlowstart false c4 in
  let c6 := set_cubic (Cubic_Reset (cubic c5)) c5 in
  let c7 := set_numAckedPackets 0 c6 in
  let c8 := set_congestionWindow (initialCongestionWindow c7) c7 in
  set_slowStartThreshold (initialMaxCongestionWindow c8) c8.

Definition SetMaxDatagramSize (s : Z) (c : cubicSender) : outcome :=
  if s <? maxDatagramSize c then Panic c
  else
    let cwndIsMinCwnd := congestionWindow c =? minCongestionWindow c in
    let c1 := set_maxDatagramSize s c in
    let c2 := if cwndIsMinCwnd
              then set_congestionWindow (minCongestionWindow c1) c1 else c1 in
    Ok (set_pacer (Pacer_SetMaxDatagramSize s (pacer c2)) c2).

(** *** Event sequences *)

Inductive event :=
| EvPacketSent (rtt : RTTStats) (sentTime packetNumber bytes : Z)
    (isRetransmittable : bool)
| EvMaybeExitSlowStart (rtt : RTTStats)
| EvPacketAcked (rtt : RTTStats)
    (ackedPacketNumber ackedBytes priorInFlight eventTime : Z)
| EvPacketLost (packetNumber lostBytes priorInFlight : Z)
| EvRetransmissionTimeout (packetsRetransmitted : bool)
| EvConnectionMigration
| EvSetMaxDatagramSize (s : Z).

Definition step (e : event) (c : cubicSender) : outcome :=
  match e with
  | EvPacketSent rtt t pn b r => Ok (OnPacketSent rtt t pn b r c)
  | EvMaybeExitSlowStart rtt => MaybeExitSlowStart rtt c
  | EvPacketAcked rtt pn b f t => OnPacketAcked rtt pn b f t c
  | EvPacketLost pn b f => Ok (OnPacketLost pn b f c)
  | EvRetransmissionTimeout r => Ok (OnRetransmissionTimeout r c)
  | EvConnectionMigration => Ok (OnConnectionMigration c)
  | EvSetMaxDatagramSize s => SetMaxDatagramSize s c
  end.

(** The events in order; a panic ends the run. *)
Fixpoint run (es : list event) (c : cubicSender) : outcome :=
  match es with
  | [] => Ok c
  | e :: es' =>
      match step e c with
      | Ok c' => run es' c'
      | Panic c' => Panic c'
      end
  end.

(** The calls the tracing sink has received, oldest first. *)
Definition traced (c : cubicSender) : list CongestionState :=
  match tracer c with
  | None => []
  | Some calls => calls
  end.

(** What the tracer sees of one [maybeTraceStateChange]. *)
Definition traces_to (new : CongestionState) (c c' : cubicSender) : Prop :=
  match tracer c with
  | None => tracer c' = None /\ lastState c' = lastState c
  | Some calls =>
      lastState c' = new
      /\ tracer c' = Some (if CongestionState_eqb new (lastState c)
                           then calls else calls ++ [new])
  end.

(** What C9 needs of a state: the calls received so far never repeat a
    neighbour, the last one is the last traced state, the first one is
    SlowStart. *)
Definition trace_inv (lst : CongestionState)
    (tr : option (list CongestionState)) : Prop :=
  match tr with
  | None => True
  | Some calls =>
      no_repeat calls
      /\ last calls CongestionStateSlowStart = lst
      /\ hd_error calls = Some CongestionStateSlowStart
  end.

(** The events C8 names: neither a loss nor a timeout. *)
Definition neither_loss_nor_timeout (e : event) : Prop :=
  match e with
  | EvPacketLost _ _ _ | EvRetransmissionTimeout _ => False
  | _ => True
  end.

(** The events of a connection that sees neither loss nor timeout and is not
    migrated; it may be resized, to a datagram size whose largest window
    stays below [MaxByteCount]. *)
Definition undisturbed (e : event) : Prop :=
  match e with
  | EvPacketSent _ _ _ _ _ | EvMaybeExitSlowStart _ | EvPacketAcked _ _ _ _ _ =>
      True
  | EvSetMaxDatagramSize s =>
      s * Z.max 32 (MaxCongestionWindowPackets + 1) < MaxByteCount
  | _ => False
  end.

(** What C8 keeps true along an undisturbed run of classic slow start. *)
Definition classic_inv (c : cubicSender) : Prop :=
  chosenStartAlgo c = ChooseSlowStart
  /\ slowStartThreshold c = MaxByteCount
  /\ 0 <= maxDatagramSize c
  /\ maxDatagramSize c * Z.max 32 (MaxCongestionWindowPackets + 1)
       < MaxByteCount
  /\ 0 <= congestionWindow c
  /\ congestionWindow c
       <= maxDatagramSize c * Z.max 32 (MaxCongestionWindowPackets + 1).

(** The two fields [maybeTraceStateChange] may write. *)
Definition tracedState (new : CongestionState) (c : cubicSender)
  : CongestionState := lastState (maybeTraceStateChange new c).

Definition tracedCalls (new : CongestionState) (c : cubicSender)
  : option (list CongestionState) := tracer (maybeTraceStateChange new c).

(** A datagram size whose largest window is a small integer: below
    [2^49] every window converts to float64 exactly and no int64
    operation of the sender wraps. *)
Definition fits (s : Z) : Prop :=
  0 < s /\ s * (MaxCongestionWindowPackets + 1) < 2 ^ 49.

Definition no_resize (e : event) : Prop :=
  match e with
  | EvSetMaxDatagramSize _ => False
  | _ => True
  end.

(** A NewReno sender without HyStart++ whose sizes fit: the window is
    below the largest window plus one datagram. *)
Definition window_inv (c : cubicSender) : Prop :=
  chosenCongestionAlgo c = ChooseNewReno
  /\ chosenStartAlgo c <> ChooseHystartpp
  /\ fits (maxDatagramSize c)
  /\ 0 <= congestionWindow c
  /\ congestionWindow c
       < maxDatagramSize c * MaxCongestionWindowPackets + maxDatagramSize c
  /\ 0 <= initialCongestionWindow c
  /\ initialCongestionWindow c
       <= maxDatagramSize c * MaxCongestionWindowPackets.

(** *** The window bounds

    Growth is tested against the largest window before it is applied, so a
    growing window passes the largest window by less than what one
    acknowledgement adds: one datagram, or two under HyStart++. *)
Definition overshoot (sa : StartAlgo) : Z :=
  match sa with ChooseHystartpp => 2 | _ => 1 end.

(** A datagram size whose largest window, overshoot included, is below
    [2^49]; without HyStart++ this is [fits]. *)
Definition fits_for (sa : StartAlgo) (s : Z) : Prop :=
  0 < s /\ s * (MaxCongestionWindowPackets + overshoot sa) < 2 ^ 49.

(** The events the window bounds are stated for: a resize is to a size that
    fits, and under HyStart++ an acknowledgement is for a byte count in
    [0, 2^52). *)
Definition event_sized (sa : StartAlgo) (e : event) : Prop :=
  match e with
  | EvSetMaxDatagramSize s => fits_for sa s
  | EvPacketAcked _ _ ackedBytes _ _ =>
      sa = ChooseHystartpp -> 0 <= ackedBytes < 2 ^ 52
  | _ => True
  end.

(** What the bounds need of the CUBIC window function, which src/ does not
    hold: the loss response does not raise the window (it is a
    multiplication by beta), and an acknowledgement does not lower it. *)
Definition cubic_bounded : Prop :=
  (forall cwnd k, 0 <= cwnd < 2 ^ 49 ->
     fst (Cubic_CongestionWindowAfterPacketLoss cwnd k) <= cwnd)
  /\ (forall ackedBytes cwnd minRTT eventTime k,
        cwnd <= fst (Cubic_CongestionWindowAfterAck
                       ackedBytes cwnd minRTT eventTime k)).

(** What the bounds need of the two HyStart++ growth methods the sender
    calls, which hybrid_slow_start_pp.go does not define: both leave the
    window at least where it was; slow start adds at most two datagrams,
    Low Slow Start at most two datagrams unless the congestion-avoidance
    window it is given is larger. The threshold starts at [MaxByteCount],
    which is positive. *)
Definition hpp_bounded : Prop :=
  0 < MaxByteCount
  /\ (forall ackedBytes cwnd mds s,
        0 <= ackedBytes < 2 ^ 52 -> 0 < mds -> 0 <= cwnd ->
        cwnd + 2 * mds < 2 ^ 50 ->
        cwnd <= Hpp_UpdateCwndHystartppSlowStart ackedBytes cwnd mds s
             <= cwnd + 2 * mds)
  /\ (forall ackedBytes cwnd mds ssthresh caWindow s,
        0 <= ackedBytes < 2 ^ 52 -> 0 < mds -> 0 < ssthresh <= cwnd ->
        cwnd + 2 * mds < 2 ^ 50 -> 0 <= caWindow < 2 ^ 50 ->
        cwnd <= Hpp_UpdateCwndHystartppLowSlowStart
                  ackedBytes cwnd mds ssthresh caWindow s
             <= Z.max (cwnd + 2 * mds) caWindow).

(** What C4 keeps true of a sender built for the datagram size [mds0] and
    the start algorithm [sa0]: the window is at least two initial datagrams
    and below the largest window plus the overshoot. *)
Definition bounds_inv (mds0 : Z) (sa0 : StartAlgo) (c : cubicSender) : Prop :=
  (chosenCongestionAlgo c = ChooseCubic -> cubic_bounded)
  /\ (chosenStartAlgo c = ChooseHystartpp ->
      sa0 = ChooseHystartpp /\ hpp_bounded /\ 0 < slowStartThreshold c)
  /\ 0 < mds0 <= maxDatagramSize c
  /\ maxDatagramSize c * (MaxCongestionWindowPackets + overshoot sa0) < 2 ^ 49
  /\ 2 * mds0 <= congestionWindow c
  /\ congestionWindow c
       < maxDatagramSize c * MaxCongestionWindowPackets
         + overshoot sa0 * maxDatagramSize c
  /\ initialCongestionWindow c = 32 * mds0
  /\ 0 < initialMaxCongestionWindow c.

(** An event of an undisturbed connection whose acknowledgements are for
    packets with a valid number and arrive with at least [inFlight] bytes in
    flight. *)
Definition full_ack (inFlight : Z) (e : event) : Prop :=
  match e with
  | EvPacketAcked _ pn _ f _ => InvalidPacketNumber < pn /\ inFlight <= f
  | EvPacketSent _ _ _ _ _ | EvMaybeExitSlowStart _ => True
  | _ => False
  end.

(** The number of acknowledgements among the events. *)
Fixpoint acks_in (es : list event) : Z :=
  match es with
  | [] => 0
  | EvPacketAcked _ _ _ _ _ :: es' => 1 + acks_in es'
  | _ :: es' => acks_in es'
  end.

(** The packet numbers acknowledged, in order. *)
Fixpoint acked_numbers (es : list event) : list Z :=
  match es with
  | [] => []
  | EvPacketAcked _ pn _ _ _ :: es' => pn :: acked_numbers es'
  | _ :: es' => acked_numbers es'
  end.

(** Whether an operation, or a run, returned. *)
Definition returned (o : outcome) : bool :=
  match o with
  | Ok _ => true
  | Panic _ => false
  end.

Definition keeps_connection (e : event) : Prop :=
  match e with
  | EvConnectionMigration => False
  | _ => True
  end.

Definition is_loss (e : event) : Prop :=
  match e with
  | EvPacketLost _ _ _ => True
  | _ => False
  end.

Definition is_resize_below (c : cubicSender) (e : event) : Prop :=
  match e with
  | EvSetMaxDatagramSize s => s < maxDatagramSize c
  | _ => False
  end.

(** What classic slow start keeps true while nothing is lost: after [n]
    acknowledgements the window is [32 + n] datagrams, capped at the largest
    window. *)
Definition growth_inv (mds0 n : Z) (c : cubicSender) : Prop :=
  chosenStartAlgo c = ChooseSlowStart
  /\ slowStartThreshold c = MaxByteCount
  /\ maxDatagramSize c = mds0
  /\ largestSentAtLastCutback c = InvalidPacketNumber
  /\ InvalidPacketNumber <= largestAckedPacketNumber c
  /\ congestionWindow c = mds0 * Z.min (32 + n) MaxCongestionWindowPackets.

(** An acknowledgement of a packet above the cutback mark of [c0], with at
    least the window of [c0] in flight. *)
Definition ack_after (c0 : cubicSender) (e : event) : Prop :=
  match e with
  | EvPacketAcked _ pn _ f _ =>
      largestSentAtLastCutback c0 < pn /\ congestionWindow c0 <= f
  | _ => False
  end.

(** What NewReno congestion avoidance keeps true between two increases:
    the window and the threshold of [c0], and [j] acknowledgements
    counted. *)
Definition avoidance_inv (c0 : cubicSender) (j : Z) (c : cubicSender) : Prop :=
  chosenCongestionAlgo c = ChooseNewReno
  /\ InLowSlowStart c = false
  /\ maxDatagramSize c = maxDatagramSize c0
  /\ congestionWindow c = congestionWindow c0
  /\ slowStartThreshold c = slowStartThreshold c0
  /\ largestSentAtLastCutback c = largestSentAtLastCutback c0
  /\ numAckedPackets c = j.

Definition is_send (e : event) : Prop :=
  match e with
  | EvPacketSent _ _ _ _ _ => True
  | _ => False
  end.

(** The number of the last retransmittable packet among the sends, [d] if
    there is none. *)
Fixpoint last_retransmittable (es : list event) (d : Z) : Z :=
  match es with
  | [] => d
  | EvPacketSent _ _ pn _ true :: es' => last_retransmittable es' pn
  | _ :: es' => last_retransmittable es' d
  end.

End Sender.

(** ** A concrete environment for running the sender

    The constants are the ones upstream quic-go declares in
    internal/protocol. The collaborators are small stand-ins, not the
    missing code; the concrete runs of this file use NewReno with classic
    slow start, which calls none of them beyond their constructors. *)
Module Upstream.
Import Go utils.

(** Modelled from the spec: [QuitLSS] is missing from
    hybrid_slow_start_pp.go; the loss response sets [in_lss := false]. *)
Definition QuitLSS (s : Hystartpp.HybridSlowStartpp)
  : Hystartpp.HybridSlowStartpp :=
  Hystartpp.set_inLSS false s.

(** A stand-in for the three-argument [ShouldExitSlowStart] the sender
    calls, which is missing: the four-argument method of the source. The
    sender passes the window in packets, so the segment is one packet. *)
Definition ShouldExitSlowStart3 (latestRTT minRTT cwndPackets : Z)
    (s : Hystartpp.HybridSlowStartpp) : bool * Hystartpp.HybridSlowStartpp :=
  Hystartpp.ShouldExitSlowStart latestRTT minRTT cwndPackets 1 s.

(** Modelled from the spec: [UpdateCwndHystartppSlowStart] is missing;
    growth before LSS is [cwnd + min(acked_bytes, 2 * max_datagram_size)]. *)
Definition UpdateCwndHystartppSlowStart (ackedBytes cwnd maxDatagramSize : Z)
    (s : Hystartpp.HybridSlowStartpp) : Z :=
  add64 cwnd (Z.min ackedBytes (2 * maxDatagramSize)).

(** Modelled from the spec: [UpdateCwndHystartppLowSlowStart] is missing;
    with [K = cwnd / (0.25 * ssthresh)] the window becomes
    [max (cwnd + min(acked_bytes, 2 * max_datagram_size) / K, CA window)],
    here in integer arithmetic. *)
Definition UpdateCwndHystartppLowSlowStart
    (ackedBytes cwnd maxDatagramSize ssthresh caWindow : Z)
    (s : Hystartpp.HybridSlowStartpp) : Z :=
  Z.max (cwnd + Z.min ackedBytes (2 * maxDatagramSize) * ssthresh / (4 * cwnd))
        caWindow.

Definition quicgo : Env :=
  {| MaxByteCount := 2 ^ 62 - 1;
     MaxCongestionWindowPackets := 10000;
     InvalidPacketNumber := -1;
     Cubic := unit;
     NewCubic := tt;
     Cubic_Reset := fun k => k;
     Cubic_OnApplicationLimited := fun k => k;
     Cubic_CongestionWindowAfterPacketLoss := fun cwnd k => (cwnd, k);
     Cubic_CongestionWindowAfterAck := fun _ cwnd _ _ k => (cwnd, k);
     Pacer := unit;
     newPacer := tt;
     Pacer_SentPacket := fun _ _ _ _ p => p;
     Pacer_SetMaxDatagramSize := fun _ p => p;
     HybridSlowStart := unit;
     HybridSlowStart_zero := tt;
     HybridSlowStart_OnPacketSent := fun _ h => h;
     HybridSlowStart_OnPacketAcked := fun _ h => h;
     HybridSlowStart_ShouldExitSlowStart := fun _ _ _ h => (false, h);
     HybridSlowStart_Restart := fun h => h;
     Hpp_QuitLSS := QuitLSS;
     Hpp_ShouldExitSlowStart := ShouldExitSlowStart3;
     Hpp_UpdateCwndHystartppSlowStart := UpdateCwndHystartppSlowStart;
     Hpp_UpdateCwndHystartppLowSlowStart := UpdateCwndHystartppLowSlowStart |}.

Definition sender : Type := @cubicSender quicgo.

Definition noRTT : RTTStats := mkRTT 0 0 0.

(** A NewReno sender with classic slow start, datagrams of 1200 bytes and a
    tracer. *)
Definition fresh1200 : sender :=
  @NewCubicSender quicgo 1200 ChooseSlowStart ChooseNewReno true.

(** The same without a tracer. *)
Definition fresh1200_untraced : sender :=
  @NewCubicSender quicgo 1200 ChooseSlowStart ChooseNewReno false.

(** Packets [first], [first + 1], ... ([n] of them), 1200 bytes each, all
    retransmittable. *)
Definition sends (first : Z) (n : nat) : list event :=
  map (fun i => EvPacketSent noRTT 0 (first + Z.of_nat i) 1200 true) (seq 0 n).

(** Acknowledgements of packets [first], [first + 1], ... ([n] of them) of
    1200 bytes each, with [inFlight] bytes in flight before each. *)
Definition acks (first : Z) (n : nat) (inFlight : Z) : list event :=
  map (fun i => EvPacketAcked noRTT (first + Z.of_nat i) 1200 inFlight 0)
      (seq 0 n).

(** 35 datagrams sent, the first three acknowledged: the window has grown
    from 38400 to 42000 bytes. *)
Definition grown42000 : sender :=
  state_of (run (sends 0 35 ++ acks 0 3 42000) fresh1200).

(** The sender of the specification's NewReno loss scenario: window 40000. *)
Definition window40000 : sender := set_congestionWindow 40000 fresh1200.

(** The sender of the specification's RTO scenario. *)
Definition window60000 : sender :=
  set_slowStartThreshold 60000 (set_congestionWindow 60000 fresh1200).

(** The run that brings the window to 2520 bytes: a timeout collapses it to
    2400, one acknowledgement in slow start makes it 3600, a loss cuts it to
    2520. *)
Definition to2520 : list event :=
  [EvRetransmissionTimeout true;
   EvPacketSent noRTT 0 0 1200 true;
   EvPacketSent noRTT 0 1 1200 true;
   EvPacketSent noRTT 0 2 1200 true;
   EvPacketAcked noRTT 0 1200 3600 0;
   EvPacketLost 1 1200 2400].

(** A start with 1200-byte datagrams, raised to 1452 at once, then 9974
    acknowledgements with the window always in flight. *)
Definition grow1452 : list event :=
  EvSetMaxDatagramSize 1452 :: acks 0 (Z.to_nat 9974) 20000000.

(** Sends, acknowledgements, an exit test, a loss, a timeout and a
    migration. *)
Definition eventful : list event :=
  sends 0 5 ++ acks 0 3 6000
  ++ [EvMaybeExitSlowStart noRTT; EvPacketLost 4 1200 6000;
      EvRetransmissionTimeout true; EvConnectionMigration].


(** The eventful run, closed by an attempt to lower the datagram size. *)
Definition shrinking : list event := eventful ++ [EvSetMaxDatagramSize 1000].

(** Five datagrams sent, four of them acknowledged out of order. *)
Definition reordered : list event :=
  sends 0 5
  ++ [EvPacketAcked noRTT 3 1200 6000 0; EvPacketAcked noRTT 1 1200 4800 0;
      EvPacketAcked noRTT 4 1200 3600 0; EvPacketAcked noRTT 2 1200 2400 0].

(** Sixteen datagrams sent and acknowledged with a largest window in
    flight. *)
Definition sixteen : list event := sends 0 16 ++ acks 0 16 12000000.

(** A migration, then 9968 acknowledgements with the window always in
    flight: no loss, no timeout. *)
Definition migrated : list event :=
  EvConnectionMigration :: acks 0 (Z.to_nat 9968) 20000000.

(** Sixteen datagrams sent and acknowledged, an exit test, the datagram
    size raised to 1452, four more acknowledgements. *)
Definition growing : list event :=
  sixteen
  ++ [EvMaybeExitSlowStart noRTT; EvSetMaxDatagramSize 1452]
  ++ acks 16 4 20000000.

(** The eventful run, then the datagram size raised to 1452 and three more
    acknowledgements. *)
Definition resized : list event :=
  eventful ++ [EvSetMaxDatagramSize 1452] ++ acks 5 3 20000000.

(** The fresh sender after the loss of packet 0: window and threshold at
    26880 bytes, that is 22 datagrams and a rest. *)
Definition avoiding26880 : sender := OnPacketLost 0 1200 1200 fresh1200.

End Upstream.

(** * Facts *)

(** ** Machine arithmetic *)
Module GoFacts.
Import Go.

Lemma wrap_int64_id (z : Z) : in_int64 z -> wrap_int64 z = z.
Proof.
  unfold in_int64, min_int64, max_int64, wrap_int64. intros H.
  rewrite Z.mod_small; lia.
Qed.

Lemma wrap_int64_range (z : Z) : in_int64 (wrap_int64 z).
Proof.
  unfold in_int64, min_int64, max_int64, wrap_int64.
  pose proof (Z.mod_pos_bound (z + 2 ^ 63) (2 ^ 64) ltac:(lia)). lia.
Qed.

Lemma MinDuration_min a b : utils.MinDuration a b = Z.min a b.
Proof. unfold utils.MinDuration. destruct (Z.gtb_spec a b); lia. Qed.

Lemma MaxDuration_max a b : utils.MaxDuration a b = Z.max a b.
Proof. unfold utils.MaxDuration. destruct (Z.gtb_spec a b); lia. Qed.

Lemma MaxPacketNumber_max a b : utils.MaxPacketNumber a b = Z.max a b.
Proof. unfold utils.MaxPacketNumber. destruct (Z.gtb_spec a b); lia. Qed.

Lemma MinByteCount_min a b : utils.MinByteCount a b = Z.min a b.
Proof. unfold utils.MinByteCount. destruct (Z.ltb_spec a b); lia. Qed.

End GoFacts.

(** ** The option names *)
Module NameFacts.
Import utils.
Import Ascii String.

Lemma lower_byte_upper (a : ascii) :
  is_upper a = true -> lower_byte a = ascii_of_N (N_of_ascii a + 32).
Proof. unfold lower_byte. intros ->. reflexivity. Qed.

Lemma lower_byte_other (a : ascii) :
  is_upper a = false -> lower_byte a = a.
Proof. unfold lower_byte. intros ->. reflexivity. Qed.

Lemma shifted_is_lower (a b : ascii) :
  is_upper a = true -> (N_of_ascii b =? N_of_ascii a + 32)%N = true ->
  lower_byte a = b /\ lower_byte b = b.
Proof.
  intros Ha Hb. apply N.eqb_eq in Hb.
  rewrite (lower_byte_upper a Ha), <- Hb, ascii_N_embedding.
  split; [reflexivity|]. apply lower_byte_other.
  unfold is_upper in *. apply andb_true_iff in Ha. destruct Ha as [H1 H2].
  apply N.leb_le in H1, H2. apply andb_false_iff. right. apply N.leb_gt. lia.
Qed.

Lemma same_letter_lower (a b : ascii) :
  same_letter a b = true -> lower_byte a = lower_byte b.
Proof.
  unfold same_letter. intros H.
  apply orb_true_iff in H. destruct H as [H|H];
    [apply orb_true_iff in H; destruct H as [H|H]|].
  - apply Ascii.eqb_eq in H. subst b. reflexivity.
  - apply andb_true_iff in H. destruct H as [Ha Hb].
    destruct (shifted_is_lower a b Ha Hb) as [-> ->]. reflexivity.
  - apply andb_true_iff in H. destruct H as [Hb Ha].
    destruct (shifted_is_lower b a Hb Ha) as [-> ->]. reflexivity.
Qed.

Lemma same_fold_ToLower (s : string) : forall t : string,
  same_fold s t = true -> ToLower s = ToLower t.
Proof.
  induction s as [|a s IH]; intros [|b t] H; cbn in *; try discriminate.
  - reflexivity.
  - apply andb_true_iff in H. destruct H as [Hab Hst].
    rewrite (same_letter_lower a b Hab), (IH t Hst). reflexivity.
Qed.

(** X4. The start option is read without regard to case: two ASCII names that
    differ only in the case of their letters select the same start
    algorithm. *)
Theorem String2Start_ignores_case (s t : string) :
  isASCII s = true -> isASCII t = true ->
  same_fold s t = true -> String2Start s = String2Start t.
Proof.
  intros _ _ H. unfold String2Start. rewrite (same_fold_ToLower s t H).
  reflexivity.
Qed.

(** X5. The congestion option is read without regard to case: two ASCII
    names that differ only in the case of their letters select the same
    congestion algorithm. *)
Theorem String2Congestion_ignores_case (s t : string) :
  isASCII s = true -> isASCII t = true ->
  same_fold s t = true -> String2Congestion s = String2Congestion t.
Proof.
  intros _ _ H. unfold String2Congestion. rewrite (same_fold_ToLower s t H).
  reflexivity.
Qed.

Lemma lower_same_letter (a : ascii) : same_letter a (lower_byte a) = true.
Proof.
  unfold same_letter. destruct (is_upper a) eqn:Hu.
  - rewrite (lower_byte_upper a Hu).
    assert (Hn : (N_of_ascii a + 32 < 256)%N).
    { unfold is_upper in Hu. apply andb_true_iff in Hu. destruct Hu as [_ H2].
      apply N.leb_le in H2. lia. }
    rewrite (N_ascii_embedding _ Hn), N.eqb_refl.
    cbn [andb]. rewrite orb_true_r. reflexivity.
  - rewrite (lower_byte_other a Hu), Ascii.eqb_refl. reflexivity.
Qed.

(** Comparing the lowered name with a lower-case word is matching the name
    against the word without regard to case. *)
Lemma ToLower_eqb (s : string) : forall t : string,
  ToLower t = t -> (ToLower s =? t)%string = same_fold s t.
Proof.
  induction s as [|a s IH]; intros [|b t] Ht; cbn in *; try reflexivity.
  injection Ht as Hb Ht.
  destruct (Ascii.eqb_spec (lower_byte a) b) as [E|E].
  - rewrite (IH t Ht). subst b. rewrite lower_same_letter. reflexivity.
  - destruct (same_letter a b) eqn:Hs; [|reflexivity].
    exfalso. apply E. rewrite (same_letter_lower a b Hs). exact Hb.
Qed.

(** X6. The names of the start option. Up to the case of their letters:
    [slowstart] and [ss] select classic slow start; [hystartpp],
    [hystart++], [hpp] and [h++] select HyStart++; every other ASCII name,
    the empty one and any misspelling included, selects HyStart. *)
Theorem String2Start_names (s : string) :
  isASCII s = true ->
  String2Start s =
  if same_fold s "slowstart" || same_fold s "ss" then ChooseSlowStart
  else if same_fold s "hystartpp" || same_fold s "hystart++"
          || same_fold s "hpp" || same_fold s "h++" then ChooseHystartpp
  else ChooseHystart.
Proof.
  intros _. unfold String2Start. cbv zeta.
  rewrite !ToLower_eqb by reflexivity.
  destruct (same_fold s "slowstart") eqn:H1, (same_fold s "ss") eqn:H2,
    (same_fold s "hystart") eqn:H3, (same_fold s "h") eqn:H4,
    (same_fold s "hystartpp") eqn:H5, (same_fold s "hystart++") eqn:H6,
    (same_fold s "hpp") eqn:H7, (same_fold s "h++") eqn:H8;
    cbn [orb]; try reflexivity; exfalso;
    repeat match goal with
    | H : same_fold s _ = true |- _ =>
        apply same_fold_ToLower in H; cbn in H
    | H : same_fold s _ = false |- _ => clear H
    end; congruence.
Qed.

(** X7. The names of the congestion option: up to the case of their letters,
    [cubic] and [c] select CUBIC; every other ASCII name selects NewReno. *)
Theorem String2Congestion_names (s : string) :
  isASCII s = true ->
  String2Congestion s =
  if same_fold s "cubic" || same_fold s "c" then ChooseCubic
  else ChooseNewReno.
Proof.
  intros _. unfold String2Congestion. cbv zeta.
  rewrite !ToLower_eqb by reflexivity.
  destruct (same_fold s "cubic" || same_fold s "c"); [reflexivity|].
  destruct (_ || _); reflexivity.
Qed.

Lemma String2Start_ignores_case_witness :
  String2Start "HyStart++" = String2Start "hystart++".
Proof.
  apply (String2Start_ignores_case "HyStart++" "hystart++"); reflexivity.
Defined.

Lemma String2Congestion_ignores_case_witness :
  String2Congestion "CUBIC" = String2Congestion "cubic".
Proof.
  apply (String2Congestion_ignores_case "CUBIC" "cubic"); reflexivity.
Defined.

Lemma String2Start_names_witness :
  String2Start "HPP" =
  if same_fold "HPP" "slowstart" || same_fold "HPP" "ss" then ChooseSlowStart
  else if same_fold "HPP" "hystartpp" || same_fold "HPP" "hystart++"
          || same_fold "HPP" "hpp" || same_fold "HPP" "h++" then ChooseHystartpp
  else ChooseHystart.
Proof. apply (String2Start_names "HPP"). reflexivity. Defined.

Lemma String2Congestion_names_witness :
  String2Congestion "Reno" =
  if same_fold "Reno" "cubic" || same_fold "Reno" "c" then ChooseCubic
  else ChooseNewReno.
Proof. apply (String2Congestion_names "Reno"). reflexivity. Defined.

End NameFacts.

(** ** float64: rounding of a product, after [SpecFloat] *)
Module FloatFacts.
Import Go.

Lemma digits2_pos_size (p : positive) : digits2_pos p = Pos.size p.
Proof. induction p; cbn; congruence. Qed.

Lemma digits2_pos_bounds (p : positive) :
  2 ^ (Z.pos (digits2_pos p) - 1) <= Z.pos p < 2 ^ Z.pos (digits2_pos p).
Proof.
  rewrite digits2_pos_size.
  pose proof (Pos.size_gt p) as Hgt. pose proof (Pos.size_le p) as Hle.
  apply Pos2Z.pos_lt_pos in Hgt. apply Pos2Z.pos_le_pos in Hle.
  rewrite Pos2Z.inj_pow in Hgt, Hle.
  change (Z.pos p~0) with (2 * Z.pos p) in Hle.
  replace (Z.pos (Pos.size p)) with (Z.pos (Pos.size p) - 1 + 1) in Hle by lia.
  rewrite Z.pow_add_r in Hle by lia. change (2 ^ 1) with 2 in Hle.
  split; lia.
Qed.

Lemma shr_1_m (mrs : shr_record) :
  0 <= shr_m mrs -> shr_m (shr_1 mrs) = shr_m mrs / 2.
Proof.
  destruct mrs as [m r s]. cbn [shr_m]. intros Hm. unfold shr_1.
  destruct m as [|[p|p|]|p]; cbn [shr_m]; try lia; try reflexivity.
  - apply Z.div_unique with 1; lia.
  - apply Z.div_unique with 0; lia.
Qed.

Lemma iter_shr_1_m (n : positive) : forall mrs : shr_record,
  0 <= shr_m mrs ->
  shr_m (iter_pos shr_1 n mrs) = shr_m mrs / 2 ^ Z.pos n.
Proof.
  induction n as [n IH|n IH|]; intros mrs Hm; cbn [iter_pos].
  - assert (H1 : 0 <= shr_m (shr_1 mrs))
      by (rewrite shr_1_m by exact Hm; apply Z.div_pos; lia).
    assert (H2 : 0 <= shr_m (iter_pos shr_1 n (shr_1 mrs)))
      by (rewrite IH by exact H1; apply Z.div_pos; lia).
    rewrite IH by exact H2. rewrite IH by exact H1. rewrite shr_1_m by exact Hm.
    rewrite !Z.div_div by lia. f_equal.
    rewrite Pos2Z.inj_xI. rewrite <- !Z.pow_add_r by lia.
    change 2 with (2 ^ 1) at 1. rewrite <- Z.pow_add_r by lia. f_equal. lia.
  - assert (H2 : 0 <= shr_m (iter_pos shr_1 n mrs))
      by (rewrite IH by exact Hm; apply Z.div_pos; lia).
    rewrite IH by exact H2. rewrite IH by exact Hm.
    rewrite !Z.div_div by lia. f_equal.
    rewrite Pos2Z.inj_xO. rewrite <- !Z.pow_add_r by lia. f_equal. lia.
  - rewrite shr_1_m by exact Hm. reflexivity.
Qed.

Lemma round_nearest_even_bounds (m : Z) (l : location) :
  m <= round_nearest_even m l <= m + 1.
Proof.
  unfold round_nearest_even. destruct l as [|[| |]]; try lia.
  destruct (Z.even m); lia.
Qed.

Lemma fexp_normal (x : Z) : -1074 <= x - 53 -> fexp 53 1024 x = x - 53.
Proof. unfold fexp, emin. lia. Qed.

Lemma shr_fexp_shift (m e : Z) (n : positive) :
  -1074 <= Zdigits2 m + e - 53 ->
  Zdigits2 m - 53 = Z.pos n ->
  shr_fexp 53 1024 m e loc_Exact =
  (iter_pos shr_1 n (Build_shr_record m false false), e + Z.pos n).
Proof.
  intros Hr Hn. unfold shr_fexp. rewrite fexp_normal by exact Hr.
  replace (Zdigits2 m + e - 53 - e) with (Z.pos n) by lia.
  reflexivity.
Qed.

Lemma shr_fexp_none (m e : Z) :
  -1074 <= Zdigits2 m + e - 53 ->
  Zdigits2 m - 53 = 0 ->
  shr_fexp 53 1024 m e loc_Exact = (Build_shr_record m false false, e).
Proof.
  intros Hr Hn. unfold shr_fexp. rewrite fexp_normal by exact Hr.
  replace (Zdigits2 m + e - 53 - e) with 0 by lia.
  reflexivity.
Qed.

Lemma pow2_pos (n : Z) : 0 <= n -> 0 < 2 ^ n.
Proof. intros. apply Z.pow_pos_nonneg; lia. Qed.

Lemma pow2_split (a b : Z) : 0 <= a -> 0 <= b -> 2 ^ (a + b) = 2 ^ a * 2 ^ b.
Proof. intros. apply Z.pow_add_r; assumption. Qed.

(** Rounding a product of more than 53 bits. *)
Lemma binary_round_aux_bounds (P : positive) (e : Z) :
  let D := Z.pos (digits2_pos P) in
  54 <= D -> -1074 <= D + e - 53 -> D + e - 52 <= 971 ->
  exists (m2 : positive) (N : Z),
    binary_round_aux 53 1024 false (Z.pos P) e loc_Exact =
      S754_finite false m2 (e + N)
    /\ D - 53 <= N <= D - 52
    /\ Z.pos m2 * 2 ^ N <= Z.pos P + 2 ^ (D - 53)
    /\ Z.pos P - 3 * 2 ^ (D - 53) < Z.pos m2 * 2 ^ N.
Proof.
  intros D HD Hlo Hhi.
  destruct (D - 53) as [|n1|n1] eqn:Hn1; try lia.
  pose proof (digits2_pos_bounds P) as [HPlo HPhi]. fold D in HPlo, HPhi.
  assert (HDn : D = Z.pos n1 + 53) by lia.
  rewrite HDn in HPlo, HPhi.
  replace (Z.pos n1 + 53 - 1) with (Z.pos n1 + 52) in HPlo by lia.
  rewrite pow2_split in HPlo, HPhi by lia.
  pose proof (pow2_pos (Z.pos n1) ltac:(lia)) as Hpow.
  set (T := 2 ^ Z.pos n1) in *.
  unfold binary_round_aux.
  rewrite (shr_fexp_shift (Z.pos P) e n1) by (cbn [Zdigits2]; fold D; lia).
  set (mrs' := iter_pos shr_1 n1 (Build_shr_record (Z.pos P) false false)).
  assert (Hq : shr_m mrs' = Z.pos P / T)
    by (unfold mrs'; rewrite iter_shr_1_m by (cbn; lia); reflexivity).
  pose proof (round_nearest_even_bounds (shr_m mrs') (loc_of_shr_record mrs'))
    as Hrne.
  set (m1 := round_nearest_even (shr_m mrs') (loc_of_shr_record mrs')) in *.
  rewrite Hq in Hrne.
  pose proof (Z.mul_div_le (Z.pos P) T Hpow) as Hq1.
  pose proof (Z.mul_succ_div_gt (Z.pos P) T Hpow) as Hq2.
  assert (Hq52 : 2 ^ 52 <= Z.pos P / T)
    by (apply Z.div_le_lower_bound; lia).
  assert (Hq53 : Z.pos P / T < 2 ^ 53)
    by (apply Z.div_lt_upper_bound; lia).
  set (q := Z.pos P / T) in *.
  destruct m1 as [|pm1|pm1] eqn:Hm1; try lia.
  pose proof (digits2_pos_bounds pm1) as [H1lo H1hi].
  set (D1 := Z.pos (digits2_pos pm1)) in *.
  assert (HD1 : D1 = 53 \/ D1 = 54).
  { assert (52 < D1).
    { apply (Z.pow_lt_mono_r_iff 2); lia. }
    assert (D1 - 1 < 54).
    { apply (Z.pow_lt_mono_r_iff 2); lia. }
    lia. }
  destruct HD1 as [HD1|HD1].
  - rewrite (shr_fexp_none (Z.pos pm1) (e + Z.pos n1))
      by (cbn [Zdigits2]; fold D1; lia).
    cbn [shr_m].
    replace (e + Z.pos n1 <=? 1024 - 53) with true
      by (symmetry; apply Z.leb_le; lia).
    exists pm1, (Z.pos n1). fold T. split; [reflexivity|]. split; [lia|].
    split; nia.
  - rewrite (shr_fexp_shift (Z.pos pm1) (e + Z.pos n1) 1)
      by (cbn [Zdigits2]; fold D1; lia).
    cbn [iter_pos]. rewrite HD1 in H1lo, H1hi.
    change (2 ^ (54 - 1)) with (2 ^ 53) in H1lo.
    assert (Hpm : Z.pos pm1 = 2 ^ 53) by lia.
    assert (Hpm' : pm1 = (2 ^ 53)%positive)
      by (apply Pos2Z.inj; rewrite Hpm; reflexivity).
    subst pm1. cbn [shr_1 shr_m Pos.pow Pos.iter Pos.mul].
    replace (e + Z.pos n1 + 1 <=? 1024 - 53) with true
      by (symmetry; apply Z.leb_le; lia).
    eexists _, (Z.pos n1 + 1). split; [f_equal; lia|]. split; [lia|].
    rewrite pow2_split by lia. fold T. change (2 ^ 1) with 2.
    split; nia.
Qed.

Lemma digits2_pos_unique (p : positive) (k : Z) :
  2 ^ (k - 1) <= Z.pos p < 2 ^ k -> Z.pos (digits2_pos p) = k.
Proof.
  intros [Hlo Hhi]. pose proof (digits2_pos_bounds p) as [Dlo Dhi].
  set (D := Z.pos (digits2_pos p)) in *.
  assert (0 < k).
  { destruct (Z.le_gt_cases k 0) as [Hk|Hk]; [|exact Hk].
    destruct (Z.eq_dec k 0) as [->|]; [cbn in Hhi; lia|].
    rewrite Z.pow_neg_r in Hhi by lia. lia. }
  assert (k - 1 < D) by (apply (Z.pow_lt_mono_r_iff 2); lia).
  assert (D - 1 < k) by (apply (Z.pow_lt_mono_r_iff 2); lia).
  lia.
Qed.

Lemma binary_round_aux_exact (mz : positive) (ez : Z) :
  Z.pos (digits2_pos mz) = 53 -> -1074 <= ez <= 971 ->
  binary_round_aux 53 1024 false (Z.pos mz) ez loc_Exact =
  S754_finite false mz ez.
Proof.
  intros Hd He. unfold binary_round_aux.
  rewrite (shr_fexp_none (Z.pos mz) ez) by (cbn [Zdigits2]; lia).
  cbn [shr_m loc_of_shr_record round_nearest_even].
  rewrite (shr_fexp_none (Z.pos mz) ez) by (cbn [Zdigits2]; lia).
  cbn [shr_m].
  replace (ez <=? 1024 - 53) with true by (symmetry; apply Z.leb_le; lia).
  reflexivity.
Qed.

Lemma Pos_iter_xO (x k : positive) :
  Z.pos (Pos.iter xO x k) = Z.pos x * 2 ^ Z.pos k.
Proof.
  induction k as [|k IH] using Pos.peano_ind.
  - cbn [Pos.iter]. rewrite Pos2Z.inj_xO. change (2 ^ 1) with 2. lia.
  - rewrite Pos.iter_succ, Pos2Z.inj_xO, IH, Pos2Z.inj_succ.
    rewrite Z.pow_succ_r by lia. lia.
Qed.

(** An integer below [2^53] converts exactly, to a normalised mantissa. *)
Lemma float64_of_int_exact (x : positive) :
  Z.pos x < 2 ^ 53 ->
  exists (mz : positive) (s : Z),
    binary_normalize 53 1024 (Z.pos x) 0 false = S754_finite false mz (- s)
    /\ 0 <= s <= 52
    /\ Z.pos mz = Z.pos x * 2 ^ s
    /\ 2 ^ 52 <= Z.pos mz < 2 ^ 53
    /\ 2 ^ (52 - s) <= Z.pos x < 2 ^ (53 - s).
Proof.
  intros Hx. pose proof (digits2_pos_bounds x) as [Dlo Dhi].
  set (d := Z.pos (digits2_pos x)) in *.
  assert (Hd1 : 1 <= d) by (unfold d; lia).
  assert (Hd53 : d <= 53).
  { assert (d - 1 < 53) by (apply (Z.pow_lt_mono_r_iff 2); lia). lia. }
  cbn [binary_normalize]. unfold binary_round. fold d.
  rewrite fexp_normal by lia. unfold shl_align.
  destruct (d + 0 - 53 - 0) as [|k|k] eqn:Hk; try lia.
  - assert (d = 53) by lia.
    exists x, 0. rewrite binary_round_aux_exact by (fold d; lia).
    replace (53 - 0) with d by lia. replace (52 - 0) with (d - 1) by lia.
    rewrite Z.mul_1_r. replace (2 ^ 52) with (2 ^ (d - 1)) by (f_equal; lia).
    replace (2 ^ 53) with (2 ^ d) by (f_equal; lia).
    repeat split; try lia.
  - assert (Hs : Z.pos k = 53 - d) by lia.
    pose proof (Pos_iter_xO x k) as Hmz.
    assert (Hb : 2 ^ 52 <= Z.pos (Pos.iter xO x k) < 2 ^ 53).
    { rewrite Hmz.
      assert (E52 : 2 ^ 52 = 2 ^ (d - 1) * 2 ^ Z.pos k)
        by (rewrite <- pow2_split by lia; f_equal; lia).
      assert (E53 : 2 ^ 53 = 2 ^ d * 2 ^ Z.pos k)
        by (rewrite <- pow2_split by lia; f_equal; lia).
      rewrite E52, E53.
      pose proof (pow2_pos (Z.pos k) ltac:(lia)). nia. }
    exists (Pos.iter xO x k), (Z.pos k).
    rewrite binary_round_aux_exact
      by (try (apply digits2_pos_unique; exact Hb); lia).
    replace (d + 0 - 53) with (- Z.pos k) by lia.
    replace (52 - Z.pos k) with (d - 1) by lia.
    replace (53 - Z.pos k) with d by lia.
    repeat split; try lia.
Qed.

Lemma renoBeta_value : renoBeta = S754_finite false betaM (-53).
Proof. reflexivity. Qed.

Lemma renoCutback_bounds (x : Z) :
  0 <= x < 2 ^ 49 -> 7 * x / 10 - 1 <= renoCutback x <= 7 * x / 10.
Proof.
  intros [Hx0 Hx]. destruct x as [|x|x]; try lia.
  { vm_compute. split; discriminate. }
  unfold renoCutback, float64_of_int, float64_mul, prec, emax.
  destruct (float64_of_int_exact x ltac:(lia))
    as (mz & s & -> & Hs & Hmz & Hmzb & Hxb).
  rewrite renoBeta_value. cbn [SFmul xorb].
  (* the shift s is at least 4 *)
  assert (Hs4 : 4 <= s).
  { assert (52 - s < 49) by (apply (Z.pow_lt_mono_r_iff 2); lia). lia. }
  set (P := (mz * betaM)%positive).
  assert (HP : Z.pos P = Z.pos mz * Z.pos betaM) by reflexivity.
  assert (HPb : 2 ^ 104 <= Z.pos P < 2 ^ 106).
  { rewrite HP. change (2 ^ 104) with (2 ^ 52 * 2 ^ 52).
    change (2 ^ 106) with (2 ^ 53 * 2 ^ 53).
    assert (2 ^ 52 <= Z.pos betaM < 2 ^ 53) by (split; vm_compute; congruence).
    nia. }
  pose proof (digits2_pos_bounds P) as [Dlo Dhi].
  set (D := Z.pos (digits2_pos P)) in *.
  assert (HD : D = 105 \/ D = 106).
  { assert (104 < D) by (apply (Z.pow_lt_mono_r_iff 2); lia).
    assert (D - 1 < 106) by (apply (Z.pow_lt_mono_r_iff 2); lia).
    lia. }
  destruct (binary_round_aux_bounds P (- s + -53)) as (m2 & N & -> & HN & Hup & Hlow);
    fold D; try lia.
  fold D in HN, Hup, Hlow.
  unfold int64_of_float64, trunc_finite.
  replace (0 <=? - s + -53 + N) with false by (symmetry; apply Z.leb_gt; lia).
  replace (- (- s + -53 + N)) with (s + 53 - N) by lia.
  (* name the powers *)
  assert (HU : 2 ^ 52 * 2 ^ (D - 53) <= Z.pos P).
  { rewrite <- pow2_split by lia. replace (52 + (D - 53)) with (D - 1) by lia.
    exact Dlo. }
  assert (HWR : 2 ^ (s + 53 - N) * 2 ^ N = 2 ^ s * 2 ^ 53).
  { rewrite <- !pow2_split by lia. f_equal. lia. }
  pose proof (pow2_pos (s + 53 - N) ltac:(lia)) as HW.
  pose proof (pow2_pos N ltac:(lia)) as HR.
  pose proof (pow2_pos s ltac:(lia)) as HS.
  pose proof (pow2_pos (D - 53) ltac:(lia)) as HU0.
  set (W := 2 ^ (s + 53 - N)) in *. set (R := 2 ^ N) in *.
  set (S := 2 ^ s) in *. set (U := 2 ^ (D - 53)) in *.
  pose proof (Z.mul_div_le (Z.pos m2) W HW) as Hv1.
  pose proof (Z.mul_succ_div_gt (Z.pos m2) W HW) as Hv2.
  set (v := Z.pos m2 / W) in *.
  assert (Hv0 : 0 <= v) by (apply Z.div_pos; lia).
  assert (HPx : Z.pos P = Z.pos x * S * Z.pos betaM) by (rewrite HP, Hmz; ring).
  assert (Hx49 : Z.pos x < 2 ^ 49) by lia.
  clear Hmz Hmzb Hxb HP Dlo Dhi HPb.
  set (PZ := Z.pos P) in *. clearbody v W R S U PZ.
  set (X := Z.pos x) in *. set (M := Z.pos m2) in *.
  assert (HX0 : 0 < X) by (unfold X; lia). clearbody X M.
  unfold betaM in *.
  (* upper bound *)
  assert (Hle : 10 * v <= 7 * X).
  { destruct (Z.le_gt_cases (10 * v) (7 * X)) as [H|H]; [exact H|exfalso].
    assert (H1 : (7 * X + 1) * W <= 10 * M) by nia.
    assert (H2 : 2 ^ 52 * (M * R) <= (2 ^ 52 + 1) * PZ) by nia.
    assert (H3 : (7 * X + 1) * (W * R) * 2 ^ 52 <= 10 * ((2 ^ 52 + 1) * PZ)).
    { replace ((7 * X + 1) * (W * R) * 2 ^ 52)
        with (((7 * X + 1) * W) * R * 2 ^ 52) by ring.
      assert (((7 * X + 1) * W) * R <= 10 * M * R) by nia.
      nia. }
    rewrite HWR, HPx in H3.
    assert (H4 : (7 * X + 1) * 2 ^ 105 * S
                 <= 10 * (2 ^ 52 + 1) * 6305039478318694 * X * S).
    { replace ((7 * X + 1) * 2 ^ 105 * S)
        with ((7 * X + 1) * (S * 2 ^ 53) * 2 ^ 52)
        by (change (2 ^ 105) with (2 ^ 53 * 2 ^ 52); ring).
      replace (10 * (2 ^ 52 + 1) * 6305039478318694 * X * S)
        with (10 * ((2 ^ 52 + 1) * (X * S * 6305039478318694))) by ring.
      exact H3. }
    assert (H5 : (7 * X + 1) * 2 ^ 105
                 <= 10 * (2 ^ 52 + 1) * 6305039478318694 * X).
    { apply (Z.mul_le_mono_pos_r _ _ S HS). exact H4. }
    lia. }
  (* lower bound *)
  assert (Hge : 7 * X <= 10 * v + 12).
  { destruct (Z.le_gt_cases (7 * X) (10 * v + 12)) as [H|H]; [exact H|exfalso].
    assert (H1 : M * R < (v + 1) * (W * R)) by nia.
    assert (H2 : (2 ^ 52 - 3) * PZ < 2 ^ 52 * (M * R)) by nia.
    rewrite HWR, HPx in *.
    assert (H3 : (2 ^ 52 - 3) * (X * S * 6305039478318694)
                 < 2 ^ 52 * ((v + 1) * (S * 2 ^ 53))) by nia.
    assert (H4 : (2 ^ 52 - 3) * 6305039478318694 * X * S
                 < 2 ^ 105 * (v + 1) * S).
    { replace ((2 ^ 52 - 3) * 6305039478318694 * X * S)
        with ((2 ^ 52 - 3) * (X * S * 6305039478318694)) by ring.
      replace (2 ^ 105 * (v + 1) * S)
        with (2 ^ 52 * ((v + 1) * (S * 2 ^ 53)))
        by (change (2 ^ 105) with (2 ^ 52 * 2 ^ 53); ring).
      exact H3. }
    assert (H5 : (2 ^ 52 - 3) * 6305039478318694 * X < 2 ^ 105 * (v + 1)).
    { apply (Z.mul_lt_mono_pos_r S); [exact HS | exact H4]. }
    lia. }
  assert (Hr : (min_int64 <=? v) && (v <=? max_int64) = true).
  { apply andb_true_intro. unfold min_int64, max_int64.
    split; [apply Z.leb_le | apply Z.leb_le]; lia. }
  rewrite Hr. split.
  - assert (7 * X / 10 < v + 2) by (apply Z.div_lt_upper_bound; lia). lia.
  - apply Z.div_le_lower_bound; lia.
Qed.

(** *** Integers below [2^53] *)

Lemma float64_of_int_is_exact (x : Z) :
  0 <= x < 2 ^ 53 -> exact_float x (float64_of_int x).
Proof.
  intros [H0 H1]. destruct x as [|x|x]; try lia.
  - apply exact_zero. reflexivity.
  - unfold float64_of_int, prec, emax.
    destruct (float64_of_int_exact x H1) as (mz & s & -> & Hs & Hmz & Hb & _).
    apply exact_finite; [lia | exact Hmz | exact Hb].
Qed.

Lemma exact_float_trunc (x : Z) (f : spec_float) :
  exact_float x f -> int64_of_float64 f = x.
Proof.
  intros [->|mz s Hs Hmz Hb]; [reflexivity|].
  unfold int64_of_float64, trunc_finite.
  pose proof (pow2_pos s Hs) as Hp.
  assert (Hx : 0 < x < 2 ^ 53) by nia.
  assert (Hv : (if 0 <=? - s then Z.pos mz * 2 ^ (- s)
                else Z.pos mz / 2 ^ (- - s)) = x).
  { destruct (Z.leb_spec 0 (- s)).
    - assert (s = 0) by lia. subst s. cbn in *. lia.
    - rewrite Z.opp_involutive, Hmz. apply Z.div_mul. lia. }
  rewrite Hv.
  replace ((min_int64 <=? x) && (x <=? max_int64)) with true; [reflexivity|].
  symmetry. apply andb_true_intro. unfold min_int64, max_int64.
  split; apply Z.leb_le; lia.
Qed.

(** The order of two such floats is the order of the integers. *)
Lemma exact_float_ltb (x y : Z) (f g : spec_float) :
  exact_float x f -> exact_float y g ->
  0 <= x -> 0 <= y ->
  SFltb f g = (x <? y).
Proof.
  intros [->|mx sx Hsx Hmx Hbx] [->|my sy Hsy Hmy Hby] Hx Hy;
    unfold SFltb, SFcompare.
  - reflexivity.
  - pose proof (pow2_pos sy Hsy). symmetry. apply Z.ltb_lt. nia.
  - pose proof (pow2_pos sx Hsx). symmetry. apply Z.ltb_ge. nia.
  - pose proof (pow2_pos sx Hsx) as Hpx. pose proof (pow2_pos sy Hsy) as Hpy.
    destruct (Z.compare_spec (- sx) (- sy)) as [He|He|He].
    + assert (sx = sy) by lia. subst sy.
      change (Pos.compare_cont Eq mx my) with (Pos.compare mx my).
      rewrite Pos2Z.inj_compare.
      destruct (Z.compare_spec (Z.pos mx) (Z.pos my)) as [Hc|Hc|Hc];
        symmetry; [apply Z.ltb_ge | apply Z.ltb_lt | apply Z.ltb_ge]; nia.
    + (* sy < sx: x is the smaller *)
      symmetry. apply Z.ltb_lt.
      replace sx with (sy + (sx - sy)) in Hmx by lia.
      rewrite pow2_split in Hmx by lia.
      assert (HT : 2 <= 2 ^ (sx - sy)).
      { change 2 with (2 ^ 1) at 1. apply Z.pow_le_mono_r; lia. }
      set (P := 2 ^ sy) in *. set (T := 2 ^ (sx - sy)) in *.
      assert (H1 : 0 <= x * P) by nia.
      assert (H2 : x * P * 2 <= x * P * T) by nia.
      assert (H3 : x * P < y * P) by lia.
      nia.
    + symmetry. apply Z.ltb_ge.
      replace sy with (sx + (sy - sx)) in Hmy by lia.
      rewrite pow2_split in Hmy by lia.
      assert (HT : 2 <= 2 ^ (sy - sx)).
      { change 2 with (2 ^ 1) at 1. apply Z.pow_le_mono_r; lia. }
      set (P := 2 ^ sx) in *. set (T := 2 ^ (sy - sx)) in *.
      assert (H1 : 0 <= y * P) by nia.
      assert (H2 : y * P * 2 <= y * P * T) by nia.
      assert (H3 : y * P < x * P) by lia.
      nia.
Qed.

Lemma Min_exact (x y : Z) (f g : spec_float) :
  exact_float x f -> exact_float y g -> 0 <= x -> 0 <= y ->
  exact_float (Z.min x y) (math.Min f g).
Proof.
  intros Hf Hg Hx Hy.
  pose proof (exact_float_ltb x y f g Hf Hg Hx Hy) as Hlt.
  assert (Hr : math.Min f g = if SFltb f g then f else g).
  { destruct Hf, Hg; reflexivity. }
  rewrite Hr, Hlt. destruct (Z.ltb_spec x y).
  - rewrite Z.min_l by lia. exact Hf.
  - rewrite Z.min_r by lia. exact Hg.
Qed.

End FloatFacts.

(** ** The HyStart++ detector *)
Module HystartppFacts.
Import Go utils Hystartpp GoFacts.

(** Both bounds of the clamp are the upper constant, so the threshold does
    not depend on the previous round: it is 16000 ns. *)
Lemma rttThresh_const (s : HybridSlowStartpp) : rttThresh s = 16000.
Proof.
  unfold rttThresh, hybridStartppDelayMaxThresholdUs.
  rewrite MaxDuration_max, MinDuration_min. lia.
Qed.

(** What [ShouldExitSlowStart] decides, on the recorded sample. *)
Lemma ShouldExitSlowStart_decides (l m w mss : Z) (s : HybridSlowStartpp) :
  fst (ShouldExitSlowStart l m w mss s) =
  (w >=? mul64 16 mss)
  && (rttSampleCount (record_sample l s) >=? 8)
  && (currentRoundMinRTT (record_sample l s) >=?
        add64 (lastRoundMinRTT (record_sample l s)) 16000).
Proof.
  unfold ShouldExitSlowStart, hybridStartppLowWindow, hybridStartppNRttSample.
  rewrite rttThresh_const. cbv zeta.
  generalize (record_sample l s) as s2; intros s2.
  destruct (w >=? mul64 16 mss); cbn [andb]; [|reflexivity].
  destruct (rttSampleCount s2 >=? 8); cbn [andb]; [|reflexivity].
  destruct (currentRoundMinRTT s2 >=? _); reflexivity.
Qed.

Lemma ShouldExitSlowStart_inLSS (l m w mss : Z) (s : HybridSlowStartpp) :
  inLSS (snd (ShouldExitSlowStart l m w mss s)) =
  fst (ShouldExitSlowStart l m w mss s) || inLSS (record_sample l s).
Proof.
  unfold ShouldExitSlowStart. cbv zeta.
  generalize (record_sample l s) as s2; intros s2.
  destruct (_ && _); [destruct (_ >=? _)|]; reflexivity.
Qed.

Lemma quiet_zero : quiet zero.
Proof. repeat split. Qed.

Lemma record_sample_quiet (l : Z) (s : HybridSlowStartpp) :
  0 <= l -> quiet s -> quiet (record_sample l s).
Proof.
  intros Hl (Hc & Hl' & Hi). unfold quiet, record_sample.
  destruct (started s); simpl; rewrite MinDuration_min; repeat split;
    try assumption; try lia.
Qed.

Lemma ShouldExitSlowStart_quiet (l m w mss : Z) (s : HybridSlowStartpp) :
  0 <= l -> quiet s ->
  ShouldExitSlowStart l m w mss s = (false, record_sample l s).
Proof.
  intros Hl Hq. destruct (record_sample_quiet l s Hl Hq) as (H1 & H2 & _).
  unfold ShouldExitSlowStart. cbv zeta. rewrite rttThresh_const, H1, H2.
  replace (0 >=? add64 0 16000) with false by (vm_compute; reflexivity).
  destruct (_ && _); reflexivity.
Qed.

Lemma do_call_quiet (c : call) (s : HybridSlowStartpp) :
  nonneg_sample c -> quiet s ->
  quiet (snd (do_call c s)) /\ fst (do_call c s) <> Some true.
Proof.
  intros Hc Hq. destruct c as [ls|pn|pn|l m w mss|]; cbn [do_call].
  - destruct Hq as (Hq1 & Hq2 & Hq3).
    split; [repeat split; assumption | discriminate].
  - split; [exact Hq | discriminate].
  - split; [|discriminate]. unfold OnPacketAcked. cbn [snd].
    destruct (IsEndOfRound pn s); exact Hq.
  - cbn [nonneg_sample] in Hc.
    rewrite (ShouldExitSlowStart_quiet l m w mss s Hc Hq). cbn [fst snd].
    split; [apply record_sample_quiet; assumption | discriminate].
  - split; [exact Hq | discriminate].
Qed.

Lemma run_quiet (cs : list call) :
  Forall nonneg_sample cs ->
  forall s, quiet s ->
  quiet (snd (run cs s)) /\ Forall (fun b => b = false) (fst (run cs s)).
Proof.
  induction 1 as [|c cs Hc _ IH]; intros s Hq; simpl.
  - split; [exact Hq | constructor].
  - destruct (do_call_quiet c s Hc Hq) as [Hq1 Hn].
    destruct (do_call c s) as [o s1]; simpl in *.
    destruct (IH s1 Hq1) as [Hq2 Hbs].
    destruct (run cs s1) as [bs s2]; simpl in *.
    split; [exact Hq2|].
    destruct o as [[|]|]; try assumption.
    + now elim Hn.
    + constructor; [reflexivity | assumption].
Qed.



(** C2. From the zero-valued detector, whatever methods are called and in
    whatever order, as long as every RTT sample is nonnegative: the two
    round minima are still 0, every [ShouldExitSlowStart] returned false and
    [inLSS] is false. *)
Theorem min_rtt_stays_zero (cs : list call) :
  Forall nonneg_sample cs ->
  currentRoundMinRTT (snd (run cs zero)) = 0
  /\ lastRoundMinRTT (snd (run cs zero)) = 0
  /\ inLSS (snd (run cs zero)) = false
  /\ Forall (fun b => b = false) (fst (run cs zero)).
Proof.
  intros H. destruct (run_quiet cs H zero quiet_zero) as [(H1 & H2 & H3) H4].
  repeat split; assumption.
Qed.

Lemma min_rtt_stays_zero_witness :
  currentRoundMinRTT (snd (run nine_samples zero)) = 0
  /\ lastRoundMinRTT (snd (run nine_samples zero)) = 0
  /\ inLSS (snd (run nine_samples zero)) = false
  /\ Forall (fun b => b = false) (fst (run nine_samples zero)).
Proof.
  apply (min_rtt_stays_zero nine_samples).
  unfold nine_samples; simpl; repeat constructor; unfold ms; simpl; lia.
Defined.

(** *** Rounds *)

Lemma do_call_at_most (k : Z) (c : call) (s : HybridSlowStartpp) :
  0 <= k -> k + samples [c] < 8 -> at_most k s ->
  at_most (k + samples [c]) (snd (do_call c s))
  /\ fst (do_call c s) <> Some true.
Proof.
  intros Hk Hc Hs. destruct c as [ls|pn|pn|l m w mss|]; cbn [do_call samples] in *;
    rewrite ?Z.add_0_r.
  - split; [right; cbn; lia | discriminate].
  - split; [exact Hs | discriminate].
  - split; [|discriminate]. unfold OnPacketAcked. cbn [snd].
    destruct (IsEndOfRound pn s); [left; reflexivity | exact Hs].
  - unfold ShouldExitSlowStart. cbv zeta.
    assert (Hcnt : 0 <= rttSampleCount (record_sample l s) <= k + 1
                   /\ started (record_sample l s) = true).
    { unfold record_sample.
      destruct (started s) eqn:Est;
        cbn [rttSampleCount started StartReceiveRound].
      - destruct Hs as [Hs|Hs]; [congruence|].
        unfold wrap_uint32. rewrite Z.mod_small by lia. split; [lia|exact Est].
      - split; [|reflexivity]. change (wrap_uint32 (0 + 1)) with 1. lia. }
    destruct Hcnt as [Hcnt Hst].
    replace (rttSampleCount (record_sample l s) >=? hybridStartppNRttSample)
      with false
      by (symmetry; rewrite Z.geb_leb; apply Z.leb_gt;
          unfold hybridStartppNRttSample; lia).
    rewrite andb_false_r. cbn [fst snd].
    split; [right; lia | discriminate].
  - split; [left; reflexivity | discriminate].
Qed.

Lemma run_at_most (cs : list call) : forall (k : Z) (s : HybridSlowStartpp),
  0 <= k -> k + samples cs < 8 -> at_most k s ->
  Forall (fun b => b = false) (fst (run cs s)).
Proof.
  induction cs as [|c cs IH]; intros k s Hk Hc Hs; cbn [run].
  - constructor.
  - assert (H0 : 0 <= samples cs).
    { clear. induction cs as [|c cs IH]; [cbn; lia|].
      destruct c; cbn [samples]; lia. }
    assert (Hsplit : samples (c :: cs) = samples [c] + samples cs)
      by (destruct c; cbn [samples]; lia).
    assert (H1 : 0 <= samples [c]) by (destruct c; cbn; lia).
    destruct (do_call_at_most k c s Hk ltac:(lia) Hs) as [Hs1 Hn].
    destruct (do_call c s) as [o s1]; cbn [fst snd] in *.
    specialize (IH (k + samples [c]) s1 ltac:(lia) ltac:(lia) Hs1).
    destruct (run cs s1) as [bs s2]; cbn [fst] in *.
    destruct o as [[|]|]; try assumption.
    + now elim Hn.
    + constructor; [reflexivity | assumption].
Qed.

(** X1. A round needs eight samples before it can end slow start. From a
    detector with no round running (the zero value, or after [Restart] or
    an acknowledgement past the round's end), whatever is called and
    whatever the RTTs and windows are: as long as [ShouldExitSlowStart] has
    been called fewer than eight times, each call returned false. *)
Theorem exit_needs_eight_samples (cs : list call) (s : HybridSlowStartpp) :
  started s = false ->
  samples cs < 8 ->
  Forall (fun b => b = false) (fst (run cs s)).
Proof.
  intros Hs Hc. apply (run_at_most cs 0 s); [lia | lia | left; exact Hs].
Qed.

Lemma exit_needs_eight_samples_witness :
  Forall (fun b => b = false) (fst (run seven_samples zero)).
Proof.
  apply (exit_needs_eight_samples seven_samples zero).
  - reflexivity.
  - vm_compute. reflexivity.
Defined.

(** X2. Rounds and Low Slow Start. An acknowledgement at or below the round's
    end leaves the detector alone. One above it ends the round, and the next
    sample starts a new one: it returns false, the round ends at the last
    packet sent, the old round's minimum becomes the reference, one sample
    is counted, and Low Slow Start is left, whatever it was before. *)
Theorem a_new_round_leaves_LSS (a l m w mss : Z) (s : HybridSlowStartpp) :
  (a <= endPacketNumber s -> OnPacketAcked a s = s)
  /\ (endPacketNumber s < a ->
      let r := ShouldExitSlowStart l m w mss (OnPacketAcked a s) in
      fst r = false
      /\ inLSS (snd r) = false
      /\ started (snd r) = true
      /\ endPacketNumber (snd r) = lastSentPacketNumber s
      /\ rttSampleCount (snd r) = 1
      /\ lastRoundMinRTT (snd r) = currentRoundMinRTT s
      /\ currentRoundMinRTT (snd r) = Z.min 0 l).
Proof.
  unfold OnPacketAcked, IsEndOfRound. split; intros Ha.
  - destruct (Z.ltb_spec (endPacketNumber s) a); [lia|reflexivity].
  - destruct (Z.ltb_spec (endPacketNumber s) a); [|lia].
    cbv zeta. unfold ShouldExitSlowStart, record_sample. cbn.
    change (wrap_uint32 (0 + 1) >=? hybridStartppNRttSample) with false.
    rewrite andb_false_r. cbn. rewrite MinDuration_min.
    repeat split; reflexivity.
Qed.

(** *** Window growth *)

(** Doubling is exact. *)
Lemma double_exact (x : Z) (f : spec_float) :
  0 <= x < 2 ^ 52 -> exact_float x f ->
  exact_float (2 * x) (float64_mul hybridStartppL f).
Proof.
  intros Hx [->|mz s Hs Hmz Hb]; [apply exact_zero; reflexivity|].
  unfold float64_mul, hybridStartppL, prec, emax. cbn [SFmul xorb].
  pose proof (FloatFacts.pow2_pos s Hs) as Hp.
  assert (Hx1 : 1 <= x) by nia.
  assert (Hs1 : 1 <= s).
  { destruct (Z.eq_dec s 0) as [->|]; [|lia]. cbn in Hmz. lia. }
  assert (Hs53 : s <= 52).
  { assert (2 ^ s <= x * 2 ^ s) by nia.
    assert (s < 53); [|lia]. apply (Z.pow_lt_mono_r_iff 2); lia. }
  assert (Hd : Z.pos (digits2_pos mz) = 53)
    by (apply FloatFacts.digits2_pos_unique; exact Hb).
  assert (Hd' : digits2_pos mz = 53%positive) by (injection Hd; auto).
  unfold binary_round_aux.
  rewrite (FloatFacts.shr_fexp_shift _ _ 52).
  2:{ cbn [Pos.mul Zdigits2 digits2_pos]. rewrite Hd'. cbn [Pos.succ]. lia. }
  2:{ cbn [Pos.mul Zdigits2 digits2_pos]. rewrite Hd'. reflexivity. }
  cbn [Pos.mul iter_pos shr_1 orb shr_m loc_of_shr_record round_nearest_even].
  rewrite (FloatFacts.shr_fexp_none (Z.pos mz)) by (cbn [Zdigits2]; lia).
  cbn [shr_m].
  replace (-51 + - s + 52 <=? 1024 - 53) with true
    by (symmetry; apply Z.leb_le; lia).
  replace (-51 + - s + 52) with (- (s - 1)) by lia.
  apply exact_finite; [lia | | exact Hb].
  rewrite Hmz. replace s with (1 + (s - 1)) at 1 by lia.
  rewrite FloatFacts.pow2_split by lia. change (2 ^ 1) with 2. ring.
Qed.

(** X3. Outside Low Slow Start the float64 arithmetic of [UpdateCwndHystartpp]
    is exact: for byte counts below [2^52] the window grows by the
    acknowledged bytes, at most by two datagrams. *)
Theorem UpdateCwndHystartpp_outside_LSS
    (ackedBytes cwnd maxDatagramSize ssthresh predictedCAcwnd : Z)
    (s : HybridSlowStartpp) :
  inLSS s = false ->
  0 <= ackedBytes < 2 ^ 52 ->
  0 <= maxDatagramSize < 2 ^ 52 ->
  UpdateCwndHystartpp ackedBytes cwnd maxDatagramSize ssthresh predictedCAcwnd s
  = add64 cwnd (Z.min ackedBytes (2 * maxDatagramSize)).
Proof.
  intros Hl Ha Hm. unfold UpdateCwndHystartpp. rewrite Hl. cbv zeta.
  f_equal. apply FloatFacts.exact_float_trunc. apply FloatFacts.Min_exact; try lia.
  - apply FloatFacts.float64_of_int_is_exact. lia.
  - apply double_exact; [exact Hm|]. apply FloatFacts.float64_of_int_is_exact. lia.
Qed.

Lemma UpdateCwndHystartpp_outside_LSS_witness :
  UpdateCwndHystartpp 3000 38400 1200 38400 38400 zero
  = add64 38400 (Z.min 3000 (2 * 1200)).
Proof.
  apply (UpdateCwndHystartpp_outside_LSS 3000 38400 1200 38400 38400 zero).
  - reflexivity.
  - lia.
  - lia.
Defined.

End HystartppFacts.

(** ** The sender *)
Section SenderFacts.
Import Go utils logging GoFacts.
Context {env : Env}.

Ltac conjs := repeat match goal with |- _ /\ _ => split end.

Ltac break_match :=
  match goal with
  | |- context [match ?x with _ => _ end] =>
      lazymatch x with
      | context [match _ with _ => _ end] => fail
      | _ => destruct x eqn:?
      end
  end.

Ltac open_sender c :=
  destruct c as [h hpp k p sa ca ls la lc le w st n iw imw mds lst tr].

(** Unfolds the operations down to the fields and splits on every test. *)
Ltac run_ops :=
  unfold step, OnPacketSent, MaybeExitSlowStart, OnPacketAcked, OnPacketLost,
    OnRetransmissionTimeout, OnConnectionMigration, SetMaxDatagramSize,
    maybeIncreaseCwnd, finishCutback, restartDetector, cubicAfterAck,
    maybeTraceStateChange, InLowSlowStart, InSlowStart, InRecovery,
    isCwndLimited, GetCongestionWindow, minCongestionWindow,
    maxCongestionWindow, state_of;
  cbn -[Z.mul Z.add Z.sub Z.quot Z.pow Z.div Z.modulo renoCutback mul64 add64
        sub64 quot64 div64 wrap_uint64];
  repeat (break_match;
          cbn -[Z.mul Z.add Z.sub Z.quot Z.pow Z.div Z.modulo renoCutback mul64
                add64 sub64 quot64 div64 wrap_uint64]).

Lemma maybeTraceStateChange_writes (new : CongestionState) (c : cubicSender) :
  maybeTraceStateChange new c =
  set_lastState (tracedState new c) (set_tracer (tracedCalls new c) c).
Proof.
  unfold tracedState, tracedCalls, maybeTraceStateChange. open_sender c. cbn.
  destruct tr; [destruct (CongestionState_eqb new lst)|]; reflexivity.
Qed.

(** As [run_ops], with the tracer's two fields kept abstract: for facts that
    do not read them. *)
Ltac run_ops_untraced :=
  unfold step, OnPacketSent, MaybeExitSlowStart, OnPacketAcked, OnPacketLost,
    OnRetransmissionTimeout, OnConnectionMigration, SetMaxDatagramSize,
    maybeIncreaseCwnd, finishCutback, restartDetector, cubicAfterAck,
    InLowSlowStart, InSlowStart, InRecovery,
    isCwndLimited, GetCongestionWindow, minCongestionWindow,
    maxCongestionWindow, state_of;
  cbn -[Z.mul Z.add Z.sub Z.quot Z.pow Z.div Z.modulo renoCutback mul64 add64
        sub64 quot64 div64 wrap_uint64 tracedState tracedCalls
        maybeTraceStateChange];
  repeat (first [rewrite !maybeTraceStateChange_writes | break_match];
          cbn -[Z.mul Z.add Z.sub Z.quot Z.pow Z.div Z.modulo renoCutback mul64
                add64 sub64 quot64 div64 wrap_uint64 tracedState tracedCalls
                maybeTraceStateChange]).

(** A datagram size whose multiples up to [k] fit an int64. *)
Lemma mul64_small (a k : Z) :
  0 <= a -> 0 <= k -> a * k <= max_int64 -> mul64 a k = a * k.
Proof.
  intros Ha Hk Hb. unfold mul64. apply wrap_int64_id.
  unfold in_int64, min_int64, max_int64 in *. nia.
Qed.

Lemma quot64_id (a : Z) : in_int64 a -> quot64 a 2 = Z.quot a 2.
Proof.
  intros Ha. unfold quot64. apply wrap_int64_id.
  unfold in_int64, min_int64, max_int64 in *.
  pose proof (Z.quot_rem a 2 ltac:(lia)).
  pose proof (Z.rem_bound_abs a 2 ltac:(lia)). lia.
Qed.

(** C7. [OnRetransmissionTimeout] always invalidates the cutback mark. With
    no packet retransmitted that is all it does. Otherwise it restarts the
    detector of the chosen start algorithm (under HyStart++ the detector has
    no round running afterwards, and keeps its other fields), resets CUBIC,
    halves the window into the threshold and collapses the window to two
    datagrams, leaving every other field alone. *)
Theorem OnRetransmissionTimeout_effect (b : bool) (c : cubicSender) :
  let c' := OnRetransmissionTimeout b c in
  largestSentAtLastCutback c' = InvalidPacketNumber
  /\ (b = false -> c' = set_largestSentAtLastCutback InvalidPacketNumber c)
  /\ (b = true ->
      hybridSlowStartpp c' =
        match chosenStartAlgo c with
        | ChooseHystartpp => Hystartpp.Restart (hybridSlowStartpp c)
        | _ => hybridSlowStartpp c
        end
      /\ (chosenStartAlgo c = ChooseHystartpp ->
          Hystartpp.started (hybridSlowStartpp c') = false
          /\ hybridSlowStartpp c' =
               Hystartpp.set_started false (hybridSlowStartpp c))
      /\ hybridSlowStart c' =
        match chosenStartAlgo c with
        | ChooseHystart => HybridSlowStart_Restart (hybridSlowStart c)
        | _ => hybridSlowStart c
        end
      /\ cubic c' = Cubic_Reset (cubic c)
      /\ slowStartThreshold c' = quot64 (congestionWindow c) 2
      /\ (in_int64 (congestionWindow c) ->
          slowStartThreshold c' = Z.quot (congestionWindow c) 2)
      /\ (congestionWindow c = 60000 -> slowStartThreshold c' = 30000)
      /\ congestionWindow c' = minCongestionWindow c
      /\ minCongestionWindow c' = minCongestionWindow c
      /\ (0 <= maxDatagramSize c <= 2 ^ 62 - 1 ->
          congestionWindow c' = 2 * maxDatagramSize c)
      /\ c' = set_congestionWindow (minCongestionWindow c)
                (set_slowStartThreshold (quot64 (congestionWindow c) 2)
                   (set_cubic (Cubic_Reset (cubic c))
                      (restartDetector
                         (set_largestSentAtLastCutback InvalidPacketNumber c))))).
Proof.
  cbv zeta. conjs.
  - open_sender c. destruct b, sa; reflexivity.
  - intros ->. reflexivity.
  - intros ->.
    assert (Hq : slowStartThreshold (OnRetransmissionTimeout true c) =
                 quot64 (congestionWindow c) 2)
      by (open_sender c; destruct sa; reflexivity).
    assert (Hw : congestionWindow (OnRetransmissionTimeout true c) =
                 minCongestionWindow c)
      by (open_sender c; destruct sa; reflexivity).
    conjs; try (open_sender c; destruct sa; reflexivity).
    + open_sender c. cbn [chosenStartAlgo]. intros ->. split; reflexivity.
    + intros Hr. rewrite Hq. apply quot64_id, Hr.
    + intros H6. rewrite Hq, H6. reflexivity.
    + intros Hm. rewrite Hw.
      unfold minCongestionWindow, minCongestionWindowPackets.
      rewrite mul64_small; unfold max_int64; lia.
Qed.

(** C10. [SetMaxDatagramSize s] panics exactly when [s] is below the current
    size. Otherwise the size becomes [s], a window that sat on the old
    minimum moves to the new minimum and any other window stays, the pacer
    is told, and nothing else changes. *)
Theorem SetMaxDatagramSize_effect (s : Z) (c : cubicSender) :
  ((exists c', SetMaxDatagramSize s c = Panic c') <-> s < maxDatagramSize c)
  /\ (s < maxDatagramSize c -> SetMaxDatagramSize s c = Panic c)
  /\ (maxDatagramSize c <= s ->
      exists c',
        SetMaxDatagramSize s c = Ok c'
        /\ maxDatagramSize c' = s
        /\ minCongestionWindow c' = mul64 s 2
        /\ congestionWindow c' =
             (if congestionWindow c =? minCongestionWindow c
              then mul64 s 2 else congestionWindow c)
        /\ pacer c' = Pacer_SetMaxDatagramSize s (pacer c)
        /\ c' = set_pacer (Pacer_SetMaxDatagramSize s (pacer c))
                  (set_congestionWindow
                     (if congestionWindow c =? minCongestionWindow c
                      then mul64 s 2 else congestionWindow c)
                     (set_maxDatagramSize s c))).
Proof.
  unfold SetMaxDatagramSize.
  destruct (Z.ltb_spec s (maxDatagramSize c)) as [Hlt|Hge]; conjs.
  - split; [intros _; exact Hlt | intros _; eexists; reflexivity].
  - reflexivity.
  - lia.
  - split; [intros [c' Hc']; discriminate | lia].
  - lia.
  - intros _. eexists. split; [reflexivity|].
    open_sender c. unfold minCongestionWindow. cbn.
    destruct (w =? mul64 mds minCongestionWindowPackets); cbn;
      conjs; reflexivity.
Qed.

(** What [OnConnectionMigration] does to each field. *)
Lemma OnConnectionMigration_fields (c : cubicSender) :
  let c' := OnConnectionMigration c in
  largestSentPacketNumber c' = InvalidPacketNumber
  /\ largestAckedPacketNumber c' = InvalidPacketNumber
  /\ largestSentAtLastCutback c' = InvalidPacketNumber
  /\ lastCutbackExitedSlowstart c' = false
  /\ cubic c' = Cubic_Reset (cubic c)
  /\ numAckedPackets c' = 0
  /\ congestionWindow c' = initialCongestionWindow c
  /\ slowStartThreshold c' = initialMaxCongestionWindow c
  /\ hybridSlowStartpp c' =
       match chosenStartAlgo c with
       | ChooseHystartpp => Hystartpp.Restart (hybridSlowStartpp c)
       | _ => hybridSlowStartpp c
       end
  /\ hybridSlowStart c' =
       match chosenStartAlgo c with
       | ChooseHystart => HybridSlowStart_Restart (hybridSlowStart c)
       | _ => hybridSlowStart c
       end
  /\ maxDatagramSize c' = maxDatagramSize c
  /\ chosenStartAlgo c' = chosenStartAlgo c
  /\ chosenCongestionAlgo c' = chosenCongestionAlgo c
  /\ lastState c' = lastState c
  /\ tracer c' = tracer c
  /\ pacer c' = pacer c
  /\ initialCongestionWindow c' = initialCongestionWindow c
  /\ initialMaxCongestionWindow c' = initialMaxCongestionWindow c.
Proof. open_sender c. destruct sa; cbn; conjs; reflexivity. Qed.

(** The two initial windows never change. *)
Lemma step_initial_windows (e : event) (c : cubicSender) :
  initialCongestionWindow (state_of (step e c)) = initialCongestionWindow c
  /\ initialMaxCongestionWindow (state_of (step e c)) =
     initialMaxCongestionWindow c.
Proof.
  open_sender c. destruct e; run_ops_untraced; split; reflexivity.
Qed.

Lemma run_initial_windows (es : list event) (c : cubicSender) :
  initialCongestionWindow (state_of (run es c)) = initialCongestionWindow c
  /\ initialMaxCongestionWindow (state_of (run es c)) =
     initialMaxCongestionWindow c.
Proof.
  revert c. induction es as [|e es IH]; intros c; cbn [run].
  - split; reflexivity.
  - pose proof (step_initial_windows e c) as [H1 H2].
    destruct (step e c) as [c1|c1]; cbn [state_of] in *.
    + destruct (IH c1) as [H3 H4]. split; congruence.
    + split; assumption.
Qed.

(** C3 (amended). Whatever events a sender built by [NewCubicSender] has
    seen, [OnConnectionMigration] invalidates the three packet numbers,
    clears the slow-start-exit flag and the ack counter, resets CUBIC,
    restarts the detector of the chosen start algorithm (under HyStart++ no
    round is running afterwards), and sets the window
    to 32 initial datagrams and the threshold to
    [MaxCongestionWindowPackets] initial datagrams (not to [MaxByteCount]);
    the datagram size, both algorithm choices, the last traced state, the
    tracer and the pacer stay as they were. *)
Theorem OnConnectionMigration_effect
    (mds0 : Z) (sa : StartAlgo) (ca : CongestionAlgo)
    (tr : bool) (es : list event) :
  let c := state_of (run es (NewCubicSender mds0 sa ca tr)) in
  let c' := OnConnectionMigration c in
  largestSentPacketNumber c' = InvalidPacketNumber
  /\ largestAckedPacketNumber c' = InvalidPacketNumber
  /\ largestSentAtLastCutback c' = InvalidPacketNumber
  /\ lastCutbackExitedSlowstart c' = false
  /\ numAckedPackets c' = 0
  /\ cubic c' = Cubic_Reset (cubic c)
  /\ hybridSlowStartpp c' =
       match chosenStartAlgo c with
       | ChooseHystartpp => Hystartpp.Restart (hybridSlowStartpp c)
       | _ => hybridSlowStartpp c
       end
  /\ (chosenStartAlgo c = ChooseHystartpp ->
      Hystartpp.started (hybridSlowStartpp c') = false)
  /\ hybridSlowStart c' =
       match chosenStartAlgo c with
       | ChooseHystart => HybridSlowStart_Restart (hybridSlowStart c)
       | _ => hybridSlowStart c
       end
  /\ congestionWindow c' = mul64 initialCongestionWindowPackets mds0
  /\ slowStartThreshold c' = mul64 MaxCongestionWindowPackets mds0
  /\ maxDatagramSize c' = maxDatagramSize c
  /\ chosenStartAlgo c' = chosenStartAlgo c
  /\ chosenCongestionAlgo c' = chosenCongestionAlgo c
  /\ lastState c' = lastState c
  /\ tracer c' = tracer c
  /\ pacer c' = pacer c.
Proof.
  cbv zeta.
  set (c := state_of (run es (NewCubicSender mds0 sa ca tr))).
  pose proof (OnConnectionMigration_fields c) as H. cbv zeta in H.
  pose proof (run_initial_windows es (NewCubicSender mds0 sa ca tr)) as [Hi Hm].
  fold c in Hi, Hm. cbn in Hi, Hm.
  decompose [and] H. conjs; try assumption; try congruence.
  intros Hsa.
  match goal with
  | E : hybridSlowStartpp (OnConnectionMigration c) = _ |- _ =>
      rewrite E, Hsa
  end.
  reflexivity.
Qed.

(** *** Loss *)

Lemma maybeTraceStateChange_frame (new : CongestionState) (c : cubicSender) :
  let c' := maybeTraceStateChange new c in
  hybridSlowStart c' = hybridSlowStart c
  /\ hybridSlowStartpp c' = hybridSlowStartpp c
  /\ cubic c' = cubic c
  /\ pacer c' = pacer c
  /\ chosenStartAlgo c' = chosenStartAlgo c
  /\ chosenCongestionAlgo c' = chosenCongestionAlgo c
  /\ largestSentPacketNumber c' = largestSentPacketNumber c
  /\ largestAckedPacketNumber c' = largestAckedPacketNumber c
  /\ largestSentAtLastCutback c' = largestSentAtLastCutback c
  /\ lastCutbackExitedSlowstart c' = lastCutbackExitedSlowstart c
  /\ congestionWindow c' = congestionWindow c
  /\ slowStartThreshold c' = slowStartThreshold c
  /\ numAckedPackets c' = numAckedPackets c
  /\ maxDatagramSize c' = maxDatagramSize c.
Proof.
  open_sender c. unfold maybeTraceStateChange. cbn.
  destruct tr; [destruct (CongestionState_eqb new lst)|]; cbn;
    conjs; reflexivity.
Qed.

Lemma CongestionState_eqb_eq (a b : CongestionState) :
  CongestionState_eqb a b = true <-> a = b.
Proof. destruct a, b; cbn; split; intros H; try reflexivity; discriminate. Qed.

Lemma maybeTraceStateChange_traces (new : CongestionState) (c : cubicSender) :
  traces_to new c (maybeTraceStateChange new c).
Proof.
  open_sender c. unfold traces_to, maybeTraceStateChange. cbn.
  destruct tr as [calls|]; [|split; reflexivity].
  destruct (CongestionState_eqb new lst) eqn:He; cbn.
  - apply CongestionState_eqb_eq in He. split; congruence.
  - split; reflexivity.
Qed.

(** What [finishCutback] does: clamp from below, threshold, cutback mark,
    ack counter. *)
Lemma finishCutback_fields (c : cubicSender) :
  let c' := finishCutback c in
  congestionWindow c' = Z.max (congestionWindow c) (minCongestionWindow c)
  /\ slowStartThreshold c' = congestionWindow c'
  /\ largestSentAtLastCutback c' = largestSentPacketNumber c
  /\ numAckedPackets c' = 0
  /\ lastCutbackExitedSlowstart c' = lastCutbackExitedSlowstart c
  /\ tracer c' = tracer c
  /\ lastState c' = lastState c.
Proof.
  open_sender c. unfold finishCutback, minCongestionWindow.
  cbn -[mul64].
  destruct (Z.ltb_spec w (mul64 mds minCongestionWindowPackets));
    cbn -[mul64]; conjs; try reflexivity; lia.
Qed.

Lemma OnPacketLost_NewReno_unfold
    (pn lostBytes priorInFlight : Z) (c : cubicSender) :
  chosenCongestionAlgo c = ChooseNewReno ->
  InLowSlowStart c = false ->
  largestSentAtLastCutback c < pn ->
  OnPacketLost pn lostBytes priorInFlight c =
  let c3 := maybeTraceStateChange CongestionStateRecovery
              (set_lastCutbackExitedSlowstart (InSlowStart c) c) in
  finishCutback (set_congestionWindow (renoCutback (congestionWindow c3)) c3).
Proof.
  intros Hca Hlss Hpn. unfold OnPacketLost. rewrite Hlss, Hca.
  destruct (Z.leb_spec pn (largestSentAtLastCutback c)); [lia|reflexivity].
Qed.

(** The float64 product of the specification's loss scenario. *)
Lemma renoCutback_40000 : renoCutback 40000 = 28000.
Proof. vm_compute. reflexivity. Qed.

(** C6 (amended). A NewReno loss outside Low Slow Start, for a packet past
    the last cutback: the window becomes the float64 product
    [float64(cwnd) * 0.7] truncated to an integer, or two datagrams if that
    is more; the threshold is the new window; the cutback mark is the
    largest packet sent; the ack counter is 0; the flag records whether the
    sender was in slow start. A sender with a tracer has Recovery as its
    last traced state, and the sink is called unless Recovery was already
    the last traced state; a sender without a tracer traces nothing. From a
    window of 40000 the product is 28000; for windows below [2^49] it is
    [floor (0.7 * cwnd)] or one less. *)
Theorem OnPacketLost_NewReno_cutback
    (pn lostBytes priorInFlight : Z) (c : cubicSender) :
  chosenCongestionAlgo c = ChooseNewReno ->
  InLowSlowStart c = false ->
  largestSentAtLastCutback c < pn ->
  let c' := OnPacketLost pn lostBytes priorInFlight c in
  congestionWindow c' =
    Z.max (renoCutback (congestionWindow c)) (minCongestionWindow c)
  /\ slowStartThreshold c' = congestionWindow c'
  /\ largestSentAtLastCutback c' = largestSentPacketNumber c
  /\ numAckedPackets c' = 0
  /\ lastCutbackExitedSlowstart c' = InSlowStart c
  /\ traces_to CongestionStateRecovery c c'
  /\ (congestionWindow c = 40000 ->
      congestionWindow c' = Z.max 28000 (minCongestionWindow c))
  /\ (0 <= congestionWindow c < 2 ^ 49 ->
      7 * congestionWindow c / 10 - 1 <= renoCutback (congestionWindow c)
      <= 7 * congestionWindow c / 10).
Proof.
  intros Hca Hlss Hpn. cbv zeta.
  rewrite (OnPacketLost_NewReno_unfold pn lostBytes priorInFlight c Hca Hlss Hpn).
  cbv zeta.
  set (c3 := maybeTraceStateChange CongestionStateRecovery
               (set_lastCutbackExitedSlowstart (InSlowStart c) c)).
  pose proof (maybeTraceStateChange_frame CongestionStateRecovery
                (set_lastCutbackExitedSlowstart (InSlowStart c) c)) as Hf.
  cbv zeta in Hf. fold c3 in Hf.
  destruct Hf as (_ & _ & _ & _ & _ & _ & Hls & _ & _ & Hle & Hw & _ & _ & Hm).
  pose proof (maybeTraceStateChange_traces CongestionStateRecovery
                (set_lastCutbackExitedSlowstart (InSlowStart c) c)) as Ht.
  fold c3 in Ht.
  pose proof (finishCutback_fields
                (set_congestionWindow (renoCutback (congestionWindow c3)) c3))
    as (F1 & F2 & F3 & F4 & F5 & F6 & F7).
  assert (Hmin : minCongestionWindow
                   (set_congestionWindow (renoCutback (congestionWindow c3)) c3)
                 = minCongestionWindow c).
  { unfold minCongestionWindow.
    replace (maxDatagramSize (set_congestionWindow
               (renoCutback (congestionWindow c3)) c3))
      with (maxDatagramSize c3) by (destruct c3; reflexivity).
    rewrite Hm. destruct c; reflexivity. }
  assert (Hw' : congestionWindow c3 = congestionWindow c)
    by (rewrite Hw; destruct c; reflexivity).
  assert (Hcw : congestionWindow
                  (finishCutback
                     (set_congestionWindow (renoCutback (congestionWindow c3)) c3))
                = Z.max (renoCutback (congestionWindow c)) (minCongestionWindow c)).
  { rewrite F1, Hmin.
    replace (congestionWindow (set_congestionWindow
               (renoCutback (congestionWindow c3)) c3))
      with (renoCutback (congestionWindow c3)) by (destruct c3; reflexivity).
    rewrite Hw'. reflexivity. }
  conjs.
  - exact Hcw.
  - exact F2.
  - rewrite F3.
    replace (largestSentPacketNumber (set_congestionWindow
               (renoCutback (congestionWindow c3)) c3))
      with (largestSentPacketNumber c3) by (destruct c3; reflexivity).
    rewrite Hls. destruct c; reflexivity.
  - exact F4.
  - rewrite F5.
    replace (lastCutbackExitedSlowstart (set_congestionWindow
               (renoCutback (congestionWindow c3)) c3))
      with (lastCutbackExitedSlowstart c3) by (destruct c3; reflexivity).
    rewrite Hle. destruct c; reflexivity.
  - unfold traces_to in *. rewrite F6, F7.
    replace (tracer (set_congestionWindow
               (renoCutback (congestionWindow c3)) c3))
      with (tracer c3) by (destruct c3; reflexivity).
    replace (lastState (set_congestionWindow
               (renoCutback (congestionWindow c3)) c3))
      with (lastState c3) by (destruct c3; reflexivity).
    replace (tracer c) with
      (tracer (set_lastCutbackExitedSlowstart (InSlowStart c) c))
      by (destruct c; reflexivity).
    replace (lastState c) with
      (lastState (set_lastCutbackExitedSlowstart (InSlowStart c) c))
      by (destruct c; reflexivity).
    exact Ht.
  - intros H4. rewrite Hcw, H4, renoCutback_40000. reflexivity.
  - intros Hr. apply FloatFacts.renoCutback_bounds, Hr.
Qed.

(** C5 (amended). For a packet number not above the largest sent one, a
    second [OnPacketLost] changes nothing: state and trace are those after
    the first call. *)
Theorem OnPacketLost_twice
    (pn lostBytes priorInFlight : Z) (c : cubicSender) :
  pn <= largestSentPacketNumber c ->
  OnPacketLost pn lostBytes priorInFlight
    (OnPacketLost pn lostBytes priorInFlight c)
  = OnPacketLost pn lostBytes priorInFlight c.
Proof.
  intros Hpn.
  assert (Hnoop : forall d : cubicSender,
             InLowSlowStart d = false -> pn <= largestSentAtLastCutback d ->
             OnPacketLost pn lostBytes priorInFlight d = d).
  { intros d Hl Hc. unfold OnPacketLost. rewrite Hl.
    destruct (Z.leb_spec pn (largestSentAtLastCutback d)); [|lia].
    destruct (chosenCongestionAlgo d); reflexivity. }
  apply Hnoop.
  - open_sender c. unfold OnPacketLost, InLowSlowStart, finishCutback,
      maybeTraceStateChange. cbn -[renoCutback mul64].
    repeat (break_match; cbn -[renoCutback mul64] in * ); try reflexivity;
      congruence.
  - open_sender c. cbn in Hpn. unfold OnPacketLost, InLowSlowStart, finishCutback,
      maybeTraceStateChange. cbn -[renoCutback mul64].
    repeat (break_match; cbn -[renoCutback mul64] in * ); lia.
Qed.

(** *** The tracer *)

Lemma last_nonempty (l : list CongestionState) (d d' : CongestionState) :
  l <> [] -> last l d = last l d'.
Proof.
  induction l as [|x l IH]; intros Hl; [contradiction|].
  destruct l as [|y l']; [reflexivity|].
  cbn [last] in *. apply IH. discriminate.
Qed.

Lemma no_repeat_snoc (l : list CongestionState) (a : CongestionState) :
  no_repeat l -> (l = [] \/ last l a <> a) -> no_repeat (l ++ [a]).
Proof.
  induction l as [|x l IH]; intros Hn Hl; [exact I|].
  destruct l as [|y l'].
  - cbn in *. destruct Hl as [Hl|Hl]; [discriminate|]. split; [exact Hl|exact I].
  - destruct Hn as [Hxy Hn]. change ((x :: y :: l') ++ [a])
      with (x :: (y :: l') ++ [a]).
    cbn [no_repeat app]. split; [exact Hxy|].
    apply IH; [exact Hn|]. right. destruct Hl as [Hl|Hl]; [discriminate|].
    exact Hl.
Qed.

Lemma trace_inv_push (new lst : CongestionState)
    (calls : list CongestionState) :
  trace_inv lst (Some calls) ->
  CongestionState_eqb new lst = false ->
  trace_inv new (Some (calls ++ [new])).
Proof.
  intros (Hn & Hl & Hh) He. unfold trace_inv.
  assert (Hne : calls <> []) by (intros ->; discriminate).
  conjs.
  - apply no_repeat_snoc; [exact Hn|]. right.
    rewrite (last_nonempty calls new CongestionStateSlowStart Hne), Hl.
    intros ->. destruct new; discriminate.
  - apply last_last.
  - destruct calls; [contradiction|exact Hh].
Qed.

Arguments trace_inv : simpl never.

Ltac trace_leaf :=
  first [ eassumption
        | eapply trace_inv_push;
          [trace_leaf | first [assumption | reflexivity]] ].

Lemma step_trace_inv (e : event) (c : cubicSender) :
  trace_inv (lastState c) (tracer c) ->
  trace_inv (lastState (state_of (step e c))) (tracer (state_of (step e c))).
Proof.
  open_sender c. cbn [lastState tracer]. intros Hinv.
  destruct e; run_ops; trace_leaf.
Qed.

Lemma step_untraced (e : event) (c : cubicSender) :
  tracer c = None -> tracer (state_of (step e c)) = None.
Proof.
  open_sender c. cbn [tracer]. intros ->.
  destruct e; run_ops; reflexivity.
Qed.

Lemma run_trace_inv (es : list event) (c : cubicSender) :
  trace_inv (lastState c) (tracer c) ->
  trace_inv (lastState (state_of (run es c))) (tracer (state_of (run es c))).
Proof.
  revert c. induction es as [|e es IH]; intros c Hc; cbn [run]; [exact Hc|].
  pose proof (step_trace_inv e c Hc) as Hs.
  destruct (step e c) as [c1|c1]; cbn [state_of] in *; [apply IH|]; exact Hs.
Qed.

Lemma run_untraced (es : list event) (c : cubicSender) :
  tracer c = None -> tracer (state_of (run es c)) = None.
Proof.
  revert c. induction es as [|e es IH]; intros c Hc; cbn [run]; [exact Hc|].
  pose proof (step_untraced e c Hc) as Hs.
  destruct (step e c) as [c1|c1]; cbn [state_of] in *; [apply IH|]; exact Hs.
Qed.

Lemma step_traced (e : event) (c : cubicSender) :
  tracer c <> None -> tracer (state_of (step e c)) <> None.
Proof.
  open_sender c. cbn [tracer]. intros Hc.
  destruct e; run_ops; first [discriminate | assumption].
Qed.

Lemma run_traced (es : list event) (c : cubicSender) :
  tracer c <> None -> tracer (state_of (run es c)) <> None.
Proof.
  revert c. induction es as [|e es IH]; intros c Hc; cbn [run]; [exact Hc|].
  pose proof (step_traced e c Hc) as Hs.
  destruct (step e c) as [c1|c1]; cbn [state_of] in *; [apply IH|]; exact Hs.
Qed.

(** C9. Whatever events follow the construction, also when one of them
    panics: the calls [UpdatedCongestionState] has received never carry the
    same state twice in a row; with a tracer the first call is the
    SlowStart of the constructor and the last one is the sender's last
    traced state; without a tracer there is no call. *)
Theorem tracer_never_repeats
    (mds0 : Z) (sa : StartAlgo) (ca : CongestionAlgo) (hasTracer : bool)
    (es : list event) :
  let c := state_of (run es (NewCubicSender mds0 sa ca hasTracer)) in
  no_repeat (traced c)
  /\ (if hasTracer
      then hd_error (traced c) = Some CongestionStateSlowStart
           /\ last (traced c) CongestionStateSlowStart = lastState c
      else traced c = []).
Proof.
  cbv zeta. unfold traced. destruct hasTracer.
  - pose proof (run_trace_inv es (NewCubicSender mds0 sa ca true)) as H.
    assert (H0 : trace_inv (lastState (NewCubicSender mds0 sa ca true))
                   (tracer (NewCubicSender mds0 sa ca true)))
      by (unfold trace_inv; cbn; repeat split).
    specialize (H H0). unfold trace_inv in H.
    destruct (tracer (state_of (run es (NewCubicSender mds0 sa ca true))))
      as [calls|] eqn:Ht.
    + destruct H as (Hn & Hl & Hh). conjs; assumption.
    + exfalso. revert Ht. apply run_traced. discriminate.
  - rewrite (run_untraced es (NewCubicSender mds0 sa ca false) eq_refl).
    split; [exact I | reflexivity].
Qed.

(** *** Classic slow start *)

Ltac bools_to_props :=
  repeat match goal with
  | H : (_ >=? _) = _ |- _ => rewrite Z.geb_leb in H
  | H : (_ >? _) = _ |- _ => rewrite Z.gtb_ltb in H
  | H : (_ <? _) = true |- _ => apply Z.ltb_lt in H
  | H : (_ <? _) = false |- _ => apply Z.ltb_ge in H
  | H : (_ <=? _) = true |- _ => apply Z.leb_le in H
  | H : (_ <=? _) = false |- _ => apply Z.leb_gt in H
  | H : (_ =? _) = true |- _ => apply Z.eqb_eq in H
  | H : (_ =? _) = false |- _ => apply Z.eqb_neq in H
  end.

Lemma add64_small (a b : Z) :
  min_int64 <= a + b <= max_int64 -> add64 a b = a + b.
Proof. intros H. unfold add64. apply wrap_int64_id. exact H. Qed.

Lemma step_classic_inv (e : event) (c : cubicSender) :
  0 <= MaxCongestionWindowPackets ->
  MaxByteCount <= max_int64 ->
  undisturbed e ->
  classic_inv c ->
  classic_inv (state_of (step e c))
  /\ (no_resize e -> returned (step e c) = true).
Proof.
  intros Hk Hx He (Hsa & Hst & Hm & Hb & Hw0 & Hw1).
  open_sender c. cbn [chosenStartAlgo slowStartThreshold maxDatagramSize
                      congestionWindow] in *.
  subst sa st.
  remember (Z.max 32 (MaxCongestionWindowPackets + 1)) as B eqn:HB.
  assert (HB32 : 32 <= B) by lia.
  assert (HBK : MaxCongestionWindowPackets + 1 <= B) by lia.
  assert (HP : mds * MaxCongestionWindowPackets + mds <= mds * B) by nia.
  assert (HP0 : 0 <= mds * MaxCongestionWindowPackets) by nia.
  assert (HP2 : 2 * mds <= mds * B) by nia.
  assert (Hmul : mul64 mds MaxCongestionWindowPackets
                 = mds * MaxCongestionWindowPackets)
    by (apply mul64_small; lia).
  assert (Hmin : mul64 mds minCongestionWindowPackets = 2 * mds)
    by (unfold minCongestionWindowPackets; rewrite mul64_small; lia).
  unfold classic_inv. rewrite <- HB.
  destruct e; try contradiction; cbn [undisturbed] in He.
  1-3: run_ops_untraced; bools_to_props; rewrite ?Hmul in *; try lia;
    (split; [|intros _; reflexivity]); cbn; conjs; try reflexivity;
    try rewrite add64_small; unfold min_int64, max_int64 in *; lia.
  assert (Hs2 : mds <= s -> mul64 s minCongestionWindowPackets = 2 * s).
  { intros Hle. unfold minCongestionWindowPackets.
    rewrite mul64_small; try lia. nia. }
  assert (Hmono : mds <= s -> mds * B <= s * B) by nia.
  assert (Hs2B : mds <= s -> 2 * s <= s * B) by nia.
  run_ops_untraced; bools_to_props;
    (split; [|intros []]); cbn; conjs; try reflexivity; try lia.
  all: rewrite ?Hs2 by lia; lia.
Qed.

Lemma run_classic_inv (es : list event) :
  0 <= MaxCongestionWindowPackets ->
  MaxByteCount <= max_int64 ->
  Forall undisturbed es ->
  forall c, classic_inv c ->
  classic_inv (state_of (run es c))
  /\ (Forall no_resize es -> returned (run es c) = true).
Proof.
  intros Hk Hx. induction 1 as [|e es He _ IH]; intros c Hc; cbn [run].
  - split; [exact Hc | reflexivity].
  - destruct (step_classic_inv e c Hk Hx He Hc) as [Hc1 Hr].
    destruct (step e c) as [c1|c1]; cbn [state_of returned] in *.
    + destruct (IH c1 Hc1) as [Hc2 Hr2]. split; [exact Hc2|].
      intros Hn. inversion Hn; subst. apply Hr2. assumption.
    + split; [exact Hc1|]. intros Hn. inversion Hn; subst. apply Hr. assumption.
Qed.

(** C8 (amended). A sender built with classic slow start, for a datagram
    size whose largest window stays below [MaxByteCount], run through any
    number of sends, acknowledgements, [MaybeExitSlowStart] calls and
    resizes (to sizes with the same property), without loss, timeout or
    migration: the threshold is still [MaxByteCount], the window is below
    it, [InSlowStart] is true, and unless a resize was among the events no
    call has panicked. *)
Theorem classic_slow_start_never_exits
    (mds0 : Z) (ca : CongestionAlgo) (hasTracer : bool) (es : list event) :
  0 <= mds0 ->
  0 <= MaxCongestionWindowPackets ->
  mds0 * Z.max 32 (MaxCongestionWindowPackets + 1) < MaxByteCount ->
  MaxByteCount <= max_int64 ->
  Forall undisturbed es ->
  let o := run es (NewCubicSender mds0 ChooseSlowStart ca hasTracer) in
  let c := state_of o in
  slowStartThreshold c = MaxByteCount
  /\ congestionWindow c < slowStartThreshold c
  /\ InSlowStart c = true
  /\ (Forall no_resize es -> o = Ok c).
Proof.
  intros Hm Hk Hb Hx Hes. cbv zeta.
  assert (H0 : classic_inv (NewCubicSender mds0 ChooseSlowStart ca hasTracer)).
  { unfold classic_inv. cbn -[mul64 Z.mul Z.max].
    unfold initialCongestionWindowPackets.
    rewrite mul64_small; unfold max_int64 in *; conjs; try reflexivity; nia. }
  destruct (run_classic_inv es Hk Hx Hes _ H0)
    as ((Hsa & Hst & Hmds & Hfit & Hw0 & Hw1) & Hr).
  conjs; try assumption.
  - lia.
  - unfold InSlowStart, GetCongestionWindow. apply Z.ltb_lt. lia.
  - intros Hn. specialize (Hr Hn).
    destruct (run es _); [reflexivity | discriminate].
Qed.

(** *** The window bounds *)

Lemma renoCutback_le (w : Z) :
  0 <= w < 2 ^ 49 -> 0 <= renoCutback w <= w.
Proof.
  intros Hw. pose proof (FloatFacts.renoCutback_bounds w Hw) as [Hlo Hhi].
  assert (7 * w / 10 <= w) by (apply Z.div_le_upper_bound; lia).
  assert (0 <= 7 * w / 10) by (apply Z.div_pos; lia).
  split; [|lia].
  destruct (Z.eq_dec w 0) as [->|Hn]; [vm_compute; discriminate|].
  assert (Hr : renoCutback w <> -1 -> 0 <= renoCutback w) by lia.
  apply Hr. clear Hr. intros Hm.
  (* a negative result would be the sign of the product *)
  unfold renoCutback, float64_of_int, float64_mul, prec, emax in Hm.
  destruct w as [|x|x]; try lia.
  destruct (FloatFacts.float64_of_int_exact x ltac:(lia))
    as (mz & s & E & _). rewrite E in Hm.
  rewrite FloatFacts.renoBeta_value in Hm. cbn [SFmul xorb] in Hm.
  unfold binary_round_aux in Hm.
  destruct (shr_fexp 53 1024 _ _ _) as [mrs1 e1].
  destruct (shr_fexp 53 1024 _ _ _) as [mrs2 e2].
  destruct (shr_m mrs2) as [|m|m];
    [cbn in Hm; discriminate| |cbn in Hm; discriminate].
  destruct (e2 <=? 1024 - 53); [|cbn in Hm; discriminate].
  unfold int64_of_float64, trunc_finite in Hm.
  assert (Hv : 0 <= (if 0 <=? e2 then Z.pos m * 2 ^ e2
                     else Z.pos m / 2 ^ (- e2))).
  { destruct (Z.leb_spec 0 e2).
    - apply Z.mul_nonneg_nonneg; [lia|]. apply Z.pow_nonneg. lia.
    - apply Z.div_pos; [lia|]. apply Z.pow_pos_nonneg; lia. }
  destruct ((min_int64 <=? _) && (_ <=? max_int64)); [lia|].
  unfold min_int64 in Hm. lia.
Qed.

Lemma mds_products (s : Z) :
  32 <= MaxCongestionWindowPackets -> fits s ->
  mul64 s MaxCongestionWindowPackets = s * MaxCongestionWindowPackets
  /\ mul64 s 2 = 2 * s
  /\ 0 < s * MaxCongestionWindowPackets
  /\ 32 * s <= s * MaxCongestionWindowPackets
  /\ s * MaxCongestionWindowPackets + s < 2 ^ 49.
Proof.
  intros HK [Hs Hf].
  rewrite !mul64_small; unfold max_int64; conjs; nia.
Qed.

(** As [run_ops_untraced], with [MinByteCount] kept folded. *)
Ltac run_ops_bounds :=
  unfold step, OnPacketSent, MaybeExitSlowStart, OnPacketAcked, OnPacketLost,
    OnRetransmissionTimeout, OnConnectionMigration, SetMaxDatagramSize,
    maybeIncreaseCwnd, finishCutback, restartDetector, cubicAfterAck,
    InLowSlowStart, InSlowStart, InRecovery,
    isCwndLimited, GetCongestionWindow, minCongestionWindow,
    maxCongestionWindow, state_of;
  cbn -[Z.mul Z.add Z.sub Z.quot Z.pow Z.div Z.modulo renoCutback mul64 add64
        sub64 quot64 div64 wrap_uint64 tracedState tracedCalls
        maybeTraceStateChange MinByteCount];
  repeat (first [rewrite !maybeTraceStateChange_writes | break_match];
          cbn -[Z.mul Z.add Z.sub Z.quot Z.pow Z.div Z.modulo renoCutback mul64
                add64 sub64 quot64 div64 wrap_uint64 tracedState tracedCalls
                maybeTraceStateChange MinByteCount]).

(** Brings what is known of a collaborator's result to the name the result
    was given. *)
Ltac sync_pairs :=
  repeat match goal with
  | H : ?t = (_, _), H' : ?P |- _ =>
      lazymatch P with
      | _ = (_, _) => fail
      | context [t] => rewrite H in H'
      end
  end; cbn [fst snd] in *.

Lemma step_bounds_inv (mds0 : Z) (sa0 : StartAlgo) (e : event)
    (c : cubicSender) :
  32 <= MaxCongestionWindowPackets ->
  event_sized sa0 e ->
  bounds_inv mds0 sa0 c ->
  bounds_inv mds0 sa0 (state_of (step e c)).
Proof.
  intros HK He (Hcub & Hhpp & Hm0 & Hfit & Hlo & Hhi & Hiw & Himw).
  open_sender c.
  cbn [chosenCongestionAlgo chosenStartAlgo maxDatagramSize congestionWindow
       initialCongestionWindow initialMaxCongestionWindow
       slowStartThreshold] in *.
  assert (Hov : 1 <= overshoot sa0 <= 2) by (destruct sa0; cbn; lia).
  assert (HO1 : mds <= overshoot sa0 * mds) by nia.
  assert (HO2 : sa = ChooseHystartpp -> overshoot sa0 * mds = 2 * mds).
  { intros E. destruct (Hhpp E) as (-> & _). reflexivity. }
  assert (HO49 : mds * MaxCongestionWindowPackets + overshoot sa0 * mds
                 < 2 ^ 49) by lia.
  assert (Emax : mul64 mds MaxCongestionWindowPackets
                 = mds * MaxCongestionWindowPackets)
    by (apply mul64_small; unfold max_int64; nia).
  assert (Emin : mul64 mds minCongestionWindowPackets = 2 * mds)
    by (unfold minCongestionWindowPackets; rewrite mul64_small;
        unfold max_int64; nia).
  assert (HP32 : 32 * mds <= mds * MaxCongestionWindowPackets) by nia.
  assert (Hadd : add64 w mds = w + mds)
    by (apply add64_small; unfold min_int64, max_int64; lia).
  assert (Hq : 0 < quot64 w 2).
  { rewrite quot64_id by (unfold in_int64, min_int64, max_int64; lia).
    pose proof (Z.quot_le_lower_bound w 2 1 ltac:(lia) ltac:(lia)). lia. }
  unfold bounds_inv.
  destruct e.
  - (* a packet sent *)
    destruct sa; run_ops_bounds; conjs; first [assumption | lia].
  - (* the exit test *)
    assert (Hd : forall x, div64 x mds = Some (wrap_int64 (Z.quot x mds))).
    { intros x. unfold div64. destruct (Z.eqb_spec mds 0); [lia|reflexivity]. }
    destruct sa; run_ops_bounds; rewrite ?Hd in *;
      try match goal with H : Some _ = None |- _ => discriminate H end;
      conjs; try assumption; try discriminate; try lia;
      intros Hs; destruct (Hhpp Hs) as (? & ? & ?); conjs; try assumption; lia.
  - (* an acknowledgement *)
    cbn [event_sized] in He.
    assert (Hcw : ca = ChooseCubic ->
              w <= fst (Cubic_CongestionWindowAfterAck ackedBytes w
                          (MinRTT rtt) eventTime k)).
    { intros E. destruct (Hcub E) as [_ H]. apply H. }
    assert (HS : sa = ChooseHystartpp ->
              w < mds * MaxCongestionWindowPackets ->
              w <= Hpp_UpdateCwndHystartppSlowStart ackedBytes w mds hpp
                <= w + 2 * mds).
    { intros E Hlt. destruct (Hhpp E) as (E0 & (_ & H & _) & _).
      apply H; try lia. apply He, E0. }
    assert (HL : sa = ChooseHystartpp -> forall caw,
              st <= w -> w < mds * MaxCongestionWindowPackets ->
              0 <= caw < 2 ^ 50 ->
              w <= Hpp_UpdateCwndHystartppLowSlowStart ackedBytes w mds st
                     caw hpp
                <= Z.max (w + 2 * mds) caw).
    { intros E caw H1 H2 H3. destruct (Hhpp E) as (E0 & (_ & _ & H) & Hst).
      apply H; try lia. apply He, E0. }
    assert (Hd : forall x, div64 x mds = Some (wrap_int64 (Z.quot x mds))).
    { intros x. unfold div64. destruct (Z.eqb_spec mds 0); [lia|reflexivity]. }
    destruct sa, ca; run_ops_bounds; rewrite ?Hd in *;
      try match goal with H : Some _ = None |- _ => discriminate H end;
      try match goal with
          | |- context [Hpp_UpdateCwndHystartppLowSlowStart _ _ _ _ ?caw _] =>
              pose proof (HL eq_refl caw) as HLc
          end;
      try specialize (HS eq_refl); try specialize (Hcw eq_refl);
      rewrite ?Emax, ?Hadd, ?MinByteCount_min in *; sync_pairs;
      bools_to_props; try specialize (HO2 eq_refl);
      conjs; first [assumption | discriminate | lia].
  - (* a loss *)
    pose proof (renoCutback_le w ltac:(lia)) as Hcut.
    assert (Hcl : ca = ChooseCubic ->
              fst (Cubic_CongestionWindowAfterPacketLoss w k) <= w).
    { intros E. destruct (Hcub E) as [H _]. apply H. lia. }
    destruct sa, ca; run_ops_bounds;
      try specialize (Hcl eq_refl);
      rewrite ?Emin in *; sync_pairs;
      bools_to_props; try specialize (HO2 eq_refl);
      conjs; try first [assumption | discriminate | lia];
      intros _; destruct (Hhpp eq_refl) as (? & ? & ?);
      conjs; first [assumption | lia].
  - (* a timeout *)
    destruct sa, packetsRetransmitted; run_ops_bounds;
      rewrite ?Emin in *; conjs; try first [assumption | discriminate | lia];
      intros _; destruct (Hhpp eq_refl) as (? & ? & ?);
      conjs; first [assumption | lia].
  - (* a migration *)
    destruct sa; run_ops_bounds;
      conjs; try first [assumption | discriminate | lia];
      intros _; destruct (Hhpp eq_refl) as (? & ? & ?);
      conjs; first [assumption | lia].
  - (* a resize *)
    cbn [event_sized] in He. destruct He as [Hs0 Hsf].
    assert (Emin' : mds <= s -> mul64 s minCongestionWindowPackets = 2 * s).
    { intros Hle. unfold minCongestionWindowPackets.
      rewrite mul64_small; unfold max_int64; nia. }
    assert (Hmono : mds <= s ->
              mds * MaxCongestionWindowPackets + overshoot sa0 * mds
              <= s * MaxCongestionWindowPackets + overshoot sa0 * s) by nia.
    assert (Hs2 : 2 * s < s * MaxCongestionWindowPackets + overshoot sa0 * s)
      by nia.
    run_ops_bounds; bools_to_props; rewrite ?Emin' by lia;
      conjs; first [assumption | lia].
Qed.

Lemma run_bounds_inv (mds0 : Z) (sa0 : StartAlgo) (es : list event) :
  32 <= MaxCongestionWindowPackets ->
  Forall (event_sized sa0) es ->
  forall c : cubicSender,
  bounds_inv mds0 sa0 c ->
  bounds_inv mds0 sa0 (state_of (run es c)).
Proof.
  intros HK. induction 1 as [|e es He _ IH]; intros c Hc; cbn [run].
  - exact Hc.
  - pose proof (step_bounds_inv mds0 sa0 e c HK He Hc) as Hc1.
    destruct (step e c) as [c1|c1]; cbn [state_of] in *.
    + apply IH, Hc1.
    + exact Hc1.
Qed.

(** Only a resize changes the datagram size. *)
Lemma step_keeps_size (e : event) (c : cubicSender) :
  no_resize e -> maxDatagramSize (state_of (step e c)) = maxDatagramSize c.
Proof.
  intros He. open_sender c.
  destruct e; try contradiction; run_ops_untraced; reflexivity.
Qed.

Lemma run_keeps_size (es : list event) :
  Forall no_resize es ->
  forall c : cubicSender,
  maxDatagramSize (state_of (run es c)) = maxDatagramSize c.
Proof.
  induction 1 as [|e es He _ IH]; intros c; cbn [run]; [reflexivity|].
  pose proof (step_keeps_size e c He) as Hs.
  destruct (step e c) as [c1|c1]; cbn [state_of] in *.
  - rewrite IH. exact Hs.
  - exact Hs.
Qed.


(** *** Panics *)

(** One event on a sender with a positive datagram size: the size does not
    shrink, and a panic is the refusal of a smaller size, raised before
    anything is written. *)
Lemma step_size (e : event) (c : cubicSender) :
  0 < maxDatagramSize c ->
  maxDatagramSize c <= maxDatagramSize (state_of (step e c))
  /\ (forall c', step e c = Panic c' -> c' = c /\ is_resize_below c e).
Proof.
  open_sender c. cbn [maxDatagramSize]. intros Hm.
  assert (Hd : forall a, div64 a mds = Some (wrap_int64 (Z.quot a mds))).
  { intros a. unfold div64. destruct (Z.eqb_spec mds 0); [lia|reflexivity]. }
  destruct e; unfold is_resize_below; cbn [maxDatagramSize].
  all: run_ops_untraced; rewrite ?Hd in *; bools_to_props.
  all: try match goal with H : None = Some _ |- _ => discriminate H
                         | H : Some _ = None |- _ => discriminate H end.
  all: split; [try lia | intros c' Hc'; try discriminate Hc'].
  all: try (inversion Hc'; subst; split; [reflexivity | lia]).
Qed.


Lemma run_size (es : list event) : forall c : cubicSender,
  0 < maxDatagramSize c ->
  maxDatagramSize c <= maxDatagramSize (state_of (run es c))
  /\ (forall c', run es c = Panic c' ->
        exists s, In (EvSetMaxDatagramSize s) es /\ s < maxDatagramSize c').
Proof.
  induction es as [|e es IH]; intros c Hm; cbn [run state_of].
  - split; [lia | discriminate].
  - destruct (step_size e c Hm) as [Hle Hp].
    destruct (step e c) as [c1|c1] eqn:Hs; cbn [state_of] in *.
    + destruct (IH c1 ltac:(lia)) as [Hle1 Hp1]. split; [lia|].
      intros c' Hc'. destruct (Hp1 c' Hc') as (s & Hin & Hlt).
      exists s. split; [right; exact Hin | exact Hlt].
    + split; [exact Hle|]. intros c' Hc'. inversion Hc'; subst c'.
      destruct (Hp c1 eq_refl) as [-> Hr].
      destruct e; cbn [is_resize_below] in Hr; try contradiction.
      exists s. split; [left; reflexivity | exact Hr].
Qed.

(** X8. A sender built with a positive datagram size, whatever events follow:
    the datagram size never falls below the initial one, and the only panic
    is [SetMaxDatagramSize] refusing a size below the current one (no
    division by the datagram size can fail). *)
Theorem only_a_smaller_size_panics
    (mds0 : Z) (sa : StartAlgo) (ca : CongestionAlgo) (hasTracer : bool)
    (es : list event) :
  0 < mds0 ->
  let o := run es (NewCubicSender mds0 sa ca hasTracer) in
  mds0 <= maxDatagramSize (state_of o)
  /\ (forall c', o = Panic c' ->
        exists s, In (EvSetMaxDatagramSize s) es /\ s < maxDatagramSize c').
Proof.
  intros Hm. cbv zeta.
  apply (run_size es (NewCubicSender mds0 sa ca hasTracer)). exact Hm.
Qed.

(** X9. The edge the previous fact excludes: with a datagram size of 0 the
    window in packets cannot be computed, and [MaybeExitSlowStart] panics
    under HyStart and HyStart++ as soon as the sender is in slow start; a
    sender built with size 0 is in slow start. *)
Theorem zero_datagram_size_panics
    (rtt : RTTStats) (sa : StartAlgo) (ca : CongestionAlgo) (hasTracer : bool) :
  sa <> ChooseSlowStart ->
  (forall c : cubicSender,
     maxDatagramSize c = 0 -> InSlowStart c = true -> chosenStartAlgo c = sa ->
     MaybeExitSlowStart rtt c = Panic c)
  /\ (0 < MaxByteCount ->
      MaybeExitSlowStart rtt (NewCubicSender 0 sa ca hasTracer)
      = Panic (NewCubicSender 0 sa ca hasTracer)).
Proof.
  intros Hsa.
  assert (H : forall c : cubicSender,
     maxDatagramSize c = 0 -> InSlowStart c = true -> chosenStartAlgo c = sa ->
     MaybeExitSlowStart rtt c = Panic c).
  { intros c Hm Hs Ha. unfold MaybeExitSlowStart. rewrite Hs, Ha, Hm.
    destruct sa; [congruence| |]; reflexivity. }
  split; [exact H|]. intros HB. apply H; try reflexivity.
  unfold InSlowStart, GetCongestionWindow, NewCubicSender. cbn.
  apply Z.ltb_lt. exact HB.
Qed.

(** *** Packet numbers and algorithm choices *)

Lemma step_largestAcked (e : event) (c c' : cubicSender) :
  keeps_connection e -> step e c = Ok c' ->
  largestAckedPacketNumber c' =
  match e with
  | EvPacketAcked _ pn _ _ _ => Z.max pn (largestAckedPacketNumber c)
  | _ => largestAckedPacketNumber c
  end.
Proof.
  open_sender c. intros He Hs. apply (f_equal state_of) in Hs.
  cbn [state_of] in Hs. subst c'. revert He.
  destruct e; cbn [keeps_connection]; try contradiction; intros _;
    run_ops_untraced; rewrite ?MaxPacketNumber_max; reflexivity.
Qed.

Lemma run_largestAcked (es : list event) : forall c c' : cubicSender,
  Forall keeps_connection es ->
  run es c = Ok c' ->
  largestAckedPacketNumber c' =
  fold_left Z.max (acked_numbers es) (largestAckedPacketNumber c).
Proof.
  induction es as [|e es IH]; intros c c' Hk Hr; cbn [run] in Hr.
  - inversion Hr. reflexivity.
  - inversion Hk as [|? ? He Hes]; subst.
    destruct (step e c) as [c1|c1] eqn:Hs; [|discriminate].
    rewrite (IH c1 c' Hes Hr).
    rewrite (step_largestAcked e c c1 He Hs).
    destruct e; cbn [acked_numbers fold_left]; try reflexivity.
    rewrite Z.max_comm. reflexivity.
Qed.

(** X10. As long as the connection does not migrate and no call panics,
    [largestAckedPacketNumber] is the largest of its initial value and all
    packet numbers acknowledged since, in whatever order the
    acknowledgements arrive. *)
Theorem largestAcked_is_maximum (es : list event) (c : cubicSender) :
  Forall keeps_connection es ->
  returned (run es c) = true ->
  largestAckedPacketNumber (state_of (run es c)) =
  fold_left Z.max (acked_numbers es) (largestAckedPacketNumber c).
Proof.
  intros Hk Hr. destruct (run es c) as [c'|c'] eqn:E; [|discriminate].
  cbn [state_of]. apply (run_largestAcked es c c' Hk E).
Qed.

Lemma step_algorithms (e : event) (c : cubicSender) :
  let c' := state_of (step e c) in
  chosenCongestionAlgo c' = chosenCongestionAlgo c
  /\ (chosenStartAlgo c' = chosenStartAlgo c
      \/ (chosenStartAlgo c = ChooseHystartpp
          /\ chosenStartAlgo c' = ChooseSlowStart
          /\ is_loss e)).
Proof.
  open_sender c. cbv zeta.
  destruct e; run_ops_untraced; cbn [is_loss];
    (split; [reflexivity|]);
    first [left; reflexivity | right; conjs; first [reflexivity | exact I]].
Qed.

(** X11. Whatever events a sender sees: the congestion algorithm it was given is
    never changed, and the start algorithm changes at most once, from
    HyStart++ to classic slow start, which takes a loss event. *)
Theorem algorithm_choice_is_stable (es : list event) : forall c : cubicSender,
  let c' := state_of (run es c) in
  chosenCongestionAlgo c' = chosenCongestionAlgo c
  /\ (chosenStartAlgo c' = chosenStartAlgo c
      \/ (chosenStartAlgo c = ChooseHystartpp
          /\ chosenStartAlgo c' = ChooseSlowStart
          /\ Exists is_loss es)).
Proof.
  cbv zeta. induction es as [|e es IH]; intros c; cbn [run state_of].
  - split; [reflexivity | left; reflexivity].
  - pose proof (step_algorithms e c) as [Hc Hs]. cbv zeta in Hc, Hs.
    destruct (step e c) as [c1|c1]; cbn [state_of] in *.
    + destruct (IH c1) as [Hc1 Hs1]. split; [congruence|].
      destruct Hs as [Hs|(Hp & Hq & Hl)], Hs1 as [Hs1|(Hp1 & Hq1 & Hl1)].
      * left. congruence.
      * right. conjs;
          [congruence | assumption | apply Exists_cons_tl; assumption].
      * right. conjs;
          [assumption | congruence | apply Exists_cons_hd; assumption].
      * congruence.
    + split; [exact Hc|]. destruct Hs as [Hs|(Hp & Hq & Hl)];
        [left; exact Hs | right; conjs; try assumption].
      apply Exists_cons_hd; assumption.
Qed.


(** *** Recovery *)

Lemma OnPacketLost_marks (pn lostBytes priorInFlight : Z) (c : cubicSender) :
  largestSentAtLastCutback c < pn ->
  let c1 := OnPacketLost pn lostBytes priorInFlight c in
  largestSentAtLastCutback c1 = largestSentPacketNumber c
  /\ largestAckedPacketNumber c1 = largestAckedPacketNumber c.
Proof.
  open_sender c. cbn [largestSentAtLastCutback]. intros Hpn. cbv zeta.
  run_ops_untraced; bools_to_props; try lia; split; reflexivity.
Qed.

(** X12. After a loss that cut the window (a packet above the last cutback
    mark), the acknowledgement of any valid packet sent before the loss is
    only recorded in [largestAckedPacketNumber]: the sender is in recovery,
    and window, threshold, counters, detectors and trace stay as the loss
    left them. *)
Theorem recovery_freezes_the_window
    (rtt : RTTStats) (pn lostBytes priorInFlight : Z)
    (a ackedBytes inFlight eventTime : Z) (c : cubicSender) :
  largestSentAtLastCutback c < pn ->
  InvalidPacketNumber < a ->
  a <= largestSentPacketNumber c ->
  largestAckedPacketNumber c <= largestSentPacketNumber c ->
  let c1 := OnPacketLost pn lostBytes priorInFlight c in
  OnPacketAcked rtt a ackedBytes inFlight eventTime c1 =
  Ok (set_largestAckedPacketNumber (Z.max a (largestAckedPacketNumber c)) c1)
  /\ InRecovery
       (set_largestAckedPacketNumber (Z.max a (largestAckedPacketNumber c)) c1)
     = true.
Proof.
  intros Hpn Ha Hal Hla. cbv zeta.
  destruct (OnPacketLost_marks pn lostBytes priorInFlight c Hpn) as [Hc Hl].
  cbv zeta in Hc, Hl.
  set (c1 := OnPacketLost pn lostBytes priorInFlight c) in *.
  assert (Hr : InRecovery
       (set_largestAckedPacketNumber (Z.max a (largestAckedPacketNumber c)) c1)
     = true).
  { unfold InRecovery. destruct c1; cbn in *. subst.
    apply andb_true_intro. split.
    - apply negb_true_iff, Z.eqb_neq. lia.
    - apply Z.leb_le. lia. }
  split; [|exact Hr].
  unfold OnPacketAcked. rewrite MaxPacketNumber_max, Hl, Hr. reflexivity.
Qed.

(** X13. Recovery ends with the first acknowledgement of a packet above the
    cutback mark: after it [InRecovery] is false, whatever else the
    acknowledgement did. *)
Theorem ack_past_the_cutback_ends_recovery
    (rtt : RTTStats) (a ackedBytes inFlight eventTime : Z) (c : cubicSender) :
  largestSentAtLastCutback c < a ->
  InRecovery (state_of (OnPacketAcked rtt a ackedBytes inFlight eventTime c))
  = false.
Proof.
  open_sender c. cbn [largestSentAtLastCutback]. intros Ha.
  pose proof (MaxPacketNumber_max a la) as Hmax.
  assert (Hgt : (MaxPacketNumber a la <=? lc) = false)
    by (apply Z.leb_gt; lia).
  run_ops_untraced; rewrite ?Hgt in *; rewrite ?andb_false_r in *;
    first [reflexivity | discriminate].
Qed.

(** *** Acknowledgements and the window *)

(** X14. For a NewReno sender without HyStart++ whose sizes fit: an
    acknowledgement never panics, never shrinks the window and grows it by
    at most one datagram; it leaves the threshold and the datagram size
    alone. *)
Theorem an_ack_adds_at_most_one_datagram
    (rtt : RTTStats) (a ackedBytes inFlight eventTime : Z) (c : cubicSender) :
  32 <= MaxCongestionWindowPackets ->
  window_inv c ->
  exists c',
    OnPacketAcked rtt a ackedBytes inFlight eventTime c = Ok c'
    /\ congestionWindow c <= congestionWindow c'
    /\ congestionWindow c' <= congestionWindow c + maxDatagramSize c
    /\ slowStartThreshold c' = slowStartThreshold c
    /\ maxDatagramSize c' = maxDatagramSize c.
Proof.
  intros HK (Hca & Hsa & Hfit & Hw0 & Hw1 & Hi0 & Hi1).
  open_sender c.
  cbn [chosenCongestionAlgo chosenStartAlgo maxDatagramSize congestionWindow
       slowStartThreshold initialCongestionWindow] in *.
  subst ca.
  destruct (mds_products mds HK Hfit) as (Emax & Emin & HP0 & HP64 & HP49).
  destruct Hfit as [Hmds Hfit].
  assert (Hd : forall x, div64 x mds = Some (wrap_int64 (Z.quot x mds))).
  { intros x. unfold div64. destruct (Z.eqb_spec mds 0); [lia|reflexivity]. }
  assert (Ha : add64 w mds = w + mds)
    by (apply add64_small; unfold min_int64, max_int64; lia).
  destruct sa; try congruence;
    run_ops_untraced; rewrite ?Hd in *;
    try match goal with H : Some _ = None |- _ => discriminate H end;
    (eexists; split; [reflexivity|]; cbn; rewrite ?Ha; conjs;
     first [reflexivity | lia]).
Qed.

(** X15. [MaybeExitSlowStart] never touches the window. Outside slow start it
    does nothing at all. When it changes the threshold, the threshold is the
    window, so that the sender has left slow start. *)
Theorem MaybeExitSlowStart_only_lowers_the_threshold
    (rtt : RTTStats) (c : cubicSender) :
  let c' := state_of (MaybeExitSlowStart rtt c) in
  congestionWindow c' = congestionWindow c
  /\ maxDatagramSize c' = maxDatagramSize c
  /\ (InSlowStart c = false -> MaybeExitSlowStart rtt c = Ok c)
  /\ (chosenStartAlgo c = ChooseSlowStart -> MaybeExitSlowStart rtt c = Ok c)
  /\ (slowStartThreshold c' = slowStartThreshold c
      \/ (slowStartThreshold c' = congestionWindow c
          /\ InSlowStart c' = false)).
Proof.
  open_sender c. cbv zeta.
  run_ops_untraced; conjs; try reflexivity; try discriminate;
    try (left; reflexivity);
    right; (split; [reflexivity | apply Z.ltb_irrefl]).
Qed.

(** X16. A sender that may not send is window-limited, and [isCwndLimited] is
    monotone in the bytes in flight: a sender that is window-limited with
    [f] bytes in flight is so with more. *)
Theorem isCwndLimited_monotone (f f' : Z) (c : cubicSender) :
  0 <= f -> f <= f' -> f' <= max_int64 ->
  0 <= congestionWindow c <= max_int64 ->
  (CanSend f c = false -> isCwndLimited f c = true)
  /\ (isCwndLimited f c = true -> isCwndLimited f' c = true).
Proof.
  open_sender c. cbn [congestionWindow]. intros Hf Hff Hf' Hw.
  unfold CanSend, isCwndLimited, InSlowStart, GetCongestionWindow.
  cbn [congestionWindow slowStartThreshold maxDatagramSize].
  split.
  - intros H. apply Z.ltb_ge in H.
    destruct (Z.geb_spec f w); [reflexivity|lia].
  - destruct (Z.geb_spec f' w) as [|Hlt']; [reflexivity|].
    destruct (Z.geb_spec f w) as [|Hlt]; [lia|].
    unfold sub64. rewrite !wrap_int64_id
      by (unfold in_int64, min_int64, max_int64 in *; lia).
    intros H. apply orb_true_iff in H. apply orb_true_iff.
    destruct H as [H|H].
    + left. apply andb_true_iff in H. destruct H as [H1 H2].
      apply andb_true_iff. split; [exact H1|].
      rewrite Z.gtb_ltb in *. apply Z.ltb_lt in H2. apply Z.ltb_lt. lia.
    + right. apply Z.leb_le in H. apply Z.leb_le. lia.
Qed.

(** *** Sending *)

Lemma step_send (e : event) (c : cubicSender) :
  is_send e ->
  exists c',
    step e c = Ok c'
    /\ congestionWindow c' = congestionWindow c
    /\ slowStartThreshold c' = slowStartThreshold c
    /\ numAckedPackets c' = numAckedPackets c
    /\ largestAckedPacketNumber c' = largestAckedPacketNumber c
    /\ largestSentAtLastCutback c' = largestSentAtLastCutback c
    /\ lastState c' = lastState c
    /\ tracer c' = tracer c
    /\ largestSentPacketNumber c' =
       last_retransmittable [e] (largestSentPacketNumber c).
Proof.
  open_sender c. destruct e; cbn [is_send]; try contradiction. intros _.
  destruct isRetransmittable;
    run_ops_untraced; (eexists; split; [reflexivity|]); cbn; conjs; reflexivity.
Qed.

(** X17. Sending never moves the window: through any number of [OnPacketSent]
    calls the window, the threshold, the ack counter, the largest
    acknowledged packet, the cutback mark and the trace stay as they were,
    and [largestSentPacketNumber] is the number of the last retransmittable
    packet sent, whether or not it is the largest. *)
Theorem sending_leaves_the_window (es : list event) : forall c : cubicSender,
  Forall is_send es ->
  exists c',
    run es c = Ok c'
    /\ congestionWindow c' = congestionWindow c
    /\ slowStartThreshold c' = slowStartThreshold c
    /\ numAckedPackets c' = numAckedPackets c
    /\ largestAckedPacketNumber c' = largestAckedPacketNumber c
    /\ largestSentAtLastCutback c' = largestSentAtLastCutback c
    /\ lastState c' = lastState c
    /\ tracer c' = tracer c
    /\ largestSentPacketNumber c' =
       last_retransmittable es (largestSentPacketNumber c).
Proof.
  induction es as [|e es IH]; intros c Hes.
  - exists c. cbn. conjs; reflexivity.
  - inversion Hes as [|? ? He Hes']; subst.
    destruct (step_send e c He)
      as (c1 & Hs & H1 & H2 & H3 & H4 & H5 & H6 & H7 & H8).
    destruct (IH c1 Hes') as (c2 & Hr & G1 & G2 & G3 & G4 & G5 & G6 & G7 & G8).
    exists c2. cbn [run]. rewrite Hs. split; [exact Hr|].
    conjs; try congruence.
    rewrite G8, H8. destruct e; cbn [is_send] in He; try contradiction.
    destruct isRetransmittable; reflexivity.
Qed.

(** *** Reachable states *)

Lemma step_valid_acked (e : event) (c : cubicSender) :
  InvalidPacketNumber <= largestAckedPacketNumber c ->
  InvalidPacketNumber <= largestAckedPacketNumber (state_of (step e c)).
Proof.
  open_sender c. cbn [largestAckedPacketNumber]. intros Hla.
  pose proof (fun pn => MaxPacketNumber_max pn la) as Hmax.
  destruct e; run_ops_untraced; rewrite ?Hmax; lia.
Qed.

Lemma run_valid_acked (es : list event) : forall c : cubicSender,
  InvalidPacketNumber <= largestAckedPacketNumber c ->
  InvalidPacketNumber <= largestAckedPacketNumber (state_of (run es c)).
Proof.
  induction es as [|e es IH]; intros c Hc; cbn [run]; [exact Hc|].
  pose proof (step_valid_acked e c Hc) as Hs.
  destruct (step e c) as [c1|c1]; cbn [state_of] in *; [apply IH|]; exact Hs.
Qed.

(** X18. In every state a sender built by [NewCubicSender] can reach,
    [largestAckedPacketNumber] is the invalid number or above it; so a
    retransmission timeout and a migration, which invalidate the cutback
    mark, always leave the sender out of recovery. *)
Theorem a_timeout_ends_recovery
    (mds0 : Z) (sa : StartAlgo) (ca : CongestionAlgo) (hasTracer : bool)
    (es : list event) (packetsRetransmitted : bool) :
  let c := state_of (run es (NewCubicSender mds0 sa ca hasTracer)) in
  InvalidPacketNumber <= largestAckedPacketNumber c
  /\ InRecovery (OnRetransmissionTimeout packetsRetransmitted c) = false
  /\ InRecovery (OnConnectionMigration c) = false.
Proof.
  cbv zeta.
  pose proof (run_valid_acked es (NewCubicSender mds0 sa ca hasTracer)
                (Z.le_refl _)) as Hla.
  set (c := state_of (run es (NewCubicSender mds0 sa ca hasTracer))) in *.
  clearbody c. clear mds0 sa ca hasTracer es.
  split; [exact Hla|].
  assert (Hout : forall d : cubicSender,
            largestSentAtLastCutback d = InvalidPacketNumber ->
            InvalidPacketNumber <= largestAckedPacketNumber d ->
            InRecovery d = false).
  { intros d Hd Hl. unfold InRecovery. rewrite Hd.
    destruct (Z.eqb_spec (largestAckedPacketNumber d) InvalidPacketNumber);
      [reflexivity|].
    cbn [negb andb]. apply Z.leb_gt. lia. }
  split; apply Hout.
  - open_sender c. destruct packetsRetransmitted, sa; reflexivity.
  - open_sender c. cbn in Hla.
    destruct packetsRetransmitted, sa; cbn; exact Hla.
  - open_sender c. destruct sa; reflexivity.
  - open_sender c. destruct sa; cbn; lia.
Qed.

(** *** Growth *)

Lemma run_app (es1 es2 : list event) : forall c : cubicSender,
  run (es1 ++ es2) c =
  match run es1 c with
  | Ok c1 => run es2 c1
  | Panic c1 => Panic c1
  end.
Proof.
  induction es1 as [|e es1 IH]; intros c; cbn [run app]; [reflexivity|].
  destruct (step e c); [apply IH | reflexivity].
Qed.

Lemma step_growth_inv (mds0 i : Z) (e : event) (c : cubicSender) :
  0 < mds0 -> 0 <= i ->
  32 <= MaxCongestionWindowPackets ->
  mds0 * (MaxCongestionWindowPackets + 1) < MaxByteCount ->
  MaxByteCount <= max_int64 ->
  full_ack (mds0 * MaxCongestionWindowPackets) e ->
  growth_inv mds0 i c ->
  exists c', step e c = Ok c' /\ growth_inv mds0 (i + acks_in [e]) c'.
Proof.
  intros Hm Hn HK HB HX He (Hsa & Hst & Hmds & Hlc & Hla & Hw).
  set (K := MaxCongestionWindowPackets) in *.
  assert (Hmul : mul64 mds0 K = mds0 * K)
    by (apply mul64_small; unfold max_int64 in *; nia).
  remember (Z.min (32 + i) K) as M eqn:HM.
  assert (HminK : M <= K) by lia.
  assert (Hmin32 : 32 <= M) by lia.
  assert (Hcap : mds0 * M <= mds0 * K) by nia.
  assert (Hpos : 0 <= mds0 * M) by nia.
  assert (Hnext : mds0 * M < mds0 * K ->
                  mds0 * M + mds0 = mds0 * Z.min (32 + (i + 1)) K).
  { intros Hlt. assert (M < K) by nia.
    replace (Z.min (32 + (i + 1)) K) with (M + 1) by lia.
    ring. }
  assert (Hstay : mds0 * K <= mds0 * M ->
                  mds0 * M = mds0 * Z.min (32 + (i + 1)) K).
  { intros Hge. assert (K <= M) by nia.
    replace (Z.min (32 + (i + 1)) K) with M by lia.
    reflexivity. }
  assert (Hadd : add64 (mds0 * M) mds0 = mds0 * M + mds0)
    by (apply add64_small; unfold min_int64, max_int64 in *; nia).
  assert (HwB : mds0 * M < MaxByteCount) by nia.
  unfold growth_inv. fold K.
  open_sender c. cbn [chosenStartAlgo slowStartThreshold maxDatagramSize
                      largestSentAtLastCutback largestAckedPacketNumber
                      congestionWindow] in *.
  subst sa st mds lc w.
  destruct e; cbn [full_ack] in He; try contradiction; cbn [acks_in];
    rewrite ?Z.add_0_r, <- ?HM.
  - run_ops_untraced; (eexists; split; [reflexivity|]); cbn; conjs;
      first [reflexivity | assumption].
  - run_ops_untraced; bools_to_props; try lia;
      (eexists; split; [reflexivity|]); cbn; conjs;
      first [reflexivity | assumption].
  - destruct He as [Hpn Hf].
    pose proof (MaxPacketNumber_max ackedPacketNumber la) as Hmax.
    assert (Hrec :
      negb (MaxPacketNumber ackedPacketNumber la =? InvalidPacketNumber)
      && (MaxPacketNumber ackedPacketNumber la <=? InvalidPacketNumber)
      = false).
    { apply andb_false_iff. right. apply Z.leb_gt. lia. }
    assert (Hlim : (priorInFlight >=? mds0 * M) = true).
    { rewrite Z.geb_leb. apply Z.leb_le. fold K in Hf. lia. }
    assert (Hss : (mds0 * M <? MaxByteCount) = true) by (apply Z.ltb_lt; lia).
    unfold step, OnPacketAcked, InRecovery, maybeIncreaseCwnd, isCwndLimited,
      InSlowStart, GetCongestionWindow, maxCongestionWindow.
    cbn [largestAckedPacketNumber largestSentAtLastCutback
         set_largestAckedPacketNumber congestionWindow slowStartThreshold
         maxDatagramSize].
    rewrite Hrec, Hlim. cbn [negb]. fold K. rewrite Hmul.
    rewrite Hss.
    run_ops_untraced; bools_to_props;
      (eexists; split; [reflexivity|]); cbn -[Z.mul Z.add Z.min add64];
      rewrite ?Hadd, ?Hmax; conjs; try reflexivity; try lia;
      first [apply Hnext; lia | apply Hstay; lia].
Qed.
Lemma run_growth_inv (mds0 : Z) (es : list event) :
  0 < mds0 ->
  32 <= MaxCongestionWindowPackets ->
  mds0 * (MaxCongestionWindowPackets + 1) < MaxByteCount ->
  MaxByteCount <= max_int64 ->
  Forall (full_ack (mds0 * MaxCongestionWindowPackets)) es ->
  forall (n : Z) (c : cubicSender), 0 <= n -> growth_inv mds0 n c ->
  exists c', run es c = Ok c' /\ growth_inv mds0 (n + acks_in es) c'.
Proof.
  intros Hm HK HB HX. induction 1 as [|e es He _ IH]; intros n c Hn Hc.
  - exists c. split; [reflexivity|]. cbn [acks_in]. rewrite Z.add_0_r. exact Hc.
  - destruct (step_growth_inv mds0 n e c Hm Hn HK HB HX He Hc)
      as (c1 & Hs & Hc1).
    assert (Ha : 0 <= acks_in [e]) by (destruct e; cbn; lia).
    destruct (IH (n + acks_in [e]) c1 ltac:(lia) Hc1) as (c2 & Hr & Hc2).
    exists c2. cbn [run]. rewrite Hs. split; [exact Hr|].
    replace (n + acks_in (e :: es)) with (n + acks_in [e] + acks_in es);
      [exact Hc2|].
    destruct e; cbn [acks_in]; lia.
Qed.

(** X19. Classic slow start in closed form. A sender built with classic slow
    start, fed sends, exit tests and acknowledgements of valid packets that
    arrive with at least a largest window in flight: nothing panics, and
    with [n] acknowledgements the window is [32 + n] datagrams, capped at
    [MaxCongestionWindowPackets] datagrams. *)
Theorem classic_slow_start_adds_a_datagram_per_ack
    (mds0 : Z) (ca : CongestionAlgo) (hasTracer : bool) (es : list event) :
  0 < mds0 ->
  32 <= MaxCongestionWindowPackets ->
  mds0 * (MaxCongestionWindowPackets + 1) < MaxByteCount ->
  MaxByteCount <= max_int64 ->
  Forall (full_ack (mds0 * MaxCongestionWindowPackets)) es ->
  exists c,
    run es (NewCubicSender mds0 ChooseSlowStart ca hasTracer) = Ok c
    /\ congestionWindow c =
       mds0 * Z.min (32 + acks_in es) MaxCongestionWindowPackets.
Proof.
  intros Hm HK HB HX Hes.
  assert (H0 : growth_inv mds0 0
                 (NewCubicSender mds0 ChooseSlowStart ca hasTracer)).
  { unfold growth_inv. cbn -[mul64 Z.mul Z.min].
    unfold initialCongestionWindowPackets.
    rewrite mul64_small by (unfold max_int64 in *; nia).
    conjs; try reflexivity; try lia.
    rewrite Z.min_l by lia. lia. }
  destruct (run_growth_inv mds0 es Hm HK HB HX Hes 0 _ ltac:(lia) H0)
    as (c & Hr & Hc).
  exists c. split; [exact Hr|].
  destruct Hc as (_ & _ & _ & _ & _ & Hw). exact Hw.
Qed.


Lemma step_avoidance_inv (c0 : cubicSender) (j : Z) (e : event)
    (c : cubicSender) :
  0 < maxDatagramSize c0 ->
  slowStartThreshold c0 <= congestionWindow c0 ->
  0 <= congestionWindow c0 ->
  congestionWindow c0 < maxCongestionWindow c0 ->
  congestionWindow c0 + maxDatagramSize c0 <= max_int64 ->
  0 <= j < congestionWindow c0 / maxDatagramSize c0 ->
  ack_after c0 e ->
  avoidance_inv c0 j c ->
  exists c',
    step e c = Ok c'
    /\ if j + 1 <? congestionWindow c0 / maxDatagramSize c0
       then avoidance_inv c0 (j + 1) c'
       else congestionWindow c' = congestionWindow c0 + maxDatagramSize c0
            /\ numAckedPackets c' = 0
            /\ slowStartThreshold c' = slowStartThreshold c0
            /\ maxDatagramSize c' = maxDatagramSize c0.
Proof.
  intros Hm Hst Hw0 Hmax Hfit Hj He (Hca & Hlss & Emds & Ew & Est & Elc & En).
  unfold avoidance_inv.
  destruct e; cbn [ack_after] in He; try contradiction.
  destruct He as [Hpn Hf].
  open_sender c0.
  destruct c as [h' hpp' k' p' sa' ca' ls' la' lc' le' w' st' n' iw' imw'
                   mds' lst' tr'].
  unfold maxCongestionWindow, InLowSlowStart in *.
  cbn [chosenCongestionAlgo chosenStartAlgo hybridSlowStartpp maxDatagramSize
       congestionWindow slowStartThreshold largestSentAtLastCutback
       numAckedPackets] in *.
  subst ca' mds' w' st' lc' n'.
  pose proof (MaxPacketNumber_max ackedPacketNumber la') as Emax.
  assert (Hrec :
    negb (MaxPacketNumber ackedPacketNumber la' =? InvalidPacketNumber)
    && (MaxPacketNumber ackedPacketNumber la' <=? lc) = false).
  { apply andb_false_iff. right. apply Z.leb_gt. lia. }
  assert (Hlim : (priorInFlight >=? w) = true)
    by (rewrite Z.geb_leb; apply Z.leb_le; lia).
  assert (Hcap : (w >=? mul64 mds MaxCongestionWindowPackets) = false)
    by (rewrite Z.geb_leb; apply Z.leb_gt; lia).
  assert (Hss : (w <? st) = false) by (apply Z.ltb_ge; lia).
  assert (Hq0 : 0 <= Z.quot w mds) by (apply Z.quot_pos; lia).
  assert (Hqw : Z.quot w mds <= w).
  { rewrite Z.quot_div_nonneg by lia.
    apply Z.div_le_upper_bound; [lia|]. nia. }
  assert (Hd : div64 w mds = Some (w / mds)).
  { unfold div64. destruct (Z.eqb_spec mds 0); [lia|].
    rewrite wrap_int64_id
      by (unfold in_int64, min_int64, max_int64 in *; lia).
    rewrite Z.quot_div_nonneg by lia. reflexivity. }
  rewrite Z.quot_div_nonneg in Hq0, Hqw by lia.
  assert (Hu1 : wrap_uint64 (j + 1) = j + 1)
    by (unfold wrap_uint64; apply Z.mod_small; unfold max_int64 in *; lia).
  assert (Huq : wrap_uint64 (w / mds) = w / mds)
    by (unfold wrap_uint64; apply Z.mod_small; unfold max_int64 in *; lia).
  assert (Hadd : add64 w mds = w + mds)
    by (apply add64_small; unfold min_int64, max_int64 in *; lia).
  unfold step, OnPacketAcked, InRecovery, maybeIncreaseCwnd, isCwndLimited,
    InSlowStart, InLowSlowStart, GetCongestionWindow, maxCongestionWindow.
  cbn [largestAckedPacketNumber largestSentAtLastCutback
       set_largestAckedPacketNumber congestionWindow slowStartThreshold
       maxDatagramSize chosenStartAlgo hybridSlowStartpp].
  rewrite Hrec, Hlim, Hcap, Hss, Hlss. cbn [negb].
  rewrite maybeTraceStateChange_writes.
  cbn -[Z.mul Z.add Z.div div64 wrap_uint64 add64 tracedState tracedCalls].
  rewrite Hd, Hu1, Huq, Z.geb_leb.
  assert (Hss' : (w + mds <? st) = false) by (apply Z.ltb_ge; lia).
  destruct (Z.ltb_spec (j + 1) (w / mds)) as [Hlt|Hge].
  - replace (w / mds <=? j + 1) with false by (symmetry; apply Z.leb_gt; lia).
    cbn -[Z.mul Z.add Z.div tracedState tracedCalls]. rewrite Hss.
    eexists. split; [reflexivity|]. cbn.
    conjs; first [reflexivity | assumption].
  - replace (w / mds <=? j + 1) with true by (symmetry; apply Z.leb_le; lia).
    cbn -[Z.mul Z.add Z.div add64 tracedState tracedCalls]. rewrite Hadd, Hss'.
    eexists. split; [reflexivity|]. cbn. conjs; reflexivity.
Qed.

Lemma run_avoidance_inv (c0 : cubicSender) (es : list event) :
  0 < maxDatagramSize c0 ->
  slowStartThreshold c0 <= congestionWindow c0 ->
  0 <= congestionWindow c0 ->
  congestionWindow c0 < maxCongestionWindow c0 ->
  congestionWindow c0 + maxDatagramSize c0 <= max_int64 ->
  Forall (ack_after c0) es ->
  forall (j : Z) (c : cubicSender),
  0 <= j ->
  j + Z.of_nat (length es) < congestionWindow c0 / maxDatagramSize c0 ->
  avoidance_inv c0 j c ->
  exists c',
    run es c = Ok c' /\ avoidance_inv c0 (j + Z.of_nat (length es)) c'.
Proof.
  intros Hm Hst Hw0 Hmax Hfit.
  induction 1 as [|e es He _ IH]; intros j c Hj Hlen Hc.
  - exists c. split; [reflexivity|]. cbn [length Z.of_nat].
    rewrite Z.add_0_r. exact Hc.
  - cbn [length] in *. rewrite Nat2Z.inj_succ in *.
    destruct (step_avoidance_inv c0 j e c Hm Hst Hw0 Hmax Hfit
                ltac:(lia) He Hc) as (c1 & Hs & Hc1).
    replace (j + 1 <? congestionWindow c0 / maxDatagramSize c0) with true
      in Hc1 by (symmetry; apply Z.ltb_lt; lia).
    destruct (IH (j + 1) c1 ltac:(lia) ltac:(lia) Hc1) as (c2 & Hr & Hc2).
    exists c2. cbn [run]. rewrite Hs. split; [exact Hr|].
    replace (j + Z.succ (Z.of_nat (length es)))
      with (j + 1 + Z.of_nat (length es)) by lia.
    exact Hc2.
Qed.

(** X20. NewReno congestion avoidance adds one datagram per window of
    acknowledgements. A NewReno sender outside slow start and Low Slow
    Start, below the largest window and with its counter at 0, is
    acknowledged [cwnd / maxDatagramSize] packets above the cutback mark,
    each with the window in flight: the window stays where it is up to the
    last of them, and the last one adds one datagram and clears the
    counter; the threshold is not touched. *)
Theorem reno_adds_a_datagram_per_window (es : list event) (c : cubicSender) :
  chosenCongestionAlgo c = ChooseNewReno ->
  InLowSlowStart c = false ->
  0 < maxDatagramSize c ->
  maxDatagramSize c <= congestionWindow c ->
  slowStartThreshold c <= congestionWindow c ->
  congestionWindow c < maxCongestionWindow c ->
  congestionWindow c + maxDatagramSize c <= max_int64 ->
  numAckedPackets c = 0 ->
  Forall (ack_after c) es ->
  Z.of_nat (length es) = congestionWindow c / maxDatagramSize c ->
  (exists c',
     run es c = Ok c'
     /\ congestionWindow c' = congestionWindow c + maxDatagramSize c
     /\ numAckedPackets c' = 0
     /\ slowStartThreshold c' = slowStartThreshold c)
  /\ (forall es1 es2, es = es1 ++ es2 -> es2 <> [] ->
      exists c1,
        run es1 c = Ok c1
        /\ congestionWindow c1 = congestionWindow c
        /\ numAckedPackets c1 = Z.of_nat (length es1)).
Proof.
  intros Hca Hlss Hm Hk Hst Hmax Hfit Hn Hes Hlen.
  assert (Hw0 : 0 <= congestionWindow c) by lia.
  assert (H0 : avoidance_inv c 0 c) by (unfold avoidance_inv; conjs; auto).
  assert (Hpre : forall es1 es2, es = es1 ++ es2 -> es2 <> [] ->
            exists c1, run es1 c = Ok c1
                       /\ avoidance_inv c (Z.of_nat (length es1)) c1).
  { intros es1 es2 -> Hne. rewrite length_app, Nat2Z.inj_add in Hlen.
    apply Forall_app in Hes. destruct Hes as [Hes1 _].
    assert (0 < Z.of_nat (length es2)) by (destruct es2; [contradiction|cbn; lia]).
    destruct (run_avoidance_inv c es1 Hm Hst Hw0 Hmax Hfit Hes1 0 c
                ltac:(lia) ltac:(lia) H0) as (c1 & Hr & Hc1).
    exists c1. split; [exact Hr|exact Hc1]. }
  split.
  - assert (Hne : es <> []).
    { intros ->. cbn in Hlen.
      assert (1 <= congestionWindow c / maxDatagramSize c)
        by (apply Z.div_le_lower_bound; lia). lia. }
    destruct (exists_last Hne) as (es1 & e & ->).
    destruct (Hpre es1 [e] eq_refl ltac:(discriminate)) as (c1 & Hr & Hc1).
    rewrite length_app, Nat2Z.inj_add in Hlen. cbn [length Z.of_nat] in Hlen.
    apply Forall_app in Hes. destruct Hes as [_ He]. inversion He as [|? ? He1 _]; subst.
    destruct (step_avoidance_inv c (Z.of_nat (length es1)) e c1 Hm Hst Hw0 Hmax
                Hfit ltac:(lia) He1 Hc1) as (c2 & Hs & Hc2).
    replace (Z.of_nat (length es1) + 1 <? congestionWindow c / maxDatagramSize c)
      with false in Hc2 by (symmetry; apply Z.ltb_ge; lia).
    destruct Hc2 as (Hw & Hn2 & Hst2 & _).
    exists c2. rewrite run_app, Hr. cbn [run]. rewrite Hs.
    conjs; [reflexivity | assumption..].
  - intros es1 es2 He Hne. destruct (Hpre es1 es2 He Hne) as (c1 & Hr & Hc1).
    exists c1. destruct Hc1 as (_ & _ & _ & Hw & _ & _ & Hj).
    conjs; assumption.
Qed.

End SenderFacts.

(** ** Concrete runs on the upstream constants *)
Module Scenarios.
Import Go utils logging Upstream.

(** C3: a migrated sender is not a fresh one. Right after construction
    (1200-byte datagrams, no tracer) [OnConnectionMigration] leaves the
    threshold at 10000 datagrams, where the constructor had set
    [MaxByteCount]. *)
Lemma migration_is_not_fresh :
  slowStartThreshold fresh1200_untraced = 2 ^ 62 - 1
  /\ slowStartThreshold (OnConnectionMigration fresh1200_untraced) = 12000000
  /\ OnConnectionMigration fresh1200_untraced <> fresh1200_untraced.
Proof.
  split; [reflexivity|]. split; [reflexivity|].
  intros H. apply (f_equal slowStartThreshold) in H. vm_compute in H.
  discriminate.
Qed.


(** C8: a migration ends classic slow start without any loss or timeout.
    [OnConnectionMigration] sets the threshold to the initial largest
    window, 10000 datagrams; 9968 acknowledgements later the window has
    grown from 32 datagrams to the threshold and [InSlowStart] is false. *)
Lemma migration_ends_classic_slow_start :
  Forall neither_loss_nor_timeout migrated
  /\ returned (run migrated fresh1200) = true
  /\ (let c := state_of (run migrated fresh1200) in
      chosenStartAlgo c = ChooseSlowStart
      /\ slowStartThreshold c = 12000000
      /\ congestionWindow c = 12000000
      /\ InSlowStart c = false).
Proof.
  split.
  - unfold migrated, acks. constructor; [exact I|].
    apply Forall_forall. intros e He. apply in_map_iff in He.
    destruct He as (i & <- & _). exact I.
  - vm_compute. repeat split; reflexivity.
Qed.

(** C5: a loss of a packet above the largest sent one is cut twice. On the
    fresh sender (nothing sent yet) the first loss of packet 0 cuts the
    window from 38400 to 26880, the second one to 18816. *)
Lemma unsent_loss_cuts_twice :
  largestSentPacketNumber fresh1200 = -1
  /\ congestionWindow (OnPacketLost 0 1200 1200 fresh1200) = 26880
  /\ congestionWindow
       (OnPacketLost 0 1200 1200 (OnPacketLost 0 1200 1200 fresh1200)) = 18816
  /\ OnPacketLost 0 1200 1200 (OnPacketLost 0 1200 1200 fresh1200)
     <> OnPacketLost 0 1200 1200 fresh1200.
Proof.
  split; [reflexivity|]. split; [vm_compute; reflexivity|].
  split; [vm_compute; reflexivity|].
  intros H. apply (f_equal congestionWindow) in H. vm_compute in H.
  discriminate.
Qed.

(** C6: from a window of 42000 bytes (35 datagrams) the float64 product
    is just below 29400 and truncates to 29399, one less than
    [floor (42000 * 0.7)]; and a sender without a tracer traces nothing. *)
Lemma reno_cut_is_not_floor :
  chosenCongestionAlgo grown42000 = ChooseNewReno
  /\ InLowSlowStart grown42000 = false
  /\ largestSentAtLastCutback grown42000 = -1
  /\ congestionWindow grown42000 = 42000
  /\ Z.max (7 * 42000 / 10) (2 * 1200) = 29400
  /\ congestionWindow (OnPacketLost 3 1200 40800 grown42000) = 29399
  /\ slowStartThreshold (OnPacketLost 3 1200 40800 grown42000) = 29399
  /\ traced (OnPacketLost 3 1200 40800 fresh1200_untraced) = [].
Proof. vm_compute. repeat split; reflexivity. Qed.

(** The first scenario of the specification: 16 datagrams sent, then 16
    acknowledgements with the whole window in flight, grow the window from
    38400 to 57600 bytes. *)
Example slow_start_doubling :
  congestionWindow (state_of (run (sends 0 16 ++ acks 0 16 38400) fresh1200))
  = 57600.
Proof. vm_compute. reflexivity. Qed.

(** The RTO scenario of the specification: from a window and a threshold of
    60000 bytes to a threshold of 30000 and a window of two datagrams. *)
Example rto_collapse :
  slowStartThreshold (OnRetransmissionTimeout true window60000) = 30000
  /\ congestionWindow (OnRetransmissionTimeout true window60000) = 2400
  /\ largestSentAtLastCutback (OnRetransmissionTimeout true window60000) = -1.
Proof. vm_compute. repeat split; reflexivity. Qed.

(** The stand-ins of the concrete environment respect what the window
    bounds ask of the collaborators. *)
Lemma quicgo_cubic_bounded : @cubic_bounded quicgo.
Proof. split; intros; cbn; lia. Qed.

Lemma quicgo_hpp_bounded : @hpp_bounded quicgo.
Proof.
  split; [reflexivity|]. split.
  - intros a cwnd mds s Ha Hm Hc Hb.
    cbn [Hpp_UpdateCwndHystartppSlowStart quicgo].
    unfold UpdateCwndHystartppSlowStart.
    rewrite add64_small by (unfold min_int64, max_int64; lia). lia.
  - intros a cwnd mds ss caw s Ha Hm Hs Hb Hcaw.
    cbn [Hpp_UpdateCwndHystartppLowSlowStart quicgo].
    unfold UpdateCwndHystartppLowSlowStart.
    set (n := Z.min a (2 * mds)).
    assert (Hn : 0 <= n <= 2 * mds) by (unfold n; lia).
    assert (H0 : 0 <= n * ss / (4 * cwnd)) by (apply Z.div_pos; nia).
    assert (H1 : n * ss / (4 * cwnd) <= n)
      by (apply Z.div_le_upper_bound; nia).
    lia.
Qed.


(** The amended C5 at work: packet 3 of the 35 sent ones, lost twice. *)
Lemma OnPacketLost_twice_witness :
  OnPacketLost 3 1200 40800 (OnPacketLost 3 1200 40800 grown42000)
  = OnPacketLost 3 1200 40800 grown42000.
Proof.
  apply (@OnPacketLost_twice quicgo 3 1200 40800 grown42000).
  vm_compute. congruence.
Defined.

(** The amended C6 at work: the loss scenario of the specification, from a
    window of 40000 to a window and a threshold of 28000, Recovery traced. *)
Lemma OnPacketLost_NewReno_cutback_witness :
  congestionWindow (OnPacketLost 0 1200 40000 window40000) = 28000
  /\ slowStartThreshold (OnPacketLost 0 1200 40000 window40000) = 28000
  /\ traced (OnPacketLost 0 1200 40000 window40000)
     = [CongestionStateSlowStart; CongestionStateRecovery].
Proof.
  destruct (@OnPacketLost_NewReno_cutback quicgo 0 1200 40000 window40000)
    as (Hw & Hs & _ & _ & _ & _ & H4 & _).
  - reflexivity.
  - reflexivity.
  - vm_compute. reflexivity.
  - specialize (H4 eq_refl). split; [exact H4|]. split.
    + rewrite Hs. exact H4.
    + vm_compute. reflexivity.
Defined.

(** The amended C8 at work: sixteen acknowledgements grow the window from
    38400 to 57600 bytes, the datagram size is raised, four more
    acknowledgements add 1452 bytes each, and the sender is still in slow
    start. *)
Lemma classic_slow_start_never_exits_witness :
  let o := run growing fresh1200 in
  let c := state_of o in
  congestionWindow c = 63408
  /\ slowStartThreshold c = @MaxByteCount quicgo
  /\ congestionWindow c < slowStartThreshold c
  /\ InSlowStart c = true
  /\ (Forall no_resize growing -> o = Ok c).
Proof.
  split; [vm_compute; reflexivity|].
  apply (@classic_slow_start_never_exits quicgo 1200 ChooseNewReno true
           growing).
  - vm_compute. congruence.
  - vm_compute. congruence.
  - vm_compute. reflexivity.
  - vm_compute. congruence.
  - cbn. repeat constructor.
Defined.

(** The further facts at work on the upstream constants. *)

Lemma only_a_smaller_size_panics_witness :
  let o := run shrinking (@NewCubicSender quicgo 1200 ChooseSlowStart ChooseNewReno true) in
  1200 <= maxDatagramSize (state_of o)
  /\ (forall c', o = Panic c' ->
        exists s, In (EvSetMaxDatagramSize s) shrinking /\ s < maxDatagramSize c').
Proof.
  apply (@only_a_smaller_size_panics quicgo 1200 ChooseSlowStart ChooseNewReno
           true shrinking).
  lia.
Defined.

Lemma zero_datagram_size_panics_witness :
  (forall c : sender,
     maxDatagramSize c = 0 -> InSlowStart c = true ->
     chosenStartAlgo c = ChooseHystart ->
     MaybeExitSlowStart noRTT c = Panic c)
  /\ (0 < @MaxByteCount quicgo ->
      MaybeExitSlowStart noRTT (@NewCubicSender quicgo 0 ChooseHystart ChooseNewReno true)
      = Panic (@NewCubicSender quicgo 0 ChooseHystart ChooseNewReno true)).
Proof.
  apply (@zero_datagram_size_panics quicgo noRTT ChooseHystart ChooseNewReno true).
  discriminate.
Defined.

Lemma largestAcked_is_maximum_witness :
  largestAckedPacketNumber (state_of (run reordered fresh1200)) =
  fold_left Z.max (acked_numbers reordered) (largestAckedPacketNumber fresh1200).
Proof.
  apply (@largestAcked_is_maximum quicgo reordered fresh1200).
  - cbn. repeat constructor.
  - vm_compute. reflexivity.
Defined.

Lemma recovery_freezes_the_window_witness :
  let c1 := OnPacketLost 3 1200 40800 grown42000 in
  OnPacketAcked noRTT 4 1200 39600 0 c1 =
  Ok (set_largestAckedPacketNumber
        (Z.max 4 (largestAckedPacketNumber grown42000)) c1)
  /\ InRecovery
       (set_largestAckedPacketNumber
          (Z.max 4 (largestAckedPacketNumber grown42000)) c1) = true.
Proof.
  apply (@recovery_freezes_the_window quicgo noRTT 3 1200 40800 4 1200 39600 0
           grown42000).
  - vm_compute. reflexivity.
  - vm_compute. reflexivity.
  - vm_compute. congruence.
  - vm_compute. congruence.
Defined.

Lemma ack_past_the_cutback_ends_recovery_witness :
  InRecovery
    (state_of (OnPacketAcked noRTT 35 1200 39600 0
                 (OnPacketLost 3 1200 40800 grown42000))) = false.
Proof.
  apply (@ack_past_the_cutback_ends_recovery quicgo noRTT 35 1200 39600 0
           (OnPacketLost 3 1200 40800 grown42000)).
  vm_compute. reflexivity.
Defined.

Lemma an_ack_adds_at_most_one_datagram_witness :
  exists c',
    OnPacketAcked noRTT 0 1200 38400 0 fresh1200 = Ok c'
    /\ congestionWindow fresh1200 <= congestionWindow c'
    /\ congestionWindow c' <= congestionWindow fresh1200 + maxDatagramSize fresh1200
    /\ slowStartThreshold c' = slowStartThreshold fresh1200
    /\ maxDatagramSize c' = maxDatagramSize fresh1200.
Proof.
  apply (@an_ack_adds_at_most_one_datagram quicgo noRTT 0 1200 38400 0 fresh1200).
  - vm_compute. congruence.
  - unfold window_inv, fits. cbn. repeat split; try discriminate; try lia;
      try reflexivity.
Defined.

Lemma isCwndLimited_monotone_witness :
  (CanSend 30000 fresh1200 = false -> isCwndLimited 30000 fresh1200 = true)
  /\ (isCwndLimited 30000 fresh1200 = true ->
      isCwndLimited 35000 fresh1200 = true).
Proof.
  apply (@isCwndLimited_monotone quicgo 30000 35000 fresh1200).
  - lia.
  - lia.
  - vm_compute. congruence.
  - vm_compute. split; congruence.
Defined.

Lemma classic_slow_start_adds_a_datagram_per_ack_witness :
  exists c,
    run sixteen (@NewCubicSender quicgo 1200 ChooseSlowStart ChooseNewReno true)
    = Ok c
    /\ congestionWindow c =
       1200 * Z.min (32 + acks_in sixteen) (@MaxCongestionWindowPackets quicgo).
Proof.
  apply (@classic_slow_start_adds_a_datagram_per_ack quicgo 1200 ChooseNewReno
           true sixteen).
  - lia.
  - vm_compute. congruence.
  - vm_compute. reflexivity.
  - vm_compute. congruence.
  - cbn. repeat constructor; lia.
Defined.

Lemma reno_adds_a_datagram_per_window_witness :
  (exists c',
     run (acks 0 22 26880) avoiding26880 = Ok c'
     /\ congestionWindow c' =
        congestionWindow avoiding26880 + maxDatagramSize avoiding26880
     /\ numAckedPackets c' = 0
     /\ slowStartThreshold c' = slowStartThreshold avoiding26880)
  /\ (forall es1 es2, acks 0 22 26880 = es1 ++ es2 -> es2 <> [] ->
      exists c1,
        run es1 avoiding26880 = Ok c1
        /\ congestionWindow c1 = congestionWindow avoiding26880
        /\ numAckedPackets c1 = Z.of_nat (length es1)).
Proof.
  apply (@reno_adds_a_datagram_per_window quicgo (acks 0 22 26880) avoiding26880).
  - reflexivity.
  - reflexivity.
  - vm_compute. reflexivity.
  - vm_compute. congruence.
  - vm_compute. congruence.
  - vm_compute. reflexivity.
  - vm_compute. congruence.
  - vm_compute. reflexivity.
  - cbn. repeat constructor; vm_compute; congruence.
  - vm_compute. reflexivity.
Defined.

Lemma sending_leaves_the_window_witness :
  exists c',
    run (sends 0 5) fresh1200 = Ok c'
    /\ congestionWindow c' = congestionWindow fresh1200
    /\ slowStartThreshold c' = slowStartThreshold fresh1200
    /\ numAckedPackets c' = numAckedPackets fresh1200
    /\ largestAckedPacketNumber c' = largestAckedPacketNumber fresh1200
    /\ largestSentAtLastCutback c' = largestSentAtLastCutback fresh1200
    /\ lastState c' = lastState fresh1200
    /\ tracer c' = tracer fresh1200
    /\ largestSentPacketNumber c' =
       last_retransmittable (sends 0 5) (largestSentPacketNumber fresh1200).
Proof.
  apply (@sending_leaves_the_window quicgo (sends 0 5) fresh1200).
  cbn. repeat constructor.
Defined.

End Scenarios.
